(** * AERIS weather node server: a shallow embedding of its two controllers

    The repository holds two versions of the controller:
    - [src/aeris.py], the older controller (module [Legacy] below), whose
      [query_forecast] folds 3-hour buckets into one summary per day;
    - [src/nodes/aeris.py], the current controller (module [Nodes] below),
      with the observation extraction, the forecast dispatch loop and the
      creation and deletion of the per-day forecast nodes.

    Python values are an inductive type, floats are the kernel's binary64
    floats, exceptions and early [return]s are outcomes of a small monad
    that also records the calls made to the outside (HTTP requests, driver
    updates, node creation and deletion, forecast dispatch). *)

From Stdlib Require Import ZArith List String Ascii Bool Floats Lia.
From Stdlib Require Import Permutation DecimalString DecimalZ.
Import ListNotations.

Local Open Scope string_scope.
Local Open Scope Z_scope.

(** ** Python values (what [json.loads] and the parameter store hold) *)

#[local] Set Warnings "-register-all,-inexact-float".

Inductive value : Type :=
| VNone
| VBool (b : bool)
| VInt (n : Z)
| VFloat (f : float)
| VStr (s : string)
| VList (l : list value)
| VDict (d : list (string * value)).

(** Exceptions, by class. *)
Inductive exn : Type :=
| KeyError (k : string)
| IndexError
| TypeError
| ValueError
| AttributeError
| OverflowError
| ZeroDivisionError
| HTTPError.

(** *** Dictionaries with string keys, in insertion order *)

Definition dict (V : Type) : Type := list (string * V).

Fixpoint dict_get {V : Type} (d : dict V) (k : string) : option V :=
  match d with
  | [] => None
  | (k', v) :: d' => if String.eqb k k' then Some v else dict_get d' k
  end.

(** [d[k] = v]: replaces the value of an existing key, else appends. *)
Fixpoint dict_set {V : Type} (d : dict V) (k : string) (v : V) : dict V :=
  match d with
  | [] => [(k, v)]
  | (k', v') :: d' =>
      if String.eqb k k' then (k, v) :: d' else (k', v') :: dict_set d' k v
  end.

Definition dict_mem {V : Type} (d : dict V) (k : string) : bool :=
  match dict_get d k with Some _ => true | None => false end.

(** *** Strings *)

(** [s.split(sep)] for a one-character separator. *)
Fixpoint split (sep : ascii) (s : string) : list string :=
  match s with
  | EmptyString => [EmptyString]
  | String c s' =>
      if Ascii.eqb c sep then EmptyString :: split sep s'
      else match split sep s' with
           | [] => [String c EmptyString]
           | h :: t => String c h :: t
           end
  end.

Definition is_substring (k s : string) : bool :=
  match index 0 k s with Some _ => true | None => false end.

(** [str(n)] for an int. *)
Definition str_of_Z (n : Z) : string := NilZero.string_of_int (Z.to_int n).

(** *** Numbers *)

(** [float(n)] for an int: the nearest binary64 value (ties to even). *)
Definition float_of_Z (n : Z) : float :=
  SF2Prim (binary_normalize prec emax n 0 false).

(** [int(f)] for a float: truncation toward zero; no value for nan and the
    infinities. *)
Definition Z_of_float (f : float) : option Z :=
  match Prim2SF f with
  | S754_zero _ => Some 0
  | S754_finite s m e =>
      let a := Z.shiftl (Z.pos m) e in Some (if s then - a else a)
  | S754_infinity _ | S754_nan => None
  end.

(** ** The outside world

    What the controllers call and this repository's [src/] does not define:
    the Python builtins [float] and [int] on strings, the HTTP transport,
    the host's node registry, the per-day node's [update_forecast], and the
    vocabulary tables of [nodes/weather_codes.py]. *)

Record Env : Type := {
  (** [float(s)] for a str: [None] when it raises (ValueError). *)
  float_of_str : string -> option float;
  (** [int(s)] for a str: [None] when it raises (ValueError). *)
  int_of_str : string -> option Z;
  (** the decoded JSON body answered to a GET of the request; [None] when
      the transport fails or the body is not JSON. *)
  fetch : string -> option value;
  (** where [fetch] is [None]: the transport delivered a body, and the
      body is not JSON. *)
  garbled : string -> bool;
  (** [wx.coverage_codes], [wx.intensity_codes], [wx.weather_codes]: total
      lookups, an unknown segment maps to a code of its own. *)
  coverage_codes : string -> Z;
  intensity_codes : string -> Z;
  weather_codes : string -> Z;
  (** whether the host deletes / creates the node of this address without
      raising. *)
  delNode_ok : string -> bool;
  addNode_ok : string -> bool;
  (** whether the node's [update_forecast] returns without raising, and
      the exception it raises when it does not. *)
  update_forecast_ok : string -> bool;
  update_forecast_error : string -> exn
}.

(** ** Python operations on values *)

Section Builtins.
Variable env : Env.

(** [float(v)] *)
Definition py_float (v : value) : option float :=
  match v with
  | VFloat f => Some f
  | VInt n =>
      let f := float_of_Z n in
      if PrimFloat.is_infinity f then None else Some f
  | VBool b => Some (if b then 1%float else 0%float)
  | VStr s => float_of_str env s
  | VNone | VList _ | VDict _ => None
  end.

(** [int(v)] *)
Definition py_int (v : value) : option Z :=
  match v with
  | VInt n => Some n
  | VBool b => Some (if b then 1 else 0)
  | VFloat f => Z_of_float f
  | VStr s => int_of_str env s
  | VNone | VList _ | VDict _ => None
  end.
End Builtins.

(** The class of the exception that [float(v)] raises when it has no
    value: ValueError for a str, OverflowError for an int too large for a
    float, TypeError for None, a list or a dict. *)
Definition float_error (v : value) : exn :=
  match v with
  | VStr _ => ValueError
  | VInt _ => OverflowError
  | VNone | VBool _ | VFloat _ | VList _ | VDict _ => TypeError
  end.

(** The class of the exception that [int(v)] raises when it has no value:
    ValueError for a str and for nan, OverflowError for an infinity,
    TypeError for None, a list or a dict. *)
Definition int_error (v : value) : exn :=
  match v with
  | VStr _ => ValueError
  | VFloat f => if PrimFloat.is_nan f then ValueError else OverflowError
  | VNone | VBool _ | VInt _ | VList _ | VDict _ => TypeError
  end.

(** [k in v] for a str [k]: key of a dict, element of a list, substring of
    a str; TypeError on the rest. *)
Definition py_in (k : string) (v : value) : exn + bool :=
  match v with
  | VDict d => inr (dict_mem d k)
  | VList l =>
      inr (existsb (fun x => match x with VStr s => String.eqb s k | _ => false end) l)
  | VStr s => inr (is_substring k s)
  | VNone | VBool _ | VInt _ | VFloat _ => inl TypeError
  end.

(** [v[k]] for a str [k]. *)
Definition py_getitem (v : value) (k : string) : exn + value :=
  match v with
  | VDict d => match dict_get d k with Some x => inr x | None => inl (KeyError k) end
  | _ => inl TypeError
  end.

(** [v[i]] for an int [i >= 0]. The keys of a decoded JSON object are
    strings, so an int is never a key of it. *)
Definition py_index (v : value) (i : nat) : exn + value :=
  match v with
  | VList l => match nth_error l i with Some x => inr x | None => inl IndexError end
  | VStr s =>
      match String.get i s with
      | Some c => inr (VStr (String c EmptyString))
      | None => inl IndexError
      end
  | VDict _ => inl (KeyError (str_of_Z (Z.of_nat i)))
  | VNone | VBool _ | VInt _ | VFloat _ => inl TypeError
  end.

(** [v.split(sep)] *)
Definition py_split (v : value) (sep : ascii) : exn + list string :=
  match v with
  | VStr s => inr (split sep s)
  | _ => inl AttributeError
  end.

(** ['literal' + v] *)
Definition py_str_add (s : string) (v : value) : exn + string :=
  match v with
  | VStr t => inr (s ++ t)
  | _ => inl TypeError
  end.

(** [len(v)] *)
Definition py_len (v : value) : exn + nat :=
  match v with
  | VList l => inr (List.length l)
  | VDict d => inr (List.length d)
  | VStr s => inr (String.length s)
  | VNone | VBool _ | VInt _ | VFloat _ => inl TypeError
  end.

(** the elements [for x in v] runs over. *)
Definition py_iter (v : value) : exn + list value :=
  match v with
  | VList l => inr l
  | VDict d => inr (map (fun kv => VStr (fst kv)) d)
  | VStr s => inr (map (fun c => VStr (String c EmptyString)) (list_ascii_of_string s))
  | VNone | VBool _ | VInt _ | VFloat _ => inl TypeError
  end.

Definition is_None (v : value) : bool :=
  match v with VNone => true | _ => false end.

Definition is_list (v : value) : bool :=
  match v with VList _ => true | _ => false end.

(** ** Calls to the outside, recorded in order *)

(** The legacy controller's [self.fcast], the summary of the day being
    folded. Its ten keys are assigned together when a day starts, and it is
    read only while [start] is true, that is after such an assignment. *)
Record fcast_t : Type := {
  temp_max : float;
  temp_min : float;
  Hmax : float;
  Hmin : float;
  pressure : float;
  weather : float;
  speed : float;
  clouds : float;
  dt : value;
  uv : value
}.

Inductive event : Type :=
| Fetch (request : string)
    (** an HTTP GET was issued *)
| SetDriver (driver : string) (v : float)
    (** the host's [setDriver] was called with a float *)
| MissingData (driver : string)
    (** [update_driver] found no number and skipped the driver *)
| LogError (msg : string)
| LogExn (e : exn)
| DelNode (address : string)
| DelNodeFailed (address : string)
| AddNode (address : string)
| AddNodeFailed (title : string)
| UpdateForecast (address : string) (forecast latitude elevation plant_type : value)
    (tag : dict string) (force : bool)
    (** [nodes/aeris.py]: one period handed to the node of a forecast day *)
| UpdateForecastLegacy (address : string) (summary : fcast_t)
    (latitude elevation plant_type units : value)
    (** [aeris.py]: one folded day handed to the node of a forecast day *).

(** ** Statements: state, trace, and how control leaves *)

Inductive outcome (A : Type) : Type :=
| Normal (a : A)      (** control falls through *)
| Returned            (** a [return] was executed *)
| Raised (e : exn)    (** an exception is propagating *).
Arguments Normal {A} a.
Arguments Returned {A}.
Arguments Raised {A} e.

Record result (S A : Type) : Type := mkResult {
  trace : list event;
  final : S;
  out : outcome A
}.
Arguments mkResult {S A} trace final out.
Arguments trace {S A} r.
Arguments final {S A} r.
Arguments out {S A} r.

Definition M (S A : Type) : Type := S -> result S A.

Definition ret {S A : Type} (a : A) : M S A :=
  fun s => mkResult [] s (Normal a).

Definition bind {S A B : Type} (m : M S A) (f : A -> M S B) : M S B :=
  fun s =>
    let r := m s in
    match out r with
    | Normal a =>
        let r' := f a (final r) in
        mkResult (trace r ++ trace r') (final r') (out r')
    | Returned => mkResult (trace r) (final r) Returned
    | Raised e => mkResult (trace r) (final r) (Raised e)
    end.

Declare Scope py_scope.
Delimit Scope py_scope with py.
Notation "x <- m ;; k" := (bind m (fun x => k))
  (at level 61, m at next level, right associativity) : py_scope.
Notation "m ;; k" := (bind m (fun _ => k))
  (at level 61, right associativity) : py_scope.
Local Open Scope py_scope.

Definition emit {S : Type} (ev : event) : M S unit :=
  fun s => mkResult [ev] s (Normal tt).

Definition raise {S A : Type} (e : exn) : M S A :=
  fun s => mkResult [] s (Raised e).

(** [return] *)
Definition return_ {S A : Type} : M S A :=
  fun s => mkResult [] s Returned.

Definition get_self {S : Type} : M S S :=
  fun s => mkResult [] s (Normal s).

Definition set_self {S : Type} (s' : S) : M S unit :=
  fun _ => mkResult [] s' (Normal tt).

(** an operation that raises or yields a value *)
Definition lift {S A : Type} (x : exn + A) : M S A :=
  match x with inl e => raise e | inr a => ret a end.

Definition lift_opt {S A : Type} (e : exn) (x : option A) : M S A :=
  match x with None => raise e | Some a => ret a end.

(** [try: body  except Exception as e: handler e]; a [return] inside the
    body leaves the function. *)
Definition try_except {S A : Type} (body : M S A) (handler : exn -> M S A) : M S A :=
  fun s =>
    let r := body s in
    match out r with
    | Raised e =>
        let r' := handler e (final r) in
        mkResult (trace r ++ trace r') (final r') (out r')
    | _ => r
    end.

(** [for x in l: body x]; a [return] or an exception leaves the loop. *)
Fixpoint for_each {S A : Type} (l : list A) (body : A -> M S unit) : M S unit :=
  match l with
  | [] => ret tt
  | x :: l' => body x ;; for_each l' body
  end.

(** A method call: a [return] in the body ends the call, not the caller. *)
Definition call {S : Type} (body : M S unit) : M S unit :=
  fun s =>
    let r := body s in
    match out r with
    | Returned => mkResult (trace r) (final r) (Normal tt)
    | _ => r
    end.

(** [for x in l: body] where the body updates local variables [acc]. *)
Fixpoint for_fold {S A L : Type} (l : list A) (acc : L) (body : L -> A -> M S L) : M S L :=
  match l with
  | [] => ret acc
  | x :: l' => acc' <- body acc x ;; for_fold l' acc' body
  end.

(** [range(a, b)] *)
Definition range (a b : Z) : list Z :=
  map (fun i => a + Z.of_nat i) (seq 0 (Z.to_nat (b - a))).

(** ** The parameter store *)

Module NSParameters.

(** Modelled from the spec: the class [node_funcs.NSParameters], whose
    source is not in [src/]. The spec (sections 3, 6 and 8) describes a
    mapping of named parameters, each with a default and a required flag,
    and says that [isConfigured()] holds iff every required parameter is
    non-empty and not its default. [get] answers the current value of a
    parameter, which is its default until it is set; [isSet] applies
    the criterion of [isConfigured] to one parameter. *)
Record param : Type := {
  name : string;
  current : value;
  default : string;
  isRequired : bool
}.

Definition t : Type := list param.

Definition get (ps : t) (n : string) : value :=
  match find (fun p => String.eqb (name p) n) ps with
  | Some p => current p
  | None => VNone
  end.

Definition set (ps : t) (n : string) (v : value) : t :=
  map (fun p =>
         if String.eqb (name p) n
         then {| name := name p; current := v;
                 default := default p; isRequired := isRequired p |}
         else p) ps.

Definition filled (p : param) : bool :=
  match current p with
  | VStr s => negb (String.eqb s "") && negb (String.eqb s (default p))
  | VNone => false
  | _ => true
  end.

Definition isSet (ps : t) (n : string) : bool :=
  match find (fun p => String.eqb (name p) n) ps with
  | Some p => filled p
  | None => false
  end.

Definition isConfigured (ps : t) : bool :=
  forallb (fun p => negb (isRequired p) || filled p) ps.

(** [update(custom)]: every loaded custom parameter replaces the current
    value of the parameter of its name. *)
Definition update (ps : t) (custom : dict value) : t :=
  fold_left (fun acc kv => set acc (fst kv) (snd kv)) custom ps.

Definition declare (n d : string) (req : bool) : param :=
  {| name := n; current := VStr d; default := d; isRequired := req |}.

End NSParameters.

(** ** The current controller: [src/nodes/aeris.py] *)

Module Nodes.

Record Controller : Type := {
  configured : bool;
  latitude : value;
  longitude : value;
  force : bool;
  tag : dict string;
  params : NSParameters.t;
  (** the addresses of [self.nodes], the nodes the host holds *)
  nodes : list string
}.

(** [__init__] *)
Definition init_params : NSParameters.t :=
  [ NSParameters.declare "ClientID" "set me" true;
    NSParameters.declare "ClientSecret" "set me" true;
    NSParameters.declare "Location" "set me" true;
    NSParameters.declare "Units" "imperial" false;
    NSParameters.declare "Forecast Days" "0" false;
    NSParameters.declare "Elevation" "0" false;
    NSParameters.declare "Plant Type" "0.23" false ].

Definition init : Controller :=
  {| configured := false; latitude := VInt 0; longitude := VInt 0;
     force := true; tag := []; params := init_params; nodes := [] |}.

Definition with_configured (b : bool) (c : Controller) : Controller :=
  {| configured := b; latitude := latitude c; longitude := longitude c;
     force := force c; tag := tag c; params := params c; nodes := nodes c |}.

Definition with_latitude (v : value) (c : Controller) : Controller :=
  {| configured := configured c; latitude := v; longitude := longitude c;
     force := force c; tag := tag c; params := params c; nodes := nodes c |}.

Definition with_force (b : bool) (c : Controller) : Controller :=
  {| configured := configured c; latitude := latitude c; longitude := longitude c;
     force := b; tag := tag c; params := params c; nodes := nodes c |}.

Definition with_tag (t : dict string) (c : Controller) : Controller :=
  {| configured := configured c; latitude := latitude c; longitude := longitude c;
     force := force c; tag := t; params := params c; nodes := nodes c |}.

Definition with_params (p : NSParameters.t) (c : Controller) : Controller :=
  {| configured := configured c; latitude := latitude c; longitude := longitude c;
     force := force c; tag := tag c; params := p; nodes := nodes c |}.

Definition with_nodes (n : list string) (c : Controller) : Controller :=
  {| configured := configured c; latitude := latitude c; longitude := longitude c;
     force := force c; tag := tag c; params := params c; nodes := n |}.

Definition modify (f : Controller -> Controller) : M Controller unit :=
  fun c => mkResult [] (f c) (Normal tt).

(** [self.params.get(n)] *)
Definition param (n : string) : M Controller value :=
  c <- get_self ;; ret (NSParameters.get (params c) n).

(** [set_tags]: the provider's key of every logical field. *)
Definition metric_tags : list (string * string) :=
  [ ("temperature", "tempC"); ("humidity", "humidity");
    ("pressure", "pressureMB"); ("windspeed", "windSpeedKPH");
    ("gustspeed", "windGustKPH"); ("winddir", "windDirDEG");
    ("visibility", "visibilityKM"); ("precipitation", "precipMM");
    ("snow", "snowDepthCM"); ("snowf", "snowCM");
    ("dewpoint", "dewpointC"); ("heatindex", "heatindexC");
    ("windchill", "windchillC"); ("feelslike", "feelslikeC");
    ("solarrad", "solradWM2"); ("sky", "sky");
    ("temp_min", "minTempC"); ("temp_max", "maxTempC");
    ("humidity_min", "minHumidity"); ("humidity_max", "maxHumidity");
    ("wind_min", "windSpeedMinKPH"); ("wind_max", "windSpeedMaxKPH");
    ("winddir_min", "windDirMinDEG"); ("winddir_max", "windDirMaxDEG");
    ("uv", "uvi"); ("pop", "pop"); ("timestamp", "timestamp");
    ("precip_summary", "totalMM") ].

Definition imperial_tags : list (string * string) :=
  [ ("temperature", "tempF"); ("humidity", "humidity");
    ("pressure", "pressureIN"); ("windspeed", "windSpeedMPH");
    ("gustspeed", "windGustMPH"); ("winddir", "windDirDEG");
    ("visibility", "visibilityMI"); ("precipitation", "precipIN");
    ("snow", "snowDepthIN"); ("snowf", "snowIN");
    ("dewpoint", "dewpointF"); ("heatindex", "heatindexF");
    ("windchill", "windchillF"); ("feelslike", "feelslikeF");
    ("solarrad", "solradWM2"); ("sky", "sky");
    ("temp_min", "minTempF"); ("temp_max", "maxTempF");
    ("humidity_min", "minHumidity"); ("humidity_max", "maxHumidity");
    ("wind_min", "windSpeedMinMPH"); ("wind_max", "windSpeedMaxMPH");
    ("winddir_min", "windDirMinDEG"); ("winddir_max", "windDirMaxDEG");
    ("uv", "uvi"); ("pop", "pop"); ("timestamp", "timestamp");
    ("precip_summary", "totalIN") ].

Definition is_metric (units : value) : bool :=
  match units with VStr s => String.eqb s "metric" | _ => false end.

Definition set_tags (units : value) : M Controller unit :=
  modify (fun c =>
    with_tag (fold_left (fun d kv => dict_set d (fst kv) (snd kv))
                (if is_metric units then metric_tags else imperial_tags)
                (tag c)) c).

Section WithEnv.
Variable env : Env.

(** Modelled from the spec: [update_driver] of [node_funcs], whose source
    is not in [src/]. The spec (section 4.4) gives the sink's contract: a
    value that coerces to a number is written to the driver, one that does
    not is skipped without raising. [aeris.py] keeps an [update_driver] of
    this shape. *)
Definition update_driver (driver : string) (v : value) : M Controller unit :=
  match py_float env v with
  | Some x => emit (SetDriver driver x)
  | None => emit (MissingData driver)
  end.

Definition get_weather_data (extra : string) : M Controller value :=
  let request := "http://api.aerisapi.com/" ++ extra ++ "/" in
  v <- param "Location" ;;
  request <- lift (py_str_add request v) ;;
  v <- param "ClientID" ;;
  request <- lift (py_str_add (request ++ "?client_id=") v) ;;
  v <- param "ClientSecret" ;;
  request <- lift (py_str_add (request ++ "&client_secret=") v) ;;
  request <-
    (if String.eqb extra "forecasts" then
       v <- param "Forecast Days" ;;
       lift (py_str_add (request ++ "&filter=mdnt2mdnt" ++ "&precise" ++ "&limit=") v)
     else ret request) ;;
  let request :=
    if String.eqb extra "observations/summary"
    then request ++ "&fields=periods.summary.precip" else request in
  emit (Fetch request) ;;
  match fetch env request with
  | Some jdata => ret jdata
  | None => emit (LogError "HTTP request failed for api.aerisapi.com") ;; ret VNone
  end.

(** [ob[self.tag[logical]]] *)
Definition field (ob : value) (logical : string) : M Controller value :=
  c <- get_self ;;
  k <- lift_opt (KeyError logical) (dict_get (tag c) logical) ;;
  lift (py_getitem ob k).

(** [ob['weatherCoded'].split(':')[i]] *)
Definition segment (ob : value) (i : nat) : M Controller string :=
  wc <- lift (py_getitem ob "weatherCoded") ;;
  segs <- lift (py_split wc ":"%char) ;;
  lift_opt IndexError (nth_error segs i).

(** Lines 230-257: the query, the checks of the envelope and the
    latitude; the value is [ob]. *)
Definition open_observation : M Controller value :=
  jdata <- get_weather_data "observations" ;;
  if is_None jdata then
    emit (LogError "Current condition query returned no data") ;; return_
  else
  b <- lift (py_in "response" jdata) ;;
  if negb b then
    emit (LogError "No response object in query response.") ;; return_
  else
  response <- lift (py_getitem jdata "response") ;;
  b <- lift (py_in "ob" response) ;;
  if negb b then
    emit (LogError "No observation object in query response.") ;; return_
  else
  b <- lift (py_in "loc" response) ;;
  (if b then
     loc <- lift (py_getitem response "loc") ;;
     b <- lift (py_in "lat" loc) ;;
     if b then
       lat <- lift (py_getitem loc "lat") ;;
       x <- lift_opt (float_error lat) (py_float env lat) ;;
       modify (with_latitude (VFloat x))
     else emit (LogError "No latitude data in response.")
   else emit (LogError "No location data in response.")) ;;
  lift (py_getitem response "ob").

(** Lines 259-272: fourteen drivers, each from the key of its field. *)
Definition extract_fields (ob : value) : M Controller unit :=
  v <- field ob "temperature" ;; update_driver "CLITEMP" v ;;
  v <- field ob "humidity" ;; update_driver "CLIHUM" v ;;
  v <- field ob "pressure" ;; update_driver "BARPRES" v ;;
  v <- field ob "windspeed" ;; update_driver "SPEED" v ;;
  v <- field ob "gustspeed" ;; update_driver "GV5" v ;;
  v <- field ob "winddir" ;; update_driver "WINDDIR" v ;;
  v <- field ob "visibility" ;; update_driver "DISTANC" v ;;
  v <- field ob "dewpoint" ;; update_driver "DEWPT" v ;;
  v <- field ob "heatindex" ;; update_driver "GV3" v ;;
  v <- field ob "windchill" ;; update_driver "GV4" v ;;
  v <- field ob "feelslike" ;; update_driver "GV2" v ;;
  v <- field ob "solarrad" ;; update_driver "SOLRAD" v ;;
  v <- field ob "uv" ;; update_driver "UV" v ;;
  v <- field ob "snow" ;; update_driver "GV15" v.

(** Lines 280-288: the three drivers of the coded weather. *)
Definition extract_weather (ob : value) : M Controller unit :=
  wc <- lift (py_getitem ob "weatherCoded") ;;
  _ <- lift (py_str_add "**>>> WeatherCoded = " wc) ;;
  weather <- segment ob 0 ;;
  update_driver "GV11" (VInt (coverage_codes env weather)) ;;
  weather <- segment ob 1 ;;
  update_driver "GV12" (VInt (intensity_codes env weather)) ;;
  weather <- segment ob 2 ;;
  update_driver "GV13" (VInt (weather_codes env weather)).

(** Lines 259-295: the drivers of the observation [ob]; the value is the
    local [precipitation]. *)
Definition extract_observation (ob : value) : M Controller value :=
  extract_fields ob ;;
  extract_weather ob ;;
  v <- lift (py_getitem ob "sky") ;; update_driver "GV14" v ;;
  field ob "precipitation".

(** The body of the first [try] of [query_conditions]; its value is the
    local [precipitation] when the body runs to its end. *)
Definition observations : M Controller value :=
  ob <- open_observation ;;
  extract_observation ob.

(** The body of the second [try] of [query_conditions]. *)
Definition precipitation_summary : M Controller unit :=
  jdata <- get_weather_data "observations/summary" ;;
  if is_None jdata then
    emit (LogError "Precipitation summary query returned no data") ;; return_
  else
  b <- lift (py_in "response" jdata) ;;
  if negb b then
    emit (LogError "No response object in query response.") ;; return_
  else
  response <- lift (py_getitem jdata "response") ;;
  rd <- (if is_list response then
           r0 <- lift (py_index response 0) ;;
           periods <- lift (py_getitem r0 "periods") ;;
           p0 <- lift (py_index periods 0) ;;
           lift (py_getitem p0 "summary")
         else
           periods <- lift (py_getitem response "periods") ;;
           p0 <- lift (py_index periods 0) ;;
           lift (py_getitem p0 "summary")) ;;
  b <- lift (py_in "precip" rd) ;;
  if b then
    precip <- lift (py_getitem rd "precip") ;;
    c <- get_self ;;
    k <- lift_opt (KeyError "precip_summary") (dict_get (tag c) "precip_summary") ;;
    v <- lift (py_getitem precip k) ;;
    update_driver "GV6" v
  else ret tt.

(** The first [try] with its handler: [precipitation] stays the 0 of
    line 227 when the body raises. *)
Definition observation_phase : M Controller value :=
  try_except observations
    (fun e =>
       emit (LogError "Current observation update failure") ;;
       emit (LogExn e) ;;
       ret (VInt 0)).

(** The second [try] with its handler. *)
Definition summary_phase (precipitation : value) : M Controller unit :=
  try_except precipitation_summary
    (fun e =>
       emit (LogError "Precipitation summary update failure") ;;
       emit (LogExn e) ;;
       update_driver "GV6" precipitation).

Definition query_conditions : M Controller unit :=
  call (
    c <- get_self ;;
    if negb (configured c) then return_
    else
    precipitation <- observation_phase ;;
    summary_phase precipitation).

(** [self.nodes[address].update_forecast(...)] *)
Definition update_forecast (address : string) (forecast : value) : M Controller unit :=
  c <- get_self ;;
  if existsb (String.eqb address) (nodes c) then
    emit (UpdateForecast address forecast (latitude c)
            (NSParameters.get (params c) "Elevation")
            (NSParameters.get (params c) "Plant Type") (tag c) (force c)) ;;
    if update_forecast_ok env address then ret tt
    else raise (update_forecast_error env address)
  else raise (KeyError address).

(** The body of the loop of [query_forecast]; [day] is the local
    variable, the value is [day] after the body. *)
Definition forecast_period (day : Z) (forecast : value) : M Controller Z :=
  let address := "forecast_" ++ str_of_Z day in
  iso <- lift (py_getitem forecast "dateTimeISO") ;;
  _ <- lift (py_str_add " >>>>   period " iso) ;;
  update_forecast address forecast ;;
  let day := day + 1 in
  v <- param "Forecast Days" ;;
  n <- lift_opt (int_error v) (py_int env v) ;;
  if day >=? n then return_ else ret day.

Definition query_forecast : M Controller unit :=
  call (
    c <- get_self ;;
    if negb (configured c) then return_
    else
    try_except (
      jdata <- get_weather_data "forecasts" ;;
      if is_None jdata then
        emit (LogError "Current condition query returned no data") ;; return_
      else
      let day := 0 in
      response <- lift (py_getitem jdata "response") ;;
      r0 <- lift (py_index response 0) ;;
      b <- lift (py_in "periods" r0) ;;
      if b then
        periods <- lift (py_getitem r0 "periods") ;;
        _ <- lift (py_len periods) ;;
        l <- lift (py_iter periods) ;;
        _ <- for_fold l day forecast_period ;;
        ret tt
      else ret tt)
      (fun e => emit (LogError "Forecast data failure: ") ;; emit (LogExn e))).

(** [try: self.delNode(address) except: ...] *)
Definition delete_node (address : string) : M Controller unit :=
  if delNode_ok env address then
    emit (DelNode address) ;;
    modify (fun c =>
      with_nodes (filter (fun a => negb (String.eqb a address)) (nodes c)) c)
  else emit (DelNodeFailed address).

(** [try: node = DailyNode(...); self.addNode(node) except: ...] *)
Definition create_node (address title : string) : M Controller unit :=
  if addNode_ok env address then
    emit (AddNode address) ;;
    modify (fun c =>
      if existsb (String.eqb address) (nodes c) then c
      else with_nodes (nodes c ++ [address]) c)
  else emit (AddNodeFailed title).

(** [set_driver_uom(units)] of the controller: the unit table comes from
    [nodes/uom.py]; every forecast node of the horizon is then told the
    units, and a missing one is a KeyError. *)
Definition set_driver_uom (units : value) : M Controller unit :=
  _ <- lift (py_str_add "Configure driver units to " units) ;;
  v <- param "Forecast Days" ;;
  n <- lift_opt (int_error v) (py_int env v) ;;
  for_each (range 0 n) (fun day =>
    let address := "forecast_" ++ str_of_Z day in
    c <- get_self ;;
    if existsb (String.eqb address) (nodes c) then ret tt
    else raise (KeyError address)).

(** The two loops of [discover], before the units are set. *)
Definition reconcile : M Controller unit :=
  v <- param "Forecast Days" ;;
  num_days <- lift_opt (int_error v) (py_int env v) ;;
  (if num_days <? 7 then
     for_each (range num_days 7) (fun day =>
       delete_node ("forecast_" ++ str_of_Z day))
   else ret tt) ;;
  for_each (range 0 num_days) (fun day =>
    create_node ("forecast_" ++ str_of_Z day) ("Forecast " ++ str_of_Z day)).

Definition discover : M Controller unit :=
  call (
    reconcile ;;
    v <- param "Units" ;;
    set_driver_uom v).

Definition check_params : M Controller unit :=
  call (
    c <- get_self ;;
    if NSParameters.isConfigured (params c) then
      modify (with_configured true) ;;
      v <- param "Forecast Days" ;;
      n <- lift_opt (int_error v) (py_int env v) ;;
      if n >? 6 then
        modify (fun c =>
          with_params (NSParameters.set (params c) "Forecast Days" (VInt 6)) c)
      else ret tt
    else ret tt).

Definition parameterHandler (custom : dict value) : M Controller unit :=
  call (
    modify (fun c => with_params (NSParameters.update (params c) custom) c) ;;
    c <- get_self ;;
    if NSParameters.isConfigured (params c) then
      modify (with_configured true) ;;
      if NSParameters.isSet (params c) "Forecast Days" then discover
      else ret tt
    else ret tt).

Definition start : M Controller unit :=
  call (
    check_params ;;
    v <- param "Units" ;;
    set_tags v ;;
    discover ;;
    c <- get_self ;;
    if configured c then
      query_conditions ;;
      query_forecast ;;
      modify (with_force false)
    else ret tt).

Definition poll (longpoll : bool) : M Controller unit :=
  call (if longpoll then query_forecast else query_conditions).

End WithEnv.
End Nodes.

(** ** The older controller: [src/aeris.py] *)

Module Legacy.

Record Controller : Type := {
  (** [self.location], [self.apikey] and [self.units] hold what the host
      delivered: [process_config] and [check_params] assign the values of
      the custom parameters as they are. *)
  location : value;
  apikey : value;
  units : value;
  configured : bool;
  (** [self.latitude] and [self.longitude] are the int 0 of [__init__]:
      no live statement assigns them. *)
  latitude : Z;
  longitude : Z;
  fcast : fcast_t;
  plant_type : value;
  elevation : value;
  uom : dict Z;
  nodes : list string
}.

(** [self.fcast = {}]: no key is read before a day start assigns it. *)
Definition empty_fcast : fcast_t :=
  {| temp_max := 0; temp_min := 0; Hmax := 0; Hmin := 0; pressure := 0;
     weather := 0; speed := 0; clouds := 0; dt := VNone; uv := VNone |}.

Definition init : Controller :=
  {| location := VStr ""; apikey := VStr ""; units := VStr "metric";
     configured := false;
     latitude := 0; longitude := 0; fcast := empty_fcast;
     plant_type := VFloat 0.23; elevation := VInt 0; uom := []; nodes := [] |}.

Definition with_fcast (f : fcast_t) (c : Controller) : Controller :=
  {| location := location c; apikey := apikey c; units := units c;
     configured := configured c; latitude := latitude c;
     longitude := longitude c; fcast := f; plant_type := plant_type c;
     elevation := elevation c; uom := uom c; nodes := nodes c |}.

Definition with_apikey (k : value) (c : Controller) : Controller :=
  {| location := location c; apikey := k; units := units c;
     configured := configured c; latitude := latitude c;
     longitude := longitude c; fcast := fcast c; plant_type := plant_type c;
     elevation := elevation c; uom := uom c; nodes := nodes c |}.

(** [self.fcast[key] = x], key by key *)
Definition set_temp_max (x : float) (f : fcast_t) : fcast_t :=
  {| temp_max := x; temp_min := temp_min f; Hmax := Hmax f; Hmin := Hmin f;
     pressure := pressure f; weather := weather f; speed := speed f;
     clouds := clouds f; dt := dt f; uv := uv f |}.
Definition set_temp_min (x : float) (f : fcast_t) : fcast_t :=
  {| temp_max := temp_max f; temp_min := x; Hmax := Hmax f; Hmin := Hmin f;
     pressure := pressure f; weather := weather f; speed := speed f;
     clouds := clouds f; dt := dt f; uv := uv f |}.
Definition set_Hmax (x : float) (f : fcast_t) : fcast_t :=
  {| temp_max := temp_max f; temp_min := temp_min f; Hmax := x; Hmin := Hmin f;
     pressure := pressure f; weather := weather f; speed := speed f;
     clouds := clouds f; dt := dt f; uv := uv f |}.
Definition set_Hmin (x : float) (f : fcast_t) : fcast_t :=
  {| temp_max := temp_max f; temp_min := temp_min f; Hmax := Hmax f; Hmin := x;
     pressure := pressure f; weather := weather f; speed := speed f;
     clouds := clouds f; dt := dt f; uv := uv f |}.
Definition set_pressure (x : float) (f : fcast_t) : fcast_t :=
  {| temp_max := temp_max f; temp_min := temp_min f; Hmax := Hmax f; Hmin := Hmin f;
     pressure := x; weather := weather f; speed := speed f;
     clouds := clouds f; dt := dt f; uv := uv f |}.
Definition set_weather (x : float) (f : fcast_t) : fcast_t :=
  {| temp_max := temp_max f; temp_min := temp_min f; Hmax := Hmax f; Hmin := Hmin f;
     pressure := pressure f; weather := x; speed := speed f;
     clouds := clouds f; dt := dt f; uv := uv f |}.
Definition set_speed (x : float) (f : fcast_t) : fcast_t :=
  {| temp_max := temp_max f; temp_min := temp_min f; Hmax := Hmax f; Hmin := Hmin f;
     pressure := pressure f; weather := weather f; speed := x;
     clouds := clouds f; dt := dt f; uv := uv f |}.
Definition set_clouds (x : float) (f : fcast_t) : fcast_t :=
  {| temp_max := temp_max f; temp_min := temp_min f; Hmax := Hmax f; Hmin := Hmin f;
     pressure := pressure f; weather := weather f; speed := speed f;
     clouds := x; dt := dt f; uv := uv f |}.
Definition set_dt (v : value) (f : fcast_t) : fcast_t :=
  {| temp_max := temp_max f; temp_min := temp_min f; Hmax := Hmax f; Hmin := Hmin f;
     pressure := pressure f; weather := weather f; speed := speed f;
     clouds := clouds f; dt := v; uv := uv f |}.
Definition set_uv (v : value) (f : fcast_t) : fcast_t :=
  {| temp_max := temp_max f; temp_min := temp_min f; Hmax := Hmax f; Hmin := Hmin f;
     pressure := pressure f; weather := weather f; speed := speed f;
     clouds := clouds f; dt := dt f; uv := v |}.

Definition modify_fcast (g : fcast_t -> fcast_t) : M Controller unit :=
  fun c => mkResult [] (with_fcast (g (fcast c)) c) (Normal tt).

(** The two patterns of [re.fullmatch]: five digits, and five digits, a
    comma and two characters other than a newline. A str is the string of
    its characters, each of a code below 256; the decimal digits among
    these are 0 to 9. *)
Definition is_digit (c : ascii) : bool :=
  let n := nat_of_ascii c in (48 <=? n)%nat && (n <=? 57)%nat.

Definition not_newline (c : ascii) : bool :=
  negb (Nat.eqb (nat_of_ascii c) 10).

Definition is_zip (s : string) : bool :=
  match list_ascii_of_string s with
  | [a; b; c; d; e] =>
      is_digit a && is_digit b && is_digit c && is_digit d && is_digit e
  | _ => false
  end.

Definition is_zip_country (s : string) : bool :=
  match list_ascii_of_string s with
  | [a; b; c; d; e; comma; x; y] =>
      is_digit a && is_digit b && is_digit c && is_digit d && is_digit e
      && Ascii.eqb comma ","%char && not_newline x && not_newline y
  | _ => false
  end.

(** [re.fullmatch(pattern, v) != None]: TypeError when [v] is not a str. *)
Definition fullmatch (pattern : string -> bool) (v : value) : exn + bool :=
  match v with
  | VStr s => inr (pattern s)
  | _ => inl TypeError
  end.

(** [x] then [f], for operations that raise or yield a value. *)
Definition and_then {A B : Type} (x : exn + A) (f : A -> exn + B) : exn + B :=
  match x with
  | inl e => inl e
  | inr a => f a
  end.

(** The request of [query_conditions], lines 133-144: it is built, and
    raises TypeError when the location is not a str, before [configured]
    is tested. *)
Definition conditions_request (c : Controller) : exn + string :=
  let request := "http://api.aerisapi.com/observations/" in
  and_then (fullmatch is_zip_country (location c)) (fun zip_country =>
  and_then
    (if zip_country then py_str_add request (location c)
     else
       and_then (fullmatch is_zip (location c)) (fun zip =>
       if zip then py_str_add request (location c)
       else py_str_add request (location c)))
    (fun request =>
  let request := request ++ "?client_id=JGlB9OD1KA1EvzoSkpBmJ" in
  inr (request ++ "&client_secret=xiZGRDGO61ZP2YZH1YDwVB6tuDMX4Zx3o9yeXDyI"))).

(** The first request of [query_forecast], lines 264-274, built before
    [configured] is tested as well. *)
Definition forecast_request (c : Controller) : exn + string :=
  let request := "http://api.openweathermap.org/data/2.5/forecast?" in
  and_then (fullmatch is_zip_country (location c)) (fun zip_country =>
  and_then
    (if zip_country then
       and_then (py_str_add "zip=" (location c)) (fun z => inr (request ++ z))
     else
       and_then (fullmatch is_zip (location c)) (fun zip =>
       if zip then
         and_then (py_str_add "zip=" (location c)) (fun z => inr (request ++ z))
       else py_str_add request (location c)))
    (fun request =>
  and_then (py_str_add "&units=" (units c)) (fun u =>
  let request := request ++ u in
  and_then (py_str_add "&appid=" (apikey c)) (fun k =>
  inr (request ++ k))))).

(** The second request of [query_forecast], lines 288-292. *)
Definition uv_request (c : Controller) : exn + string :=
  let request := "http://api.openweathermap.org/data/2.5/uvi/forecast?" in
  and_then (py_str_add "appid=" (apikey c)) (fun k =>
  let request := request ++ k in
  let request := request ++ "&lat=" ++ str_of_Z (latitude c) in
  inr (request ++ "&lon=" ++ str_of_Z (longitude c))).

(** The locals of the loop of [query_forecast]. *)
Record locals : Type := {
  day : Z;
  start : bool;
  count : Z
}.

Section WithEnv.
Variable env : Env.

(** [http.request('GET', request)]: raises when the transport fails, and
    no handler is around it. *)
Definition http_request (request : string) : M Controller unit :=
  emit (Fetch request) ;;
  match fetch env request with
  | Some _ => ret tt
  | None => if garbled env request then ret tt else raise HTTPError
  end.

(** [json.loads(data.decode('utf-8'))] of the body delivered for the
    request: ValueError when the body is not JSON. *)
Definition json_loads (request : string) : M Controller value :=
  lift_opt ValueError (fetch env request).

(** [update_driver], lines 119-124 *)
Definition update_driver (driver : string) (v : value) (u : Z) : M Controller unit :=
  match py_float env v with
  | Some x => emit (SetDriver driver x)
  | None => emit (MissingData driver)
  end.

(** [self.update_driver(driver, ob[key], self.uom[driver])] *)
Definition update_from (ob : value) (driver key : string) : M Controller unit :=
  v <- lift (py_getitem ob key) ;;
  c <- get_self ;;
  u <- lift_opt (KeyError driver) (dict_get (uom c) driver) ;;
  update_driver driver v u.

Definition query_conditions : M Controller unit :=
  call (
    c <- get_self ;;
    request <- lift (conditions_request c) ;;
    if negb (configured c) then return_
    else
    http_request request ;;
    jdata <- json_loads request ;;
    if is_None jdata then
      emit (LogError "Current condition query returned no data") ;; return_
    else
    b <- lift (py_in "response" jdata) ;;
    if negb b then
      emit (LogError "No response object in query response.") ;; return_
    else
    response <- lift (py_getitem jdata "response") ;;
    b <- lift (py_in "ob" response) ;;
    if negb b then
      emit (LogError "No observation object in query response.") ;; return_
    else
    ob <- lift (py_getitem response "ob") ;;
    update_from ob "CLITEMP" "tempC" ;;
    update_from ob "CLIHUM" "humidity" ;;
    update_from ob "BARPRES" "pressureMB" ;;
    update_from ob "GV4" "windSpeedKPH" ;;
    update_from ob "WINDDIR" "windDirDEG" ;;
    update_from ob "GV15" "visibilityKM" ;;
    update_from ob "GV6" "precipMM").

(** [float(forecast[k1][k2])] *)
Definition reading (forecast : value) (k1 k2 : string) : M Controller float :=
  a <- lift (py_getitem forecast k1) ;;
  v <- lift (py_getitem a k2) ;;
  lift_opt (float_error v) (py_float env v).

(** [x / n] for a float [x] and an int [n] *)
Definition py_div (x : float) (n : Z) : M Controller float :=
  if n =? 0 then raise ZeroDivisionError
  else ret (x / float_of_Z n)%float.

(** [self.nodes[address].update_forecast(self.fcast, ...)] *)
Definition update_forecast (address : string) (elev plant : value) : M Controller unit :=
  c <- get_self ;;
  if existsb (String.eqb address) (nodes c) then
    emit (UpdateForecastLegacy address (fcast c)
            (VInt (latitude c)) elev plant (units c)) ;;
    if update_forecast_ok env address then ret tt
    else raise (update_forecast_error env address)
  else raise (KeyError address).

(** Lines 325-341: the bucket of 00:00:00 starts a day. *)
Definition start_day (uv_data : value) (l : locals) (forecast : value) : M Controller locals :=
  x <- reading forecast "main" "temp_max" ;; modify_fcast (set_temp_max x) ;;
  x <- reading forecast "main" "temp_min" ;; modify_fcast (set_temp_min x) ;;
  x <- reading forecast "main" "humidity" ;; modify_fcast (set_Hmax x) ;;
  x <- reading forecast "main" "humidity" ;; modify_fcast (set_Hmin x) ;;
  x <- reading forecast "main" "pressure" ;; modify_fcast (set_pressure x) ;;
  w <- lift (py_getitem forecast "weather") ;;
  w0 <- lift (py_index w 0) ;;
  v <- lift (py_getitem w0 "id") ;;
  x <- lift_opt (float_error v) (py_float env v) ;; modify_fcast (set_weather x) ;;
  x <- reading forecast "wind" "speed" ;; modify_fcast (set_speed x) ;;
  x <- reading forecast "clouds" "all" ;; modify_fcast (set_clouds x) ;;
  v <- lift (py_getitem forecast "dt") ;; modify_fcast (set_dt v) ;;
  try_except
    (u <- lift (py_index uv_data (Z.to_nat (day l - 1))) ;;
     v <- lift (py_getitem u "value") ;;
     modify_fcast (set_uv v))
    (fun _ => modify_fcast (set_uv (VInt 0))) ;;
  ret {| day := day l; start := true; count := 1 |}.

(** Lines 342-357: a later bucket of a started day. *)
Definition fold_bucket (l : locals) (forecast : value) : M Controller locals :=
  x <- reading forecast "main" "temp_max" ;;
  c <- get_self ;;
  (if (temp_max (fcast c) <? x)%float then
     x <- reading forecast "main" "temp_max" ;; modify_fcast (set_temp_max x)
   else ret tt) ;;
  x <- reading forecast "main" "temp_min" ;;
  c <- get_self ;;
  (if (x <? temp_min (fcast c))%float then
     x <- reading forecast "main" "temp_min" ;; modify_fcast (set_temp_min x)
   else ret tt) ;;
  x <- reading forecast "main" "humidity" ;;
  c <- get_self ;;
  (if (Hmax (fcast c) <? x)%float then
     x <- reading forecast "main" "humidity" ;; modify_fcast (set_Hmax x)
   else ret tt) ;;
  x <- reading forecast "main" "humidity" ;;
  c <- get_self ;;
  (if (x <? Hmin (fcast c))%float then
     x <- reading forecast "main" "humidity" ;; modify_fcast (set_Hmin x)
   else ret tt) ;;
  x <- reading forecast "main" "pressure" ;;
  modify_fcast (fun f => set_pressure (pressure f + x)%float f) ;;
  x <- reading forecast "wind" "speed" ;;
  modify_fcast (fun f => set_speed (speed f + x)%float f) ;;
  x <- reading forecast "clouds" "all" ;;
  modify_fcast (fun f => set_clouds (clouds f + x)%float f) ;;
  ret {| day := day l; start := start l; count := count l + 1 |}.

(** [self.fcast[k] /= n] for the three averaged keys *)
Definition close_averages (n : Z) : M Controller unit :=
  c <- get_self ;;
  x <- py_div (pressure (fcast c)) n ;; modify_fcast (set_pressure x) ;;
  c <- get_self ;;
  x <- py_div (speed (fcast c)) n ;; modify_fcast (set_speed x) ;;
  c <- get_self ;;
  x <- py_div (clouds (fcast c)) n ;; modify_fcast (set_clouds x).

(** The body of the loop, lines 313-371. *)
Definition forecast_bucket (uv_data : value) (l : locals) (forecast : value) : M Controller locals :=
  txt <- lift (py_getitem forecast "dt_txt") ;;
  dt <- lift (py_split txt " "%char) ;;
  _ <- lift_opt IndexError (nth_error dt 0) ;;
  dt1 <- lift_opt IndexError (nth_error dt 1) ;;
  l <- (if String.eqb dt1 "00:00:00" then start_day uv_data l forecast
        else if start l then fold_bucket l forecast
        else ret l) ;;
  if String.eqb dt1 "21:00:00" && start l then
    close_averages 8 ;;
    c <- get_self ;;
    update_forecast ("forecast_" ++ str_of_Z (day l)) (elevation c) (plant_type c) ;;
    ret {| day := day l + 1; start := false; count := 0 |}
  else ret l.

Definition query_forecast : M Controller unit :=
  call (
    c <- get_self ;;
    request <- lift (forecast_request c) ;;
    if negb (configured c) then return_
    else
    http_request request ;;
    uv <- lift (uv_request c) ;;
    http_request uv ;;
    uv_data <- json_loads uv ;;
    jdata <- json_loads request ;;
    let l := {| day := 1; start := false; count := 0 |} in
    b <- lift (py_in "list" jdata) ;;
    if b then
      lst <- lift (py_getitem jdata "list") ;;
      forecasts <- lift (py_iter lst) ;;
      l <- for_fold forecasts l (forecast_bucket uv_data) ;;
      if start l then
        close_averages (count l) ;;
        update_forecast ("forecast_" ++ str_of_Z (day l)) (VInt 400) (VFloat 0.23)
      else ret tt
    else ret tt).

End WithEnv.
End Legacy.

(** ** What a trace says *)

(** The drivers [update_driver] was called for, in order. *)
Definition driver_of (ev : event) : option string :=
  match ev with
  | SetDriver d _ => Some d
  | MissingData d => Some d
  | _ => None
  end.

Fixpoint drivers_updated (t : list event) : list string :=
  match t with
  | [] => []
  | ev :: t' =>
      match driver_of ev with
      | Some d => d :: drivers_updated t'
      | None => drivers_updated t'
      end
  end.

(** The forecast nodes a period or a summary was handed to, in order. *)
Fixpoint dispatched (t : list event) : list string :=
  match t with
  | [] => []
  | UpdateForecast a _ _ _ _ _ _ :: t' => a :: dispatched t'
  | UpdateForecastLegacy a _ _ _ _ _ :: t' => a :: dispatched t'
  | _ :: t' => dispatched t'
  end.

(** The summaries the legacy controller handed out, in order. *)
Fixpoint summaries (t : list event) : list fcast_t :=
  match t with
  | [] => []
  | UpdateForecastLegacy _ s _ _ _ _ :: t' => s :: summaries t'
  | _ :: t' => summaries t'
  end.

(** The HTTP requests issued, in order. *)
Fixpoint requests (t : list event) : list string :=
  match t with
  | [] => []
  | Fetch r :: t' => r :: requests t'
  | _ :: t' => requests t'
  end.

(** ** Sample data *)

Module Samples.

(** [int] on the strings the samples use: an optional minus sign and
    decimal digits. *)
Definition int_of_digit_str (s : string) : option Z :=
  option_map Z.of_int (NilZero.int_of_string s).

(** A world that answers the three kinds of request with the bodies given
    and in which the host never fails. *)
Definition world (observation summary forecast : option value) : Env :=
  {| float_of_str := fun _ => None;
     int_of_str := int_of_digit_str;
     fetch := fun request =>
       if is_substring "/observations/summary/" request then summary
       else if is_substring "/observations/" request then observation
       else forecast;
     garbled := fun _ => false;
     coverage_codes := fun _ => 1;
     intensity_codes := fun _ => 2;
     weather_codes := fun _ => 3;
     delNode_ok := fun _ => true;
     addNode_ok := fun _ => true;
     update_forecast_ok := fun _ => true;
     update_forecast_error := fun _ => ValueError |}.

Definition silent : Env := world None None None.

(** The silent world with a host that refuses to delete and to create the
    node of one address. *)
Definition refusing (address : string) : Env :=
  {| float_of_str := float_of_str silent;
     int_of_str := int_of_str silent;
     fetch := fetch silent;
     garbled := garbled silent;
     coverage_codes := coverage_codes silent;
     intensity_codes := intensity_codes silent;
     weather_codes := weather_codes silent;
     delNode_ok := fun a => negb (String.eqb a address);
     addNode_ok := fun a => negb (String.eqb a address);
     update_forecast_ok := update_forecast_ok silent;
     update_forecast_error := update_forecast_error silent |}.

(** An imperial observation with every key the controller reads. *)
Definition ob_full : dict value :=
  [ ("tempF", VInt 70); ("humidity", VInt 40); ("pressureIN", VFloat 30.5);
    ("windSpeedMPH", VInt 5); ("windGustMPH", VInt 9); ("windDirDEG", VInt 180);
    ("visibilityMI", VInt 10); ("dewpointF", VInt 50); ("heatindexF", VInt 70);
    ("windchillF", VInt 70); ("feelslikeF", VInt 70); ("solradWM2", VInt 300);
    ("uvi", VInt 3); ("snowDepthIN", VInt 0);
    ("weatherCoded", VStr "PT:HVY:RA"); ("sky", VInt 50);
    ("precipIN", VFloat 0.5) ].

Definition without (k : string) (d : dict value) : dict value :=
  filter (fun kv => negb (String.eqb (fst kv) k)) d.

Definition observation_body (ob : dict value) : value :=
  VDict [ ("success", VBool true); ("error", VNone);
          ("response", VDict [("id", VStr "KMSP"); ("ob", VDict ob)]) ].

Definition summary_body (precip : dict value) : value :=
  VDict [ ("success", VBool true);
          ("response",
            VList [VDict [("periods",
              VList [VDict [("summary", VDict [("precip", VDict precip)])]])]]) ].

Definition credentials : dict value :=
  [ ("ClientID", VStr "id"); ("ClientSecret", VStr "secret");
    ("Location", VStr "55555") ].

(** A configured imperial controller without forecast nodes. *)
Definition configured_controller : Nodes.Controller :=
  Nodes.with_configured true
    (Nodes.with_params (NSParameters.update Nodes.init_params credentials)
       (Nodes.with_tag Nodes.imperial_tags Nodes.init)).


Definition with_days (days : string) (nodes : list string) : Nodes.Controller :=
  Nodes.with_nodes nodes
    (Nodes.with_params
       (NSParameters.set (Nodes.params configured_controller) "Forecast Days" (VStr days))
       configured_controller).


Definition two_segments : dict value :=
  dict_set ob_full "weatherCoded" (VStr "PT:HVY").

Definition summary_ok : value := summary_body [("totalIN", VFloat 1.25)].

(** A summary whose response has no periods. *)
Definition summary_without_periods : value :=
  VDict [("success", VBool true); ("response", VDict [])].

Definition observation_request : string :=
  "http://api.aerisapi.com/observations/55555?client_id=id&client_secret=secret".

Definition period (iso : string) : value :=
  VDict [ ("timestamp", VInt 1546300800); ("dateTimeISO", VStr iso);
          ("maxTempF", VInt 40); ("minTempF", VInt 20) ].

Definition forecast_body (periods : list value) : value :=
  VDict [ ("success", VBool true);
          ("response", VList [VDict [("periods", VList periods)]]) ].

(** A 3-hour bucket of the legacy forecast. *)
Definition bucket (time : string) (tmax tmin hum pres spd cld : float) : value :=
  VDict [ ("dt", VInt 1546300800);
          ("main", VDict [ ("temp_max", VFloat tmax); ("temp_min", VFloat tmin);
                           ("humidity", VFloat hum); ("pressure", VFloat pres) ]);
          ("weather", VList [VDict [("id", VInt 800)]]);
          ("clouds", VDict [("all", VFloat cld)]);
          ("wind", VDict [("speed", VFloat spd)]);
          ("dt_txt", VStr ("2019-01-01 " ++ time)) ].

(** A bucket with one temperature, a humidity of 40, a wind speed of 2 and
    a cloud cover of 20. *)
Definition simple_bucket (time : string) (temp pres : float) : value :=
  bucket time temp temp 40 pres 2 20.

Definition legacy_controller (nodes : list string) : Legacy.Controller :=
  {| Legacy.location := VStr "55555"; Legacy.apikey := VStr "key";
     Legacy.units := VStr "metric"; Legacy.configured := true;
     Legacy.latitude := 0; Legacy.longitude := 0;
     Legacy.fcast := Legacy.empty_fcast;
     Legacy.plant_type := VFloat 0.23; Legacy.elevation := VInt 0;
     Legacy.uom := []; Legacy.nodes := nodes |}.


(** A world answering the legacy forecast request with the buckets and
    the UV request with an empty list. *)
Definition legacy_world (buckets : list value) : Env :=
  {| float_of_str := fun _ => None;
     int_of_str := int_of_digit_str;
     fetch := fun request =>
       if is_substring "/uvi/" request then Some (VList [])
       else Some (VDict [("cod", VStr "200"); ("list", VList buckets)]);
     garbled := fun _ => false;
     coverage_codes := fun _ => 1;
     intensity_codes := fun _ => 2;
     weather_codes := fun _ => 3;
     delNode_ok := fun _ => true;
     addNode_ok := fun _ => true;
     update_forecast_ok := fun _ => true;
     update_forecast_error := fun _ => ValueError |}.

End Samples.


(** ** Vocabulary of the statements *)

(** The address of the forecast node of a day. *)
Definition forecast_address (d : Z) : string := "forecast_" ++ str_of_Z d.

(** What [discover] records for the deletion and the creation of a day. *)
Definition deletion_event (env : Env) (d : Z) : event :=
  if delNode_ok env (forecast_address d) then DelNode (forecast_address d)
  else DelNodeFailed (forecast_address d).

Definition creation_event (env : Env) (d : Z) : event :=
  if addNode_ok env (forecast_address d) then AddNode (forecast_address d)
  else AddNodeFailed ("Forecast " ++ str_of_Z d).

(** [a] is the address of a day of [l] that the host accepts to delete,
    respectively to create. *)
Definition deleted_in (env : Env) (l : list Z) (a : string) : Prop :=
  delNode_ok env a = true /\ exists d, In d l /\ a = forecast_address d.

Definition created_in (env : Env) (l : list Z) (a : string) : Prop :=
  addNode_ok env a = true /\ exists d, In d l /\ a = forecast_address d.

(** A run that follows the events [t]. *)
Definition after {S A : Type} (t : list event) (r : result S A) : result S A :=
  mkResult (t ++ trace r) (final r) (out r).

(** The event [update_driver] records for a driver and a value. *)
Definition driver_event (env : Env) (driver : string) (v : value) : event :=
  match py_float env v with
  | Some x => SetDriver driver x
  | None => MissingData driver
  end.

(** The fourteen drivers of lines 259-272 of [nodes/aeris.py] with their
    logical fields, in the order of the source. *)
Definition plain_fields : list (string * string) :=
  [ ("CLITEMP", "temperature"); ("CLIHUM", "humidity"); ("BARPRES", "pressure");
    ("SPEED", "windspeed"); ("GV5", "gustspeed"); ("WINDDIR", "winddir");
    ("DISTANC", "visibility"); ("DEWPT", "dewpoint"); ("GV3", "heatindex");
    ("GV4", "windchill"); ("GV2", "feelslike"); ("SOLRAD", "solarrad");
    ("UV", "uv"); ("GV15", "snow") ].

(** [ob[tag[logical]]] *)
Definition field_value (tag : dict string) (ob : value) (logical : string) : exn + value :=
  match dict_get tag logical with
  | None => inl (KeyError logical)
  | Some k => py_getitem ob k
  end.

(** The driver events of a list of fields, up to the first field whose
    value cannot be read, and the exception of that field. *)
Fixpoint fields_trace (env : Env) (tag : dict string) (ob : value)
    (fields : list (string * string)) : list event * option exn :=
  match fields with
  | [] => ([], None)
  | (d, l) :: rest =>
      match field_value tag ob l with
      | inl e => ([], Some e)
      | inr v =>
          let (t, r) := fields_trace env tag ob rest in
          (driver_event env d v :: t, r)
      end
  end.

(** The three drivers of the coded weather with their tables, in order. *)
Definition coded_drivers (env : Env) : list (string * (string -> Z)) :=
  [ ("GV11", coverage_codes env); ("GV12", intensity_codes env);
    ("GV13", weather_codes env) ].

(** The driver events of the segments of a coded weather: one per segment,
    for at most three segments. *)
Definition coded_events (env : Env) (segs : list string) : list event :=
  map (fun p => driver_event env (fst (fst p)) (VInt (snd (fst p) (snd p))))
    (combine (coded_drivers env) segs).

(** ** Vocabulary of the legacy aggregation *)

(** The running maximum and minimum of lines 344-351: the strict tests
    [x > acc] and [x < acc]. *)
Definition fmax (acc x : float) : float := if (acc <? x)%float then x else acc.
Definition fmin (acc x : float) : float := if (x <? acc)%float then x else acc.

(** What the loop reads from a bucket after its time. *)
Record readings : Type := {
  r_temp_max : float;
  r_temp_min : float;
  r_humidity : float;
  r_pressure : float;
  r_speed : float;
  r_clouds : float
}.

(** [float(forecast[k1][k2])], when it raises nothing. *)
Definition reading_of (env : Env) (forecast : value) (k1 k2 : string) : option float :=
  match py_getitem forecast k1 with
  | inr a =>
      match py_getitem a k2 with
      | inr v => py_float env v
      | inl _ => None
      end
  | inl _ => None
  end.

Definition bucket_readings (env : Env) (forecast : value) : option readings :=
  match reading_of env forecast "main" "temp_max",
        reading_of env forecast "main" "temp_min",
        reading_of env forecast "main" "humidity",
        reading_of env forecast "main" "pressure",
        reading_of env forecast "wind" "speed",
        reading_of env forecast "clouds" "all" with
  | Some a, Some b, Some c, Some d, Some e, Some f =>
      Some {| r_temp_max := a; r_temp_min := b; r_humidity := c;
              r_pressure := d; r_speed := e; r_clouds := f |}
  | _, _, _, _, _, _ => None
  end.

(** [forecast['dt_txt'].split(' ')[1]], the time of day of a bucket. *)
Definition bucket_time (forecast : value) : option string :=
  match py_getitem forecast "dt_txt" with
  | inr (VStr txt) => nth_error (split " " txt) 1
  | _ => None
  end.

(** [float(forecast['weather'][0]['id'])], when it raises nothing. *)
Definition bucket_weather (env : Env) (forecast : value) : option float :=
  match py_getitem forecast "weather" with
  | inr w =>
      match py_index w 0 with
      | inr w0 =>
          match py_getitem w0 "id" with
          | inr v => py_float env v
          | inl _ => None
          end
      | inl _ => None
      end
  | inl _ => None
  end.

(** [uv_data[day - 1]['value']], and 0 when that raises. *)
Definition uv_of (uv_data : value) (day : Z) : value :=
  match py_index uv_data (Z.to_nat (day - 1)) with
  | inr u =>
      match py_getitem u "value" with
      | inr v => v
      | inl _ => VInt 0
      end
  | inl _ => VInt 0
  end.

(** [self.fcast] after the bucket that starts a day. *)
Definition seed (b : readings) (w : float) (dtv uvv : value) : fcast_t :=
  {| temp_max := r_temp_max b; temp_min := r_temp_min b;
     Hmax := r_humidity b; Hmin := r_humidity b;
     pressure := r_pressure b; weather := w;
     speed := r_speed b; clouds := r_clouds b; dt := dtv; uv := uvv |}.

(** [self.fcast] after a later bucket of the day. *)
Definition absorb (f : fcast_t) (b : readings) : fcast_t :=
  {| temp_max := fmax (temp_max f) (r_temp_max b);
     temp_min := fmin (temp_min f) (r_temp_min b);
     Hmax := fmax (Hmax f) (r_humidity b);
     Hmin := fmin (Hmin f) (r_humidity b);
     pressure := (pressure f + r_pressure b)%float;
     weather := weather f;
     speed := (speed f + r_speed b)%float;
     clouds := (clouds f + r_clouds b)%float;
     dt := dt f; uv := uv f |}.

(** [self.fcast] after the three sums are divided by [n]. *)
Definition averaged (f : fcast_t) (n : Z) : fcast_t :=
  {| temp_max := temp_max f; temp_min := temp_min f;
     Hmax := Hmax f; Hmin := Hmin f;
     pressure := (pressure f / float_of_Z n)%float;
     weather := weather f;
     speed := (speed f / float_of_Z n)%float;
     clouds := (clouds f / float_of_Z n)%float;
     dt := dt f; uv := uv f |}.

(** A bucket of 00:00:00 whose values, weather id and [dt] are read. *)
Definition start_bucket (env : Env) (forecast : value) (b : readings)
    (w : float) (dtv : value) : Prop :=
  bucket_time forecast = Some "00:00:00" /\
  bucket_readings env forecast = Some b /\
  bucket_weather env forecast = Some w /\
  py_getitem forecast "dt" = inr dtv.

(** A bucket between the first and the last of a day, with its values. *)
Definition middle_bucket (env : Env) (forecast : value) (b : readings) : Prop :=
  bucket_readings env forecast = Some b /\
  exists t, bucket_time forecast = Some t /\
            String.eqb t "00:00:00" = false /\ String.eqb t "21:00:00" = false.

(** A bucket of 21:00:00, with its values. *)
Definition closing_bucket (env : Env) (forecast : value) (b : readings) : Prop :=
  bucket_time forecast = Some "21:00:00" /\
  bucket_readings env forecast = Some b.

(** The call that hands the summary [f] to the node of a day: the event,
    the controller and the way out. *)
Definition handed (env : Env) (address : string) (f : fcast_t) (elev plant : value)
    (c : Legacy.Controller) : result Legacy.Controller unit :=
  if existsb (String.eqb address) (Legacy.nodes c) then
    mkResult
      [UpdateForecastLegacy address f (VInt (Legacy.latitude c)) elev plant
         (Legacy.units c)]
      (Legacy.with_fcast f c)
      (if update_forecast_ok env address then Normal tt
       else Raised (update_forecast_error env address))
  else mkResult [] (Legacy.with_fcast f c) (Raised (KeyError address)).

(** The summary of a day before its sums are divided: the first bucket,
    then the later ones in order. *)
Definition folded (b0 : readings) (w : float) (dtv uvv : value)
    (rest : list readings) : fcast_t :=
  fold_left absorb rest (seed b0 w dtv uvv).

(** The buckets of one day: the bucket of 00:00:00, the buckets between,
    and the bucket of 21:00:00 when the day is complete. *)
Definition day_buckets (first : value) (mids : list (value * readings))
    (last : option (value * readings)) : list value :=
  first :: (map fst mids ++ match last with Some p => [fst p] | None => [] end)%list.

Definition day_readings (mids : list (value * readings))
    (last : option (value * readings)) : list readings :=
  (map snd mids ++ match last with Some p => [snd p] | None => [] end)%list.

(** The divisor of the three sums: 8 when the bucket of 21:00:00 closes the
    day, the number of buckets when the input ends before. *)
Definition divisor (mids : list (value * readings))
    (last : option (value * readings)) : Z :=
  match last with
  | Some _ => 8
  | None => Z.of_nat (S (List.length mids))
  end.

(** The request can be built (the attributes it is built from are strs)
    and is answered with the body [v]. *)
Definition answered_with (env : Env) (request : exn + string) (v : value) : Prop :=
  exists r, request = inr r /\ fetch env r = Some v.

(** A configured legacy controller whose forecast query answers the buckets
    of one day, all of them readable, and whose node [forecast_1] exists. *)
Definition day_run (env : Env) (c : Legacy.Controller) (uv_data first : value)
    (b0 : readings) (mids : list (value * readings))
    (last : option (value * readings)) : Prop :=
  Legacy.configured c = true /\
  existsb (String.eqb "forecast_1") (Legacy.nodes c) = true /\
  answered_with env (Legacy.uv_request c) uv_data /\
  (exists jdata,
     answered_with env (Legacy.forecast_request c) jdata /\
     py_getitem jdata "list" = inr (VList (day_buckets first mids last))) /\
  (exists w dtv, start_bucket env first b0 w dtv) /\
  Forall (fun p => middle_bucket env (fst p) (snd p)) mids /\
  match last with Some p => closing_bucket env (fst p) (snd p) | None => True end.

(** The values of a bucket are numbers. *)
Definition numeric (b : readings) : Prop :=
  is_nan (r_temp_max b) = false /\
  is_nan (r_temp_min b) = false /\
  is_nan (r_humidity b) = false.

(** Two legacy controllers that differ at most in [apikey]. *)
Definition same_but_apikey (c1 c2 : Legacy.Controller) : Prop :=
  c1 = Legacy.with_apikey (Legacy.apikey c1) c2.

(** Two runs with the same trace and the same way out, whose values are
    related and whose controllers differ at most in [apikey]. *)
Definition alike {A : Type} (RA : A -> A -> Prop)
    (r1 r2 : result Legacy.Controller A) : Prop :=
  trace r1 = trace r2 /\
  same_but_apikey (final r1) (final r2) /\
  match out r1, out r2 with
  | Normal a1, Normal a2 => RA a1 a2
  | Returned, Returned => True
  | Raised e1, Raised e2 => e1 = e2
  | _, _ => False
  end.

(** The way out of a block that raised [r], or ran to its end. *)
Definition outcome_of (r : option exn) : outcome unit :=
  match r with None => Normal tt | Some e => Raised e end.

(** A run that updates no driver and keeps the tags. *)
Definition quiet {A : Type} (c : Nodes.Controller) (r : result Nodes.Controller A) : Prop :=
  drivers_updated (trace r) = [] /\ Nodes.tag (final r) = Nodes.tag c /\
  Nodes.configured (final r) = Nodes.configured c.

(** The order of two finite binary64 numbers of the same sign, by exponent
    and then by mantissa. *)
Definition lex (e1 : Z) (m1 : positive) (e2 : Z) (m2 : positive) : comparison :=
  match (e1 ?= e2)%Z with
  | Eq => Pos.compare m1 m2
  | Lt => Lt
  | Gt => Gt
  end.


(** ** Sample days of the legacy forecast *)

Module Days.

(** The values read from [Samples.simple_bucket] at a pressure of 1000. *)
Definition at_temp (temp : float) : readings :=
  {| r_temp_max := temp; r_temp_min := temp; r_humidity := 40;
     r_pressure := 1000; r_speed := 2; r_clouds := 20 |}.

Definition fc (time : string) (temp : float) : value :=
  Samples.simple_bucket time temp 1000.

(** The temperatures 10, 25, 5 and the same in another order, on the
    buckets of 00:00:00, 03:00:00 and 06:00:00. *)
Definition order_a : Env :=
  Samples.legacy_world [fc "00:00:00" 10; fc "03:00:00" 25; fc "06:00:00" 5].

Definition order_b : Env :=
  Samples.legacy_world [fc "00:00:00" 25; fc "03:00:00" 5; fc "06:00:00" 10].

Definition node_one : Legacy.Controller := Samples.legacy_controller ["forecast_1"].

End Days.

(** ** Footprints: what a run may record and may change *)

(** Every event of the run satisfies [P], and the state the run ends in is
    related by [R] to the state it started from. *)
Definition within {S A : Type} (P : event -> bool) (R : S -> S -> Prop)
    (m : M S A) : Prop :=
  forall s, forallb P (trace (m s)) = true /\ R s (final (m s)).

(** No exception leaves the run. *)
Definition never_raises {S A : Type} (m : M S A) : Prop :=
  forall s e, out (m s) <> Raised e.

(** The number of HTTP requests of a trace, and a bound on it. *)
Definition fetches (t : list event) : nat := List.length (requests t).

Definition cost {S A : Type} (n : nat) (m : M S A) : Prop :=
  forall s, (fetches (trace (m s)) <= n)%nat.

(** The class attribute [drivers] of the two controllers: the drivers a
    controller declares, each with its initial value and its unit. *)
Module NodesDrivers.
Definition drivers : list (string * Z * Z) :=
  [ ("ST", 1, 2); ("CLITEMP", 0, 4); ("CLIHUM", 0, 22); ("DEWPT", 0, 4);
    ("BARPRES", 0, 117); ("WINDDIR", 0, 76); ("SPEED", 0, 32); ("GV5", 0, 32);
    ("GV2", 0, 4); ("GV3", 0, 4); ("GV4", 0, 4); ("GV6", 0, 82);
    ("GV15", 0, 82); ("GV11", 0, 25); ("GV12", 0, 25); ("GV13", 0, 25);
    ("GV14", 0, 22); ("DISTANC", 0, 83); ("SOLRAD", 0, 74); ("UV", 0, 71);
    ("GVP", 30, 25) ].
End NodesDrivers.

Module LegacyDrivers.
Definition drivers : list (string * Z * Z) :=
  [ ("ST", 1, 2); ("CLITEMP", 0, 4); ("CLIHUM", 0, 22); ("BARPRES", 0, 118);
    ("WINDDIR", 0, 76); ("GV0", 0, 4); ("GV1", 0, 4); ("GV4", 0, 49);
    ("GV6", 0, 82); ("GV13", 0, 25); ("GV14", 0, 22); ("GV15", 0, 83);
    ("GV16", 0, 71) ].
End LegacyDrivers.

(** [d] is the name of a declared driver. *)
Definition declares (drivers : list (string * Z * Z)) (d : string) : bool :=
  existsb (fun e => String.eqb (fst (fst e)) d) drivers.

(** The events of a query of the conditions: requests, log lines, and
    updates of drivers the controller declares. *)
Definition conditions_event (ev : event) : bool :=
  match ev with
  | Fetch _ | LogError _ | LogExn _ => true
  | SetDriver d _ | MissingData d => declares NodesDrivers.drivers d
  | _ => false
  end.

(** The events of a query of the forecast: requests, log lines, and
    periods handed to forecast nodes. *)
Definition forecast_event (ev : event) : bool :=
  match ev with
  | Fetch _ | LogError _ | LogExn _ | UpdateForecast _ _ _ _ _ _ _ => true
  | _ => false
  end.

(** The events of [discover]: deletions and creations of nodes. *)
Definition registry_event (ev : event) : bool :=
  match ev with
  | DelNode _ | DelNodeFailed _ | AddNode _ | AddNodeFailed _ => true
  | _ => false
  end.

Definition not_fetch (ev : event) : bool :=
  match ev with Fetch _ => false | _ => true end.

Definition any_event (ev : event) : bool := true.

(** The controller [c'] is [c] but for its latitude, respectively but for
    its registry of nodes. *)
Definition only_latitude (c c' : Nodes.Controller) : Prop :=
  c' = Nodes.with_latitude (Nodes.latitude c') c.

Definition only_nodes (c c' : Nodes.Controller) : Prop :=
  c' = Nodes.with_nodes (Nodes.nodes c') c.

(** A controller that is configured stays so. *)
Definition stays_configured (c c' : Nodes.Controller) : Prop :=
  Nodes.configured c = true -> Nodes.configured c' = true.

(** No constraint on the state. *)
Definition any_state {S : Type} (s s' : S) : Prop := True.

Definition no_event (ev : event) : bool := false.

(** The controller [c'] has the flag [force] of [c]. *)
Definition same_force (c c' : Nodes.Controller) : Prop :=
  Nodes.force c' = Nodes.force c.

(** ** Vocabulary of the requests of [nodes/aeris.py] *)

(** What [get_weather_data] appends to the request after the credentials,
    by kind of query. *)
Definition request_suffix (extra days : string) : string :=
  if String.eqb extra "forecasts" then "&filter=mdnt2mdnt&precise&limit=" ++ days
  else if String.eqb extra "observations/summary" then "&fields=periods.summary.precip"
  else "".

(** The request of [get_weather_data] when the parameters are strs. *)
Definition aeris_request (extra loc id secret days : string) : string :=
  "http://api.aerisapi.com/" ++ extra ++ "/" ++ loc
    ++ "?client_id=" ++ id ++ "&client_secret=" ++ secret
    ++ request_suffix extra days.

(** The location and the two credentials of the controller are the strs
    [loc], [id] and [secret]. *)
Definition credentials_are (c : Nodes.Controller) (loc id secret : string) : Prop :=
  NSParameters.get (Nodes.params c) "Location" = VStr loc /\
  NSParameters.get (Nodes.params c) "ClientID" = VStr id /\
  NSParameters.get (Nodes.params c) "ClientSecret" = VStr secret.

(** What [get_weather_data] records and answers for a request. *)
Definition answered (env : Env) (request : string) (c : Nodes.Controller) :
    result Nodes.Controller value :=
  match fetch env request with
  | Some jdata => mkResult [Fetch request] c (Normal jdata)
  | None =>
      mkResult [Fetch request; LogError "HTTP request failed for api.aerisapi.com"]
        c (Normal VNone)
  end.

(** The answer to the request of the observations holds no observation:
    the transport failed, the body is null, or it has no ['response'] or
    its response no ['ob']. *)
Definition lacks_observation (answer : option value) : Prop :=
  match answer with
  | None => True
  | Some jdata =>
      jdata = VNone \/
      py_in "response" jdata = inr false \/
      exists response,
        py_getitem jdata "response" = inr response /\
        py_in "ob" response = inr false
  end.

(** The summary [rd] of lines 319-322: of the first period of the first
    element when the response is a list, of the first period of the
    response itself otherwise. *)
Definition summary_of (response : value) : exn + value :=
  match (if is_list response then py_index response 0 else inr response) with
  | inl e => inl e
  | inr r0 =>
      match py_getitem r0 "periods" with
      | inl e => inl e
      | inr periods =>
          match py_index periods 0 with
          | inl e => inl e
          | inr p0 => py_getitem p0 "summary"
          end
      end
  end.

(** ** Vocabulary of the tags *)

(** The table [set_tags] writes for a value of the units. *)
Definition tags_of (units : value) : list (string * string) :=
  if Nodes.is_metric units then Nodes.metric_tags else Nodes.imperial_tags.

(** The logical fields [query_conditions] reads through [self.tag]. *)
Definition fields_read : list string :=
  (map snd plain_fields ++ ["precipitation"; "precip_summary"])%list.

(** No key occurs twice. *)
Fixpoint distinct (l : list string) : bool :=
  match l with
  | [] => true
  | k :: l' => negb (existsb (String.eqb k) l') && distinct l'
  end.

(** ** Vocabulary of the registry *)

(** The first day of [days] whose forecast node the registry lacks. *)
Definition first_missing (nodes : list string) (days : list Z) : option Z :=
  find (fun d => negb (existsb (String.eqb (forecast_address d)) nodes)) days.

(** The controller when [start] calls [discover]: after [check_params] and
    [set_tags]. *)
Definition tagged (env : Env) (c : Nodes.Controller) : Nodes.Controller :=
  final (Nodes.set_tags
           (NSParameters.get (Nodes.params (final (Nodes.check_params env c))) "Units")
           (final (Nodes.check_params env c))).

(** ** Vocabulary of the forecast dispatch *)

(** The first [n] periods handed to the nodes of the days from [day] on,
    each with the latitude, the elevation, the plant type, the tags and the
    flag [force] of the controller. *)
Fixpoint handed_periods (c : Nodes.Controller) (day : Z) (n : nat)
    (periods : list value) : list event :=
  match n, periods with
  | S n', p :: rest =>
      UpdateForecast (forecast_address day) p (Nodes.latitude c)
        (NSParameters.get (Nodes.params c) "Elevation")
        (NSParameters.get (Nodes.params c) "Plant Type")
        (Nodes.tag c) (Nodes.force c)
      :: handed_periods c (day + 1) n' rest
  | _, _ => []
  end.

(** The periods of a forecast body: [jdata['response'][0]['periods']]. *)
Definition periods_of (jdata : value) : exn + value :=
  match py_getitem jdata "response" with
  | inl e => inl e
  | inr response =>
      match py_index response 0 with
      | inl e => inl e
      | inr r0 => py_getitem r0 "periods"
      end
  end.

(** The period carries its date as a str, which the loop logs. *)
Definition dated (p : value) : Prop :=
  exists iso, py_getitem p "dateTimeISO" = inr (VStr iso).

(** The node of day [d] is in the registry and accepts a forecast. *)
Definition node_ready (env : Env) (c : Nodes.Controller) (d : Z) : Prop :=
  existsb (String.eqb (forecast_address d)) (Nodes.nodes c) = true /\
  update_forecast_ok env (forecast_address d) = true.

(** ** Vocabulary of the legacy forecast over several days *)

(** The buckets of a complete day with what the loop reads from them: the
    bucket of 00:00:00, the buckets between, the bucket of 21:00:00. *)
Record day_of_buckets : Type := {
  first_bucket : value;
  first_readings : readings;
  first_weather : float;
  first_dt : value;
  middle_buckets : list (value * readings);
  last_bucket : value * readings
}.


Definition buckets_of (D : day_of_buckets) : list value :=
  day_buckets (first_bucket D) (middle_buckets D) (Some (last_bucket D)).





(** Two complete days after a bucket of 18:00:00 of the day before. *)
Module TwoDays.

Definition day_one : day_of_buckets :=
  {| first_bucket := Days.fc "00:00:00" 10; first_readings := Days.at_temp 10;
     first_weather := 800; first_dt := VInt 1546300800;
     middle_buckets := [(Days.fc "12:00:00" 20, Days.at_temp 20)];
     last_bucket := (Days.fc "21:00:00" 30, Days.at_temp 30) |}.

Definition day_two : day_of_buckets :=
  {| first_bucket := Days.fc "00:00:00" 5; first_readings := Days.at_temp 5;
     first_weather := 800; first_dt := VInt 1546300800;
     middle_buckets := [];
     last_bucket := (Days.fc "21:00:00" 7, Days.at_temp 7) |}.

Definition early : list value := [Days.fc "18:00:00" 1].

Definition world : Env :=
  Samples.legacy_world
    (early ++ List.concat (map buckets_of [day_one; day_two]))%list.


End TwoDays.

(** ** Python's [==] on decoded JSON values *)

(** [n == f] for an int and a float: the float is finite and its value is
    the integer, exactly. *)
Definition Z_eq_float (n : Z) (f : float) : bool :=
  match Prim2SF f with
  | S754_zero _ => n =? 0
  | S754_finite s m e =>
      let x := if s then Z.neg m else Z.pos m in
      if 0 <=? e then n =? x * 2 ^ e
      else (x mod 2 ^ (- e) =? 0) && (n =? x / 2 ^ (- e))
  | S754_infinity _ | S754_nan => false
  end.

(** The number a value is, if it is one; a bool is the int 0 or 1. *)
Definition as_number (v : value) : option (Z + float) :=
  match v with
  | VBool b => Some (inl (if b then 1 else 0))
  | VInt n => Some (inl n)
  | VFloat f => Some (inr f)
  | VNone | VStr _ | VList _ | VDict _ => None
  end.

Definition number_eq (x y : Z + float) : bool :=
  match x, y with
  | inl n, inl m => n =? m
  | inl n, inr f | inr f, inl n => Z_eq_float n f
  | inr f, inr g => (f =? g)%float
  end.

(** [a == b], as Python compares two documents decoded apart: numbers by
    value (a nan equals nothing, itself included), strs by their characters,
    lists element by element, dicts key by key whatever the order of the
    keys (the keys of a dict are distinct), None with None only. *)
Fixpoint py_eq (a b : value) {struct a} : bool :=
  match a, b with
  | VNone, VNone => true
  | VStr s, VStr t => String.eqb s t
  | VList l, VList m =>
      (fix all2 (l : list value) (m : list value) {struct l} : bool :=
         match l, m with
         | [], [] => true
         | x :: l', y :: m' => py_eq x y && all2 l' m'
         | _, _ => false
         end) l m
  | VDict d, VDict e =>
      Nat.eqb (List.length d) (List.length e) &&
      (fix every (d : list (string * value)) {struct d} : bool :=
         match d with
         | [] => true
         | (k, v) :: d' =>
             match dict_get e k with
             | Some w => py_eq v w
             | None => false
             end && every d'
         end) d
  | _, _ =>
      match as_number a, as_number b with
      | Some x, Some y => number_eq x y
      | _, _ => false
      end
  end.

(** ** The setup of the older controller: [src/aeris.py] *)

Module LegacySetup.

(** [set_driver_uom], lines 440-475: the unit of each declared driver. *)
Definition metric_uom : list (string * Z) :=
  [ ("ST", 2); ("CLITEMP", 4); ("CLIHUM", 22); ("BARPRES", 118);
    ("WINDDIR", 76); ("GV0", 4); ("GV1", 4); ("GV4", 49); ("GV6", 82);
    ("GV13", 25); ("GV14", 22); ("GV15", 83); ("GV16", 71) ].

Definition imperial_uom : list (string * Z) :=
  [ ("ST", 2); ("CLITEMP", 17); ("CLIHUM", 22); ("BARPRES", 118);
    ("WINDDIR", 76); ("GV0", 17); ("GV1", 17); ("GV4", 48); ("GV6", 105);
    ("GV13", 25); ("GV14", 22); ("GV15", 116); ("GV16", 71) ].

(** [units == 'metric'] *)
Definition is_metric (units : value) : bool := py_eq units (VStr "metric").

Definition uom_of (units : value) : list (string * Z) :=
  if is_metric units then metric_uom else imperial_uom.

(** [set_driver_uom(units)] as a function of [self.uom], the one attribute
    it assigns. The log line ['...' + units] comes first and raises
    TypeError when [units] is not a str. *)
Definition set_driver_uom (units : value) (uom : dict Z) : exn + dict Z :=
  match py_str_add "New Configure driver units to " units with
  | inl e => inl e
  | inr _ =>
      inr (fold_left (fun d kv => dict_set d (fst kv) (snd kv)) (uom_of units) uom)
  end.

Definition with_uom (u : dict Z) (c : Legacy.Controller) : Legacy.Controller :=
  {| Legacy.location := Legacy.location c; Legacy.apikey := Legacy.apikey c;
     Legacy.units := Legacy.units c; Legacy.configured := Legacy.configured c;
     Legacy.latitude := Legacy.latitude c; Legacy.longitude := Legacy.longitude c;
     Legacy.fcast := Legacy.fcast c; Legacy.plant_type := Legacy.plant_type c;
     Legacy.elevation := Legacy.elevation c; Legacy.uom := u;
     Legacy.nodes := Legacy.nodes c |}.

(** The attributes that [process_config] and [check_params] read and
    assign, with the values as the host delivers them, and what they ask of
    the host: the notices shown ([addNotice], [removeNoticesAll]) and the
    custom parameters sent ([addCustomParam]). The log lines that cannot
    raise are left out. *)
Record Settings : Type := {
  location : value;
  apikey : value;
  units : value;
  configured : bool;
  myConfig : value;
  plant_type : value;
  elevation : value;
  uom : dict Z;
  notices : list string;
  sent : list (dict value)
}.

(** [__init__] *)
Definition init : Settings :=
  {| location := VStr ""; apikey := VStr ""; units := VStr "metric";
     configured := false; myConfig := VDict []; plant_type := VFloat 0.23;
     elevation := VInt 0; uom := []; notices := []; sent := [] |}.

Definition set_location (v : value) (s : Settings) : Settings :=
  {| location := v; apikey := apikey s; units := units s;
     configured := configured s; myConfig := myConfig s;
     plant_type := plant_type s; elevation := elevation s; uom := uom s;
     notices := notices s; sent := sent s |}.
Definition set_apikey (v : value) (s : Settings) : Settings :=
  {| location := location s; apikey := v; units := units s;
     configured := configured s; myConfig := myConfig s;
     plant_type := plant_type s; elevation := elevation s; uom := uom s;
     notices := notices s; sent := sent s |}.
Definition set_units (v : value) (s : Settings) : Settings :=
  {| location := location s; apikey := apikey s; units := v;
     configured := configured s; myConfig := myConfig s;
     plant_type := plant_type s; elevation := elevation s; uom := uom s;
     notices := notices s; sent := sent s |}.
Definition set_configured (b : bool) (s : Settings) : Settings :=
  {| location := location s; apikey := apikey s; units := units s;
     configured := b; myConfig := myConfig s;
     plant_type := plant_type s; elevation := elevation s; uom := uom s;
     notices := notices s; sent := sent s |}.
Definition set_myConfig (v : value) (s : Settings) : Settings :=
  {| location := location s; apikey := apikey s; units := units s;
     configured := configured s; myConfig := v;
     plant_type := plant_type s; elevation := elevation s; uom := uom s;
     notices := notices s; sent := sent s |}.
Definition set_plant_type (v : value) (s : Settings) : Settings :=
  {| location := location s; apikey := apikey s; units := units s;
     configured := configured s; myConfig := myConfig s;
     plant_type := v; elevation := elevation s; uom := uom s;
     notices := notices s; sent := sent s |}.
Definition set_elevation (v : value) (s : Settings) : Settings :=
  {| location := location s; apikey := apikey s; units := units s;
     configured := configured s; myConfig := myConfig s;
     plant_type := plant_type s; elevation := v; uom := uom s;
     notices := notices s; sent := sent s |}.
Definition set_uom (u : dict Z) (s : Settings) : Settings :=
  {| location := location s; apikey := apikey s; units := units s;
     configured := configured s; myConfig := myConfig s;
     plant_type := plant_type s; elevation := elevation s; uom := u;
     notices := notices s; sent := sent s |}.
Definition set_notices (n : list string) (s : Settings) : Settings :=
  {| location := location s; apikey := apikey s; units := units s;
     configured := configured s; myConfig := myConfig s;
     plant_type := plant_type s; elevation := elevation s; uom := uom s;
     notices := n; sent := sent s |}.
Definition set_sent (l : list (dict value)) (s : Settings) : Settings :=
  {| location := location s; apikey := apikey s; units := units s;
     configured := configured s; myConfig := myConfig s;
     plant_type := plant_type s; elevation := elevation s; uom := uom s;
     notices := notices s; sent := l |}.

Definition modify (f : Settings -> Settings) : M Settings unit :=
  fun s => mkResult [] (f s) (Normal tt).

(** [self.addNotice(msg)] and [self.removeNoticesAll()] *)
Definition addNotice (msg : string) : M Settings unit :=
  modify (fun s => set_notices (notices s ++ [msg]) s).

Definition removeNoticesAll : M Settings unit := modify (set_notices []).

(** Lines 84-89 and 430-435: the two required parameters. *)
Definition require_location_and_key : M Settings unit :=
  s <- get_self ;;
  (if py_eq (location s) (VStr "") then
     addNotice "Location parameter must be set" ;; modify (set_configured false)
   else ret tt) ;;
  s <- get_self ;;
  (if py_eq (apikey s) (VStr "") then
     addNotice "OpenWeatherMap API ID must be set" ;; modify (set_configured false)
   else ret tt).

(** [self.set_driver_uom(units)] *)
Definition call_set_driver_uom (units : value) : M Settings unit :=
  s <- get_self ;;
  u <- lift (set_driver_uom units (uom s)) ;;
  modify (set_uom u).

(** One block of lines 54-69: the attribute takes the value of the key
    when the key is there and the value differs; [changed] becomes [flag]
    then, and stays otherwise. *)
Definition adopt (cp : value) (key : string) (get : Settings -> value)
    (set : value -> Settings -> Settings) (flag changed : bool) : M Settings bool :=
  b <- lift (py_in key cp) ;;
  if b then
    v <- lift (py_getitem cp key) ;;
    s <- get_self ;;
    if negb (py_eq (get s) v) then
      v <- lift (py_getitem cp key) ;;
      modify (set v) ;; ret flag
    else ret changed
  else ret changed.

(** Lines 70-77: the units, with the unit table when they change. *)
Definition adopt_units (cp : value) (changed : bool) : M Settings bool :=
  b <- lift (py_in "Units" cp) ;;
  if b then
    v <- lift (py_getitem cp "Units") ;;
    s <- get_self ;;
    if negb (py_eq (units s) v) then
      v <- lift (py_getitem cp "Units") ;;
      modify (set_units v) ;;
      try_except
        (s <- get_self ;; call_set_driver_uom (units s))
        (fun _ => ret tt) ;;
      ret true
    else ret changed
  else ret changed.

Definition process_config (config : value) : M Settings unit :=
  call (
    b <- lift (py_in "customParams" config) ;;
    if b then
      cp <- lift (py_getitem config "customParams") ;;
      s <- get_self ;;
      if negb (py_eq cp (myConfig s)) then
        let changed := false in
        changed <- adopt cp "Location" location set_location true changed ;;
        changed <- adopt cp "APIkey" apikey set_apikey true changed ;;
        changed <- adopt cp "Elevation" elevation set_elevation false changed ;;
        changed <- adopt cp "Plant Type" plant_type set_plant_type false changed ;;
        changed <- adopt_units cp changed ;;
        cp <- lift (py_getitem config "customParams") ;;
        modify (set_myConfig cp) ;;
        if changed then
          removeNoticesAll ;;
          modify (set_configured true) ;;
          require_location_and_key
        else ret tt
      else ret tt
    else ret tt).

(** One block of lines 405-412: the attribute takes the value of the key
    of [self.polyConfig['customParams']] when the key is there. *)
Definition load (polyConfig : value) (key : string)
    (set : value -> Settings -> Settings) : M Settings unit :=
  cp <- lift (py_getitem polyConfig "customParams") ;;
  b <- lift (py_in key cp) ;;
  if b then
    cp <- lift (py_getitem polyConfig "customParams") ;;
    v <- lift (py_getitem cp key) ;;
    modify (set v)
  else ret tt.

(** Lines 418-423: the argument of [addCustomParam]. *)
Definition custom_params (s : Settings) : dict value :=
  [ ("Location", location s); ("APIkey", apikey s); ("Units", units s);
    ("Elevation", elevation s); ("Plant Type", plant_type s) ].

(** [check_params]; [polyConfig] is the configuration the host holds. *)
Definition check_params (polyConfig : value) : M Settings unit :=
  call (
    load polyConfig "Location" set_location ;;
    load polyConfig "APIkey" set_apikey ;;
    load polyConfig "Elevation" set_elevation ;;
    load polyConfig "Plant Type" set_plant_type ;;
    cp <- lift (py_getitem polyConfig "customParams") ;;
    b <- lift (py_in "Units" cp) ;;
    (if b then
       cp <- lift (py_getitem polyConfig "customParams") ;;
       v <- lift (py_getitem cp "Units") ;;
       modify (set_units v)
     else modify (set_units (VStr "metric"))) ;;
    modify (set_configured true) ;;
    modify (fun s => set_sent (sent s ++ [custom_params s]) s) ;;
    removeNoticesAll ;;
    require_location_and_key ;;
    s <- get_self ;;
    call_set_driver_uom (units s)).

End LegacySetup.

(** ** Vocabulary of the legacy observation *)

(** The seven drivers of lines 221-227 of [aeris.py] with the keys of the
    observation, in the order of the source. *)
Definition legacy_fields : list (string * string) :=
  [ ("CLITEMP", "tempC"); ("CLIHUM", "humidity"); ("BARPRES", "pressureMB");
    ("GV4", "windSpeedKPH"); ("WINDDIR", "windDirDEG");
    ("GV15", "visibilityKM"); ("GV6", "precipMM") ].

(** The driver events of a list of fields, up to the first field whose key
    the observation lacks or whose driver has no unit, and the exception
    raised there. *)
Fixpoint legacy_updates (env : Env) (uom : dict Z) (ob : value)
    (fields : list (string * string)) : list event * option exn :=
  match fields with
  | [] => ([], None)
  | (d, k) :: rest =>
      match py_getitem ob k with
      | inl e => ([], Some e)
      | inr v =>
          match dict_get uom d with
          | None => ([], Some (KeyError d))
          | Some _ =>
              let (t, r) := legacy_updates env uom ob rest in
              (driver_event env d v :: t, r)
          end
      end
  end.

(** A metric observation with the seven keys the legacy controller reads,
    and a legacy controller with the units of [units]. *)
Module LegacySamples.

Definition metric_ob : dict value :=
  [ ("tempC", VInt 21); ("humidity", VInt 40); ("pressureMB", VInt 1013);
    ("windSpeedKPH", VStr "calm"); ("windDirDEG", VInt 180);
    ("visibilityKM", VInt 16); ("precipMM", VFloat 0.5) ].

Definition with_units (units : string) : Legacy.Controller :=
  LegacySetup.with_uom
    (match LegacySetup.set_driver_uom (VStr units) [] with
     | inr u => u
     | inl _ => []
     end)
    (Samples.legacy_controller []).

End LegacySamples.

(** ** Vocabulary of the legacy setup *)

(** The value of the key is there and differs from the current value of
    the attribute. *)
Definition differs (cp : dict value) (key : string) (current : value) : bool :=
  match dict_get cp key with
  | Some v => negb (py_eq current v)
  | None => false
  end.

(** The attribute after its block of [process_config]. *)
Definition adopted (cp : dict value) (key : string) (current : value) : value :=
  match dict_get cp key with
  | Some v => if py_eq current v then current else v
  | None => current
  end.

(** The local [changed] of [process_config] after the five blocks, which
    run in the order Location, APIkey, Elevation, Plant Type, Units: the
    last block whose key differs decides. *)
Definition changed_after (s : LegacySetup.Settings) (cp : dict value) : bool :=
  if differs cp "Units" (LegacySetup.units s) then true
  else if differs cp "Plant Type" (LegacySetup.plant_type s) then false
  else if differs cp "Elevation" (LegacySetup.elevation s) then false
  else differs cp "APIkey" (LegacySetup.apikey s)
       || differs cp "Location" (LegacySetup.location s).

(** The notices for a location and an API key. *)
Definition notices_for (location apikey : value) : list string :=
  ((if py_eq location (VStr "") then ["Location parameter must be set"] else [])
   ++ (if py_eq apikey (VStr "") then ["OpenWeatherMap API ID must be set"] else []))%list.

(** The two required parameters are there. *)
Definition both_set (location apikey : value) : bool :=
  negb (py_eq location (VStr "")) && negb (py_eq apikey (VStr "")).

(** The attribute after its block of [check_params]. *)
Definition loaded (cp : dict value) (key : string) (current : value) : value :=
  match dict_get cp key with
  | Some v => v
  | None => current
  end.

(** The state after the block of the units. *)
Definition units_adopted (d : dict value) (s : LegacySetup.Settings) :
    LegacySetup.Settings :=
  match dict_get d "Units" with
  | Some v =>
      if py_eq (LegacySetup.units s) v then s
      else match LegacySetup.set_driver_uom v (LegacySetup.uom s) with
           | inr u => LegacySetup.set_uom u (LegacySetup.set_units v s)
           | inl _ => LegacySetup.set_units v s
           end
  | None => s
  end.


(** The state after one block of [process_config]. *)
Definition adopt_state (d : dict value) (key : string)
    (get : LegacySetup.Settings -> value)
    (set : value -> LegacySetup.Settings -> LegacySetup.Settings)
    (s : LegacySetup.Settings) : LegacySetup.Settings :=
  match dict_get d key with
  | Some v => if py_eq (get s) v then s else set v s
  | None => s
  end.

(** The state after the five blocks. *)
Definition settled (cp : dict value) (s : LegacySetup.Settings) : LegacySetup.Settings :=
  units_adopted cp
    (adopt_state cp "Plant Type" LegacySetup.plant_type LegacySetup.set_plant_type
       (adopt_state cp "Elevation" LegacySetup.elevation LegacySetup.set_elevation
          (adopt_state cp "APIkey" LegacySetup.apikey LegacySetup.set_apikey
             (adopt_state cp "Location" LegacySetup.location LegacySetup.set_location
                s)))).

(** The state when [process_config] returns, for custom parameters [cp]
    that differ from [myConfig]. *)
Definition reconfigured (cp : dict value) (s : LegacySetup.Settings) :
    LegacySetup.Settings :=
  let s6 := LegacySetup.set_myConfig (VDict cp) (settled cp s) in
  if changed_after s cp then
    LegacySetup.set_configured
      (both_set (LegacySetup.location s6) (LegacySetup.apikey s6))
      (LegacySetup.set_notices
         (notices_for (LegacySetup.location s6) (LegacySetup.apikey s6)) s6)
  else s6.

(** The state after one block of [check_params]. *)
Definition load_state (cp : dict value) (key : string)
    (set : value -> LegacySetup.Settings -> LegacySetup.Settings)
    (s : LegacySetup.Settings) : LegacySetup.Settings :=
  match dict_get cp key with
  | Some v => set v s
  | None => s
  end.

(** The units after [check_params]: the default is ['metric']. *)
Definition loaded_units (cp : dict value) : value :=
  match dict_get cp "Units" with
  | Some v => v
  | None => VStr "metric"
  end.

(** The attributes after the five blocks of [check_params]. *)
Definition all_loaded (cp : dict value) (s : LegacySetup.Settings) :
    LegacySetup.Settings :=
  LegacySetup.set_units (loaded_units cp)
    (load_state cp "Plant Type" LegacySetup.set_plant_type
       (load_state cp "Elevation" LegacySetup.set_elevation
          (load_state cp "APIkey" LegacySetup.set_apikey
             (load_state cp "Location" LegacySetup.set_location s)))).

(** The state of [check_params] when it reaches its last line. *)
Definition checked (cp : dict value) (s : LegacySetup.Settings) :
    LegacySetup.Settings :=
  let s5 := all_loaded cp s in
  LegacySetup.set_configured
    (both_set (LegacySetup.location s5) (LegacySetup.apikey s5))
    (LegacySetup.set_notices
       (notices_for (LegacySetup.location s5) (LegacySetup.apikey s5))
       (LegacySetup.set_sent
          (LegacySetup.sent s5 ++ [LegacySetup.custom_params s5])%list s5)).

(** Configurations as the host delivers them. *)
Module SetupSamples.

Definition config_of (cp : dict value) : value := VDict [("customParams", VDict cp)].

Definition first_params : dict value :=
  [ ("Location", VStr "KMSP"); ("APIkey", VStr "k") ].

Definition with_elevation : dict value :=
  [ ("Location", VStr "KMSP"); ("APIkey", VStr "k"); ("Elevation", VInt 250) ].

Definition odd_units : dict value :=
  [ ("Location", VStr "KMSP"); ("Elevation", VInt 250); ("Units", VInt 1) ].

End SetupSamples.

(** * Properties *)

(** ** Running statements *)

Lemma bind_get_self {S A : Type} (f : S -> M S A) (s : S) :
  bind get_self f s = f s s.
Proof.
  unfold bind, get_self; cbn [out final trace app].
  destruct (f s s) as [t s' [a| |e]]; reflexivity.
Qed.

Lemma bind_ret {S A B : Type} (a : A) (f : A -> M S B) (s : S) :
  bind (ret a) f s = f a s.
Proof.
  unfold bind, ret; cbn [out final trace app].
  destruct (f a s) as [t s' [b| |e]]; reflexivity.
Qed.

Lemma bind_normal {S A B : Type} (m : M S A) (f : A -> M S B) (s s' : S) t a :
  m s = mkResult t s' (Normal a) ->
  bind m f s = mkResult (t ++ trace (f a s')) (final (f a s')) (out (f a s')).
Proof. intros H. unfold bind. rewrite H. reflexivity. Qed.

Lemma bind_after {S A B : Type} (m : M S A) (f : A -> M S B) (s s' : S) t a :
  m s = mkResult t s' (Normal a) ->
  bind m f s = after t (f a s').
Proof. intros H. unfold bind, after. rewrite H. reflexivity. Qed.

Lemma after_nil {S A : Type} (r : result S A) : after [] r = r.
Proof. destruct r; reflexivity. Qed.

Lemma bind_emit_after {S B : Type} (ev : event) (f : unit -> M S B) (s : S) :
  bind (emit ev) f s = after [ev] (f tt s).
Proof. reflexivity. Qed.

Lemma bind_lift {S A B : Type} (x : exn + A) (f : A -> M S B) (s : S) :
  bind (lift x) f s =
  match x with inl e => mkResult [] s (Raised e) | inr a => f a s end.
Proof. destruct x; [reflexivity|]. cbn [lift]. apply bind_ret. Qed.

Lemma bind_lift_opt {S A B : Type} (e : exn) (x : option A) (f : A -> M S B) (s : S) :
  bind (lift_opt e x) f s =
  match x with None => mkResult [] s (Raised e) | Some a => f a s end.
Proof. destruct x; [|reflexivity]. cbn [lift_opt]. apply bind_ret. Qed.

Lemma drivers_updated_app (t1 t2 : list event) :
  drivers_updated (t1 ++ t2) = (drivers_updated t1 ++ drivers_updated t2)%list.
Proof.
  induction t1 as [|ev t1 IH]; [reflexivity|].
  cbn [app drivers_updated]. destruct (driver_of ev); cbn [app]; now rewrite IH.
Qed.

Lemma dispatched_app (t1 t2 : list event) :
  dispatched (t1 ++ t2) = (dispatched t1 ++ dispatched t2)%list.
Proof.
  induction t1 as [|ev t1 IH]; [reflexivity|].
  destruct ev; cbn [app dispatched]; now rewrite IH.
Qed.

Lemma bind_raised {S A B : Type} (m : M S A) (f : A -> M S B) (s s' : S) t e :
  m s = mkResult t s' (Raised e) ->
  bind m f s = mkResult t s' (Raised e).
Proof. intros H. unfold bind. rewrite H. reflexivity. Qed.

Lemma call_trace {S : Type} (m : M S unit) (s : S) :
  trace (call m s) = trace (m s).
Proof. unfold call. destruct (m s) as [t s' [[]| |e]]; reflexivity. Qed.

Lemma call_final {S : Type} (m : M S unit) (s : S) :
  final (call m s) = final (m s).
Proof. unfold call. destruct (m s) as [t s' [[]| |e]]; reflexivity. Qed.

Lemma for_fold_one {S A L : Type} (x : A) (acc : L) (body : L -> A -> M S L) (s : S) :
  for_fold [x] acc body s = body acc x s.
Proof.
  cbn [for_fold]. unfold bind, ret.
  destruct (body acc x s) as [t s' [a| |e]]; cbn [out final trace];
    [rewrite app_nil_r|..]; reflexivity.
Qed.

Lemma bind_result {S A B : Type} (m : M S A) (f : A -> M S B) (s : S) :
  bind m f s =
  match out (m s) with
  | Normal a => after (trace (m s)) (f a (final (m s)))
  | Returned => mkResult (trace (m s)) (final (m s)) Returned
  | Raised e => mkResult (trace (m s)) (final (m s)) (Raised e)
  end.
Proof. reflexivity. Qed.

Lemma result_eta {S A : Type} (r : result S A) :
  r = mkResult (trace r) (final r) (out r).
Proof. destruct r; reflexivity. Qed.

Lemma string_app_assoc (a b c : string) : (a ++ b) ++ c = a ++ (b ++ c).
Proof. induction a as [|x a IH]; cbn [append]; [reflexivity | now rewrite IH]. Qed.

Lemma range_cons (a b : Z) : a < b -> range a b = a :: range (a + 1) b.
Proof.
  intros H. unfold range.
  replace (Z.to_nat (b - a)) with (S (Z.to_nat (b - (a + 1)))) by lia.
  cbn [seq map]. f_equal; [lia|].
  rewrite <- seq_shift, map_map. apply map_ext. intros i. lia.
Qed.

Lemma range_nil (a b : Z) : b <= a -> range a b = [].
Proof.
  intros H. unfold range. replace (Z.to_nat (b - a)) with O by lia. reflexivity.
Qed.

(** ** Polling is gated by [configured] *)




(** ** The legacy observation request does not depend on the API key *)

Section ApikeyIndependence.
Variable env : Env.

Lemma alike_bind {A B : Type} (RA : A -> A -> Prop) (RB : B -> B -> Prop)
    (m1 m2 : M Legacy.Controller A) (f1 f2 : A -> M Legacy.Controller B) c1 c2 :
  alike RA (m1 c1) (m2 c2) ->
  (forall a1 a2 d1 d2, RA a1 a2 -> same_but_apikey d1 d2 ->
     alike RB (f1 a1 d1) (f2 a2 d2)) ->
  alike RB (bind m1 f1 c1) (bind m2 f2 c2).
Proof.
  intros (Ht & Hs & Ho) Hf. unfold bind.
  destruct (m1 c1) as [t1 s1 o1], (m2 c2) as [t2 s2 o2]; cbn [trace final out] in *.
  destruct o1 as [a1| |e1], o2 as [a2| |e2]; try contradiction;
    cbn [trace final out]; try (repeat split; assumption).
  destruct (Hf a1 a2 s1 s2 Ho Hs) as (Ht' & Hs' & Ho').
  repeat split; try assumption. now rewrite Ht, Ht'.
Qed.

Lemma alike_lift {A : Type} (x : exn + A) c1 c2 :
  same_but_apikey c1 c2 -> alike eq (lift x c1) (lift x c2).
Proof. intros Hs. destruct x; repeat split; assumption. Qed.

Lemma alike_lift_opt {A : Type} (e : exn) (x : option A) c1 c2 :
  same_but_apikey c1 c2 -> alike eq (lift_opt e x c1) (lift_opt e x c2).
Proof. intros Hs. destruct x; repeat split; assumption. Qed.

Lemma alike_emit (ev : event) c1 c2 :
  same_but_apikey c1 c2 -> alike eq (emit ev c1) (emit ev c2).
Proof. intros Hs. repeat split; assumption. Qed.

Lemma alike_return {A : Type} (RA : A -> A -> Prop) c1 c2 :
  same_but_apikey c1 c2 -> alike RA (return_ c1) (return_ c2).
Proof. intros Hs. repeat split; assumption. Qed.

Lemma alike_get_self c1 c2 :
  same_but_apikey c1 c2 -> alike same_but_apikey (get_self c1) (get_self c2).
Proof. intros Hs. repeat split; assumption. Qed.

Lemma alike_call (m1 m2 : M Legacy.Controller unit) c1 c2 :
  alike eq (m1 c1) (m2 c2) -> alike eq (call m1 c1) (call m2 c2).
Proof.
  intros (Ht & Hs & Ho). unfold call.
  destruct (m1 c1) as [t1 s1 o1], (m2 c2) as [t2 s2 o2]; cbn [trace final out] in *.
  destruct o1 as [a1| |e1], o2 as [a2| |e2]; try contradiction;
    repeat split; assumption.
Qed.

Lemma same_request c1 c2 :
  same_but_apikey c1 c2 ->
  Legacy.conditions_request c1 = Legacy.conditions_request c2.
Proof. intros ->. reflexivity. Qed.

Lemma alike_update_driver d v u c1 c2 :
  same_but_apikey c1 c2 ->
  alike eq (Legacy.update_driver env d v u c1) (Legacy.update_driver env d v u c2).
Proof.
  intros Hs. unfold Legacy.update_driver.
  destruct (py_float env v); apply alike_emit; assumption.
Qed.

Lemma alike_update_from ob d k c1 c2 :
  same_but_apikey c1 c2 ->
  alike eq (Legacy.update_from env ob d k c1) (Legacy.update_from env ob d k c2).
Proof.
  intros Hs. unfold Legacy.update_from.
  apply alike_bind with (RA := eq); [apply alike_lift; assumption|].
  intros v ? d1 d2 <- Hd.
  apply alike_bind with (RA := same_but_apikey); [apply alike_get_self; assumption|].
  intros a1 a2 e1 e2 Ha He.
  replace (Legacy.uom a1) with (Legacy.uom a2) by (rewrite Ha; reflexivity).
  apply alike_bind with (RA := eq); [apply alike_lift_opt; assumption|].
  intros u ? g1 g2 <- Hg. apply alike_update_driver; assumption.
Qed.

Lemma alike_query_conditions c1 c2 :
  same_but_apikey c1 c2 ->
  alike eq (Legacy.query_conditions env c1) (Legacy.query_conditions env c2).
Proof.
  intros Hs. unfold Legacy.query_conditions. apply alike_call.
  apply alike_bind with (RA := same_but_apikey); [apply alike_get_self; assumption|].
  clear c1 c2 Hs. intros c1 c2 d1 d2 Hc Hd.
  rewrite (same_request c1 c2 Hc).
  replace (Legacy.configured c1) with (Legacy.configured c2) by (rewrite Hc; reflexivity).
  apply alike_bind with (RA := eq); [apply alike_lift; assumption|].
  clear d1 d2 Hd. intros request ? d1 d2 <- Hd.
  destruct (Legacy.configured c2); cbn [negb]; [|apply alike_return; assumption].
  apply alike_bind with (RA := eq).
  { unfold Legacy.http_request.
    apply alike_bind with (RA := eq); [apply alike_emit; assumption|].
    intros _ _ e1 e2 _ He.
    destruct (fetch env request); [repeat split; assumption|].
    destruct (garbled env request); repeat split; assumption. }
  clear d1 d2 Hd. intros _ _ d1 d2 _ Hd.
  apply alike_bind with (RA := eq);
    [unfold Legacy.json_loads; apply alike_lift_opt; assumption|].
  clear d1 d2 Hd. intros jdata ? d1 d2 <- Hd.
  destruct (is_None jdata).
  { apply alike_bind with (RA := eq); [apply alike_emit; assumption|].
    intros; apply alike_return; assumption. }
  apply alike_bind with (RA := eq); [apply alike_lift; assumption|].
  clear d1 d2 Hd. intros b ? d1 d2 <- Hd.
  destruct b; cbn [negb].
  2:{ apply alike_bind with (RA := eq); [apply alike_emit; assumption|].
      intros; apply alike_return; assumption. }
  apply alike_bind with (RA := eq); [apply alike_lift; assumption|].
  clear d1 d2 Hd. intros response ? d1 d2 <- Hd.
  apply alike_bind with (RA := eq); [apply alike_lift; assumption|].
  clear d1 d2 Hd. intros b ? d1 d2 <- Hd.
  destruct b; cbn [negb].
  2:{ apply alike_bind with (RA := eq); [apply alike_emit; assumption|].
      intros; apply alike_return; assumption. }
  apply alike_bind with (RA := eq); [apply alike_lift; assumption|].
  clear d1 d2 Hd. intros ob ? d1 d2 <- Hd.
  repeat (apply alike_bind with (RA := eq);
          [apply alike_update_from; assumption
          | clear d1 d2 Hd; intros ? ? d1 d2 _ Hd]).
  apply alike_update_from; assumption.
Qed.

End ApikeyIndependence.

(** C10: the request of the legacy [query_conditions] is the fixed prefix,
    the location, and the two fixed literals for [client_id] and
    [client_secret] (a location that is not a str raises TypeError
    instead); the configured API key, whatever value it holds, is not part
    of it. Two runs from controllers that differ only in [apikey] issue the
    same requests, record the same events and leave the same way. *)
Theorem legacy_observation_request_ignores_apikey :
  forall (env : Env) (c : Legacy.Controller) (k1 k2 : value),
    Legacy.conditions_request (Legacy.with_apikey k1 c) =
      match Legacy.location c with
      | VStr location =>
          inr ("http://api.aerisapi.com/observations/" ++ location
               ++ "?client_id=JGlB9OD1KA1EvzoSkpBmJ"
               ++ "&client_secret=xiZGRDGO61ZP2YZH1YDwVB6tuDMX4Zx3o9yeXDyI")
      | _ => inl TypeError
      end /\
    Legacy.conditions_request (Legacy.with_apikey k1 c) =
      Legacy.conditions_request (Legacy.with_apikey k2 c) /\
    trace (Legacy.query_conditions env (Legacy.with_apikey k1 c)) =
      trace (Legacy.query_conditions env (Legacy.with_apikey k2 c)) /\
    out (Legacy.query_conditions env (Legacy.with_apikey k1 c)) =
      out (Legacy.query_conditions env (Legacy.with_apikey k2 c)).
Proof.
  intros env c k1 k2. split; [|split].
  - unfold Legacy.conditions_request.
    cbn [Legacy.location Legacy.with_apikey].
    destruct (Legacy.location c) as [| | | |location| |]; try reflexivity.
    cbn [Legacy.fullmatch Legacy.and_then py_str_add].
    destruct (Legacy.is_zip_country location); [|destruct (Legacy.is_zip location)];
      cbn [Legacy.and_then]; rewrite !string_app_assoc; reflexivity.
  - reflexivity.
  - assert (Hs : same_but_apikey (Legacy.with_apikey k1 c) (Legacy.with_apikey k2 c))
      by reflexivity.
    destruct (alike_query_conditions env _ _ Hs) as (Ht & _ & Ho).
    split; [exact Ht|].
    destruct (out (Legacy.query_conditions env (Legacy.with_apikey k1 c))),
             (out (Legacy.query_conditions env (Legacy.with_apikey k2 c)));
      try contradiction; congruence.
Qed.

(** ** Creation and deletion of the forecast nodes *)

Section Discover.
Variable env : Env.

Lemma delete_node_run a c :
  Nodes.delete_node env a c =
  if delNode_ok env a
  then mkResult [DelNode a]
         (Nodes.with_nodes (filter (fun x => negb (String.eqb x a)) (Nodes.nodes c)) c)
         (Normal tt)
  else mkResult [DelNodeFailed a] c (Normal tt).
Proof. unfold Nodes.delete_node. destruct (delNode_ok env a); reflexivity. Qed.

Lemma create_node_run a title c :
  Nodes.create_node env a title c =
  if addNode_ok env a
  then mkResult [AddNode a]
         (if existsb (String.eqb a) (Nodes.nodes c) then c
          else Nodes.with_nodes (Nodes.nodes c ++ [a]) c)
         (Normal tt)
  else mkResult [AddNodeFailed title] c (Normal tt).
Proof. unfold Nodes.create_node. destruct (addNode_ok env a); reflexivity. Qed.

Lemma delete_loop l : forall c,
  let r := for_each l (fun day => Nodes.delete_node env ("forecast_" ++ str_of_Z day)) c in
  trace r = map (deletion_event env) l /\
  out r = Normal tt /\
  Nodes.params (final r) = Nodes.params c /\
  forall a, In a (Nodes.nodes (final r)) <->
            In a (Nodes.nodes c) /\ ~ deleted_in env l a.
Proof.
  induction l as [|d l IH]; intros c; cbn zeta.
  - split; [reflexivity|]. split; [reflexivity|]. split; [reflexivity|].
    intros a. cbn [for_each ret final]. split.
    + intros H. split; [exact H|]. intros (_ & x & [] & _).
    + intros [H _]; exact H.
  - cbn [for_each]. fold (forecast_address d).
    pose proof (delete_node_run (forecast_address d) c) as Hd.
    cbn [map]. unfold deletion_event at 1.
    destruct (delNode_ok env (forecast_address d)) eqn:Hok.
    + rewrite (bind_normal _ _ _ _ _ _ Hd). cbn [trace final out].
      specialize (IH (Nodes.with_nodes
        (filter (fun x => negb (String.eqb x (forecast_address d))) (Nodes.nodes c)) c)).
      cbn zeta in IH. destruct IH as (Ht & Ho & Hp & Hn).
      split; [|split; [exact Ho|split; [exact Hp|]]].
      { cbn [app]. now rewrite Ht. }
      intros a. split.
      * intros Ha. apply Hn in Ha. destruct Ha as [Ha Hnd].
        cbn [Nodes.nodes Nodes.with_nodes] in Ha. apply filter_In in Ha.
        destruct Ha as [Ha Hne]. split; [exact Ha|].
        intros (Hoka & x & [<-|Hx] & ->).
        -- rewrite String.eqb_refl in Hne. discriminate.
        -- apply Hnd. split; [exact Hoka|]. exists x; auto.
      * intros [Ha Hnd]. apply Hn. split.
        -- cbn [Nodes.nodes Nodes.with_nodes]. apply filter_In. split; [exact Ha|].
           destruct (String.eqb_spec a (forecast_address d)) as [->|]; [|reflexivity].
           exfalso. apply Hnd. split; [exact Hok|]. exists d; split; [left|]; reflexivity.
        -- intros (Hoka & x & Hx & ->). apply Hnd. split; [exact Hoka|].
           exists x; split; [right; exact Hx|reflexivity].
    + rewrite (bind_normal _ _ _ _ _ _ Hd). cbn [trace final out].
      specialize (IH c). cbn zeta in IH. destruct IH as (Ht & Ho & Hp & Hn).
      split; [|split; [exact Ho|split; [exact Hp|]]].
      { cbn [app]. now rewrite Ht. }
      intros a. split.
      * intros Ha. apply Hn in Ha. destruct Ha as [Ha Hnd]. split; [exact Ha|].
        intros (Hoka & x & [<-|Hx] & ->); [congruence|].
        apply Hnd. split; [exact Hoka|]. exists x; auto.
      * intros [Ha Hnd]. apply Hn. split; [exact Ha|].
        intros (Hoka & x & Hx & ->). apply Hnd. split; [exact Hoka|].
        exists x; split; [right; exact Hx|reflexivity].
Qed.

Lemma create_loop l : forall c,
  let r := for_each l (fun day =>
             Nodes.create_node env ("forecast_" ++ str_of_Z day)
               ("Forecast " ++ str_of_Z day)) c in
  trace r = map (creation_event env) l /\
  out r = Normal tt /\
  Nodes.params (final r) = Nodes.params c /\
  forall a, In a (Nodes.nodes (final r)) <->
            In a (Nodes.nodes c) \/ created_in env l a.
Proof.
  induction l as [|d l IH]; intros c; cbn zeta.
  - split; [reflexivity|]. split; [reflexivity|]. split; [reflexivity|].
    intros a. cbn [for_each ret final]. split.
    + intros H; left; exact H.
    + intros [H|(_ & x & [] & _)]; exact H.
  - cbn [for_each]. fold (forecast_address d).
    pose proof (create_node_run (forecast_address d) ("Forecast " ++ str_of_Z d) c) as Hd.
    cbn [map]. unfold creation_event at 1.
    destruct (addNode_ok env (forecast_address d)) eqn:Hok.
    + rewrite (bind_normal _ _ _ _ _ _ Hd). cbn [trace final out].
      set (c' := if existsb (String.eqb (forecast_address d)) (Nodes.nodes c) then c
                 else Nodes.with_nodes (Nodes.nodes c ++ [forecast_address d]) c).
      assert (Hc' : Nodes.params c' = Nodes.params c /\
                    forall a, In a (Nodes.nodes c') <->
                              In a (Nodes.nodes c) \/ a = forecast_address d).
      { subst c'. destruct (existsb _ _) eqn:Hex.
        - split; [reflexivity|]. intros a. split; [tauto|].
          intros [H| ->]; [exact H|]. apply existsb_exists in Hex.
          destruct Hex as (x & Hx & Heq). apply String.eqb_eq in Heq. now subst.
        - split; [reflexivity|]. intros a. cbn [Nodes.nodes Nodes.with_nodes].
          rewrite in_app_iff. cbn [In]. intuition congruence. }
      destruct Hc' as [Hp' Hn'].
      specialize (IH c'). cbn zeta in IH. destruct IH as (Ht & Ho & Hp & Hn).
      split; [|split; [exact Ho|split; [congruence|]]].
      { cbn [app]. now rewrite Ht. }
      intros a. split.
      * intros Ha. apply Hn in Ha. destruct Ha as [Ha|(Hoka & x & Hx & ->)].
        -- apply Hn' in Ha. destruct Ha as [Ha| ->]; [left; exact Ha|].
           right. split; [exact Hok|]. exists d; split; [left|]; reflexivity.
        -- right. split; [exact Hoka|]. exists x; split; [right; exact Hx|reflexivity].
      * intros [Ha|(Hoka & x & [<-|Hx] & ->)]; apply Hn.
        -- left. apply Hn'. left; exact Ha.
        -- left. apply Hn'. right; reflexivity.
        -- right. split; [exact Hoka|]. exists x; auto.
    + rewrite (bind_normal _ _ _ _ _ _ Hd). cbn [trace final out].
      specialize (IH c). cbn zeta in IH. destruct IH as (Ht & Ho & Hp & Hn).
      split; [|split; [exact Ho|split; [exact Hp|]]].
      { cbn [app]. now rewrite Ht. }
      intros a. split.
      * intros Ha. apply Hn in Ha. destruct Ha as [Ha|(Hoka & x & Hx & ->)];
          [left; exact Ha|].
        right. split; [exact Hoka|]. exists x; split; [right; exact Hx|reflexivity].
      * intros [Ha|(Hoka & x & [<-|Hx] & ->)]; apply Hn.
        -- left; exact Ha.
        -- congruence.
        -- right. split; [exact Hoka|]. exists x; auto.
Qed.

Lemma bind_modify {B : Type} g (f : unit -> M Nodes.Controller B) c :
  bind (Nodes.modify g) f c = f tt (g c).
Proof.
  unfold bind, Nodes.modify; cbn [out final trace app].
  destruct (f tt (g c)) as [t s' [b| |e]]; reflexivity.
Qed.

Lemma param_run n c :
  Nodes.param n c = mkResult [] c (Normal (NSParameters.get (Nodes.params c) n)).
Proof. reflexivity. Qed.

Lemma reconcile_run c h :
  py_int env (NSParameters.get (Nodes.params c) "Forecast Days") = Some h ->
  let r := Nodes.reconcile env c in
  trace r = (map (deletion_event env) (range h 7) ++ map (creation_event env) (range 0 h))%list /\
  out r = Normal tt /\
  Nodes.params (final r) = Nodes.params c /\
  forall a, In a (Nodes.nodes (final r)) <->
            (In a (Nodes.nodes c) /\ ~ deleted_in env (range h 7) a) \/
            created_in env (range 0 h) a.
Proof.
  intros Hh. cbn zeta. unfold Nodes.reconcile.
  rewrite (bind_normal _ _ _ _ _ _ (param_run _ c)). cbn [app trace final out].
  rewrite Hh. cbn [lift_opt]. rewrite bind_ret.
  set (del := if h <? 7
              then for_each (range h 7)
                     (fun day => Nodes.delete_node env ("forecast_" ++ str_of_Z day))
              else ret tt).
  assert (Hdel : trace (del c) = map (deletion_event env) (range h 7) /\
                 out (del c) = Normal tt /\
                 Nodes.params (final (del c)) = Nodes.params c /\
                 forall a, In a (Nodes.nodes (final (del c))) <->
                           In a (Nodes.nodes c) /\ ~ deleted_in env (range h 7) a).
  { subst del. destruct (Z.ltb_spec h 7) as [Hlt|Hge].
    - apply delete_loop.
    - rewrite (range_nil h 7) by lia.
      split; [reflexivity|]. split; [reflexivity|]. split; [reflexivity|].
      intros a. cbn [ret final]. split.
      + intros H. split; [exact H|]. intros (_ & x & [] & _).
      + intros [H _]; exact H. }
  destruct Hdel as (Ht & Ho & Hp & Hn).
  rewrite (bind_normal _ _ _ _ _ _
             (eq_trans (result_eta (del c)) (f_equal _ Ho))).
  cbn [trace final out].
  destruct (create_loop (range 0 h) (final (del c))) as (Ht' & Ho' & Hp' & Hn').
  split; [now rewrite Ht, Ht'|]. split; [exact Ho'|]. split; [congruence|].
  intros a. rewrite Hn', Hn. reflexivity.
Qed.

Lemma uom_loop l : forall c,
  exists o,
    for_each l (fun day =>
      c <- get_self ;;
      if existsb (String.eqb ("forecast_" ++ str_of_Z day)) (Nodes.nodes c)
      then ret tt else raise (KeyError ("forecast_" ++ str_of_Z day))) c
    = mkResult [] c o.
Proof.
  induction l as [|d l IH]; intros c.
  - exists (Normal tt). reflexivity.
  - cbn [for_each]. unfold bind at 1. rewrite bind_get_self.
    destruct (existsb _ (Nodes.nodes c)).
    + cbn [ret out final trace app]. destruct (IH c) as [o Ho]. rewrite Ho.
      exists o. destruct o; reflexivity.
    + exists (Raised (KeyError ("forecast_" ++ str_of_Z d))). reflexivity.
Qed.

Lemma set_driver_uom_run v c :
  exists o, Nodes.set_driver_uom env v c = mkResult [] c o.
Proof.
  unfold Nodes.set_driver_uom.
  destruct (py_str_add "Configure driver units to " v) as [e|s].
  { exists (Raised e). reflexivity. }
  cbn [lift]. rewrite bind_ret.
  rewrite (bind_normal _ _ _ _ _ _ (param_run _ c)). cbn [app].
  destruct (py_int env (NSParameters.get (Nodes.params c) "Forecast Days")) as [n|].
  2:{ eexists. reflexivity. }
  cbn [lift_opt]. rewrite bind_ret.
  destruct (uom_loop (range 0 n) c) as [o Ho]. rewrite Ho.
  exists o. reflexivity.
Qed.

End Discover.

(** C6 (as amended): [discover] asks the host to delete the node of every
    day of [h, 7) and then to create the node of every day of [0, h),
    whether the node exists or not; a request that fails is recorded and the
    days after it are still processed. Afterwards the registry holds the
    nodes it held that were not deleted, and the nodes created: a node whose
    day is 7 or more is never deleted. *)
Theorem discover_deletes_up_to_seven_and_creates_horizon :
  forall (env : Env) (c : Nodes.Controller) (h : Z),
    py_int env (NSParameters.get (Nodes.params c) "Forecast Days") = Some h ->
    trace (Nodes.discover env c) =
      (map (deletion_event env) (range h 7) ++ map (creation_event env) (range 0 h))%list /\
    forall a, In a (Nodes.nodes (final (Nodes.discover env c))) <->
              (In a (Nodes.nodes c) /\ ~ deleted_in env (range h 7) a) \/
              created_in env (range 0 h) a.
Proof.
  intros env c h Hh.
  destruct (reconcile_run env c h Hh) as (Ht & Ho & Hp & Hn).
  unfold Nodes.discover, call.
  rewrite (bind_normal _ _ _ _ _ _
             (eq_trans (result_eta (Nodes.reconcile env c)) (f_equal _ Ho))).
  rewrite (bind_normal _ _ _ _ _ _ (param_run _ _)).
  destruct (set_driver_uom_run env
              (NSParameters.get (Nodes.params (final (Nodes.reconcile env c))) "Units")
              (final (Nodes.reconcile env c))) as [o Ho'].
  rewrite Ho'. cbn [trace final out app]. rewrite app_nil_r.
  destruct o; cbn [trace final]; split; assumption.
Qed.


(** The sample of the spec: with a horizon of 3 and the nodes of days 0 to
    4, the nodes of days 3 and 4 are deleted and no node is new. *)
Lemma discover_deletes_up_to_seven_and_creates_horizon_witness :
  (trace (Nodes.discover Samples.silent
            (Samples.with_days "3"
               ["forecast_0"; "forecast_1"; "forecast_2"; "forecast_3"; "forecast_4"])) =
      (map (deletion_event Samples.silent) (range 3 7)
         ++ map (creation_event Samples.silent) (range 0 3))%list /\
    forall a,
      In a (Nodes.nodes (final (Nodes.discover Samples.silent
              (Samples.with_days "3"
                 ["forecast_0"; "forecast_1"; "forecast_2"; "forecast_3"; "forecast_4"])))) <->
      (In a (Nodes.nodes (Samples.with_days "3"
               ["forecast_0"; "forecast_1"; "forecast_2"; "forecast_3"; "forecast_4"])) /\
       ~ deleted_in Samples.silent (range 3 7) a) \/
      created_in Samples.silent (range 0 3) a) /\
  Nodes.nodes (final (Nodes.discover Samples.silent
     (Samples.with_days "3"
        ["forecast_0"; "forecast_1"; "forecast_2"; "forecast_3"; "forecast_4"]))) =
    ["forecast_0"; "forecast_1"; "forecast_2"].
Proof.
  split.
  - apply (discover_deletes_up_to_seven_and_creates_horizon Samples.silent
             (Samples.with_days "3"
                ["forecast_0"; "forecast_1"; "forecast_2"; "forecast_3"; "forecast_4"]) 3).
    reflexivity.
  - vm_compute. reflexivity.
Defined.

(** C6, as the claim states it, fails: with a horizon of 3, the node of day 8
    lies outside [0, 3) and is still there after [discover], which asks for
    the deletion of days 3 to 6 only; it also asks for the creation of the
    nodes of days 0 to 2, which exist. *)
Lemma discover_keeps_node_of_day_eight :
  trace (Nodes.discover Samples.silent
           (Samples.with_days "3"
              ["forecast_0"; "forecast_1"; "forecast_2"; "forecast_8"])) =
    [ DelNode "forecast_3"; DelNode "forecast_4"; DelNode "forecast_5";
      DelNode "forecast_6";
      AddNode "forecast_0"; AddNode "forecast_1"; AddNode "forecast_2" ] /\
  Nodes.nodes (final (Nodes.discover Samples.silent
     (Samples.with_days "3"
        ["forecast_0"; "forecast_1"; "forecast_2"; "forecast_8"]))) =
    ["forecast_0"; "forecast_1"; "forecast_2"; "forecast_8"].
Proof. split; vm_compute; reflexivity. Qed.

(** ** The horizon is clamped by [check_params] only *)

Lemma get_set_same ps n v :
  NSParameters.get ps n <> VNone ->
  NSParameters.get (NSParameters.set ps n v) n = v.
Proof.
  unfold NSParameters.get, NSParameters.set.
  induction ps as [|p ps IH]; cbn [find map]; [congruence|].
  destruct (String.eqb (NSParameters.name p) n) eqn:E.
  - intros _. cbn [NSParameters.name]. rewrite E. reflexivity.
  - intros H. rewrite E. apply IH, H.
Qed.

(** On the path of [start], a configured controller leaves [check_params]
    with a horizon of at most 6. *)
Lemma check_params_clamps (env : Env) (c : Nodes.Controller) (h : Z) :
  NSParameters.isConfigured (Nodes.params c) = true ->
  py_int env (NSParameters.get (Nodes.params c) "Forecast Days") = Some h ->
  py_int env
    (NSParameters.get (Nodes.params (final (Nodes.check_params env c))) "Forecast Days")
  = Some (Z.min h 6).
Proof.
  intros Hc Hh. unfold Nodes.check_params. rewrite call_final.
  rewrite bind_get_self, Hc, bind_modify.
  rewrite (bind_normal _ _ _ _ _ _ (param_run _ _)).
  cbn [Nodes.params Nodes.with_configured app]. rewrite Hh.
  cbn [lift_opt]. rewrite bind_ret.
  destruct (Z.gtb_spec h 6) as [Hgt|Hle].
  - cbn [Nodes.modify out final trace Nodes.params Nodes.with_params
         Nodes.with_configured].
    rewrite get_set_same.
    + cbn [py_int]. f_equal. lia.
    + intros E. rewrite E in Hh. discriminate.
  - cbn [ret out final trace Nodes.params Nodes.with_configured].
    rewrite Hh. f_equal. lia.
Qed.

Lemma check_params_clamps_witness :
  py_int Samples.silent
    (NSParameters.get
       (Nodes.params (final (Nodes.check_params Samples.silent
                               (Samples.with_days "9" []))))
       "Forecast Days")
  = Some (Z.min 9 6).
Proof.
  apply (check_params_clamps Samples.silent (Samples.with_days "9" []) 9);
    vm_compute; reflexivity.
Defined.

(** C3, where the code leaves the claim: [parameterHandler] calls [discover]
    without [check_params], so a horizon of 9 set while the node server runs
    creates the nine nodes of days 0 to 8; and [start] does not clamp when a
    required parameter is missing. On the path of [start] with the required
    parameters set, the same horizon creates the six nodes of days 0 to 5. *)
Theorem horizon_of_nine_is_clamped_on_one_path_only :
  trace (Nodes.parameterHandler Samples.silent
           (Samples.credentials ++ [("Forecast Days", VStr "9")])%list Nodes.init) =
    [ AddNode "forecast_0"; AddNode "forecast_1"; AddNode "forecast_2";
      AddNode "forecast_3"; AddNode "forecast_4"; AddNode "forecast_5";
      AddNode "forecast_6"; AddNode "forecast_7"; AddNode "forecast_8" ] /\
  trace (Nodes.start Samples.silent
           (Nodes.with_params
              (NSParameters.set Nodes.init_params "Forecast Days" (VStr "9"))
              Nodes.init)) =
    [ AddNode "forecast_0"; AddNode "forecast_1"; AddNode "forecast_2";
      AddNode "forecast_3"; AddNode "forecast_4"; AddNode "forecast_5";
      AddNode "forecast_6"; AddNode "forecast_7"; AddNode "forecast_8" ] /\
  Nodes.nodes (final (Nodes.start Samples.silent
     (Nodes.with_nodes []
        (Nodes.with_params
           (NSParameters.set (Nodes.params Samples.configured_controller)
              "Forecast Days" (VStr "9"))
           Nodes.init)))) =
    [ "forecast_0"; "forecast_1"; "forecast_2";
      "forecast_3"; "forecast_4"; "forecast_5" ].
Proof. repeat split; vm_compute; reflexivity. Qed.

(** ** The forecast loop *)

(** C7, where the code leaves the claim: the loop hands a period to its
    node before it compares [day] with the horizon. With a horizon of 0 and
    a node [forecast_0] in the registry, the period of day 0 is dispatched,
    and the loop stops only after it. *)
Theorem horizon_zero_still_dispatches_day_zero :
  dispatched (trace (Nodes.query_forecast
     (Samples.world None None
        (Some (Samples.forecast_body
                 [Samples.period "2019-01-01T00:00:00-06:00";
                  Samples.period "2019-01-02T00:00:00-06:00"])))
     (Samples.with_days "0" ["forecast_0"]))) = ["forecast_0"] /\
  py_int Samples.silent
    (NSParameters.get (Nodes.params (Samples.with_days "0" ["forecast_0"]))
       "Forecast Days") = Some 0.
Proof. split; vm_compute; reflexivity. Qed.

(** ** Extraction of the observation *)

Section Extraction.
Variable env : Env.

Lemma update_driver_run d v c :
  Nodes.update_driver env d v c = mkResult [driver_event env d v] c (Normal tt).
Proof.
  unfold Nodes.update_driver, driver_event. destruct (py_float env v); reflexivity.
Qed.

Lemma field_run ob l c :
  Nodes.field ob l c =
  match field_value (Nodes.tag c) ob l with
  | inl e => mkResult [] c (Raised e)
  | inr v => mkResult [] c (Normal v)
  end.
Proof.
  unfold Nodes.field, field_value. rewrite bind_get_self.
  destruct (dict_get (Nodes.tag c) l) as [k|]; [|reflexivity].
  cbn [lift_opt]. rewrite bind_ret.
  destruct (py_getitem ob k); reflexivity.
Qed.

(** One line of lines 259-272, followed by the rest. *)
Lemma field_step {B : Type} ob d l (k : M Nodes.Controller B) c :
  (v <- Nodes.field ob l ;; Nodes.update_driver env d v ;; k) c =
  match field_value (Nodes.tag c) ob l with
  | inl e => mkResult [] c (Raised e)
  | inr v => after [driver_event env d v] (k c)
  end.
Proof.
  unfold bind at 1. rewrite field_run.
  destruct (field_value (Nodes.tag c) ob l) as [e|v]; [reflexivity|].
  cbn [out final trace app].
  unfold bind. rewrite update_driver_run. reflexivity.
Qed.

Lemma field_last ob d l c :
  (v <- Nodes.field ob l ;; Nodes.update_driver env d v) c =
  match field_value (Nodes.tag c) ob l with
  | inl e => mkResult [] c (Raised e)
  | inr v => mkResult [driver_event env d v] c (Normal tt)
  end.
Proof.
  unfold bind at 1. rewrite field_run.
  destruct (field_value (Nodes.tag c) ob l) as [e|v]; [reflexivity|].
  cbn [out final trace app]. rewrite update_driver_run. reflexivity.
Qed.

(** [extract_fields] runs the fourteen lines in order and stops at the first
    field that cannot be read. *)
Lemma extract_fields_run ob c :
  Nodes.extract_fields env ob c =
  mkResult (fst (fields_trace env (Nodes.tag c) ob plain_fields)) c
           (outcome_of (snd (fields_trace env (Nodes.tag c) ob plain_fields))).
Proof.
  unfold Nodes.extract_fields, plain_fields. cbn [fields_trace].
  repeat (rewrite field_step;
          destruct (field_value (Nodes.tag c) ob _) as [?e|?v]; [reflexivity|]).
  rewrite field_last.
  destruct (field_value (Nodes.tag c) ob _) as [?e|?v]; reflexivity.
Qed.

End Extraction.


Section Observation.
Variable env : Env.

Lemma bind_param {B : Type} n (f : value -> M Nodes.Controller B) c :
  bind (Nodes.param n) f c = f (NSParameters.get (Nodes.params c) n) c.
Proof. unfold Nodes.param. unfold bind at 1. rewrite bind_get_self. apply bind_ret. Qed.

Lemma quiet_after {A : Type} c t (r : result Nodes.Controller A) :
  drivers_updated t = [] -> quiet c r -> quiet c (after t r).
Proof.
  intros Ht (Hr & Hg & Hc). split; [|split; assumption].
  cbn [after trace]. now rewrite drivers_updated_app, Ht, Hr.
Qed.

Lemma quiet_stop {A : Type} c (o : outcome A) : quiet c (mkResult [] c o).
Proof. repeat split. Qed.

Lemma get_weather_data_run extra c :
  exists t o, Nodes.get_weather_data env extra c = mkResult t c o /\
              drivers_updated t = [].
Proof.
  unfold Nodes.get_weather_data.
  rewrite bind_param, bind_lift.
  destruct (py_str_add _ _) as [e|r1]; [exists [], (Raised e); split; reflexivity|].
  rewrite bind_param, bind_lift.
  destruct (py_str_add _ _) as [e|r2]; [exists [], (Raised e); split; reflexivity|].
  rewrite bind_param, bind_lift.
  destruct (py_str_add _ _) as [e|r3]; [exists [], (Raised e); split; reflexivity|].
  destruct (String.eqb extra "forecasts").
  - unfold bind at 1. rewrite bind_param.
    destruct (py_str_add _ _) as [e|r4]; [exists [], (Raised e); split; reflexivity|].
    cbn [lift ret out final trace app].
    destruct (fetch env _) as [j|].
    + eexists _, _. split; reflexivity.
    + eexists _, _. split; reflexivity.
  - rewrite bind_ret, bind_emit_after.
    destruct (fetch env _) as [j|].
    + eexists _, _. split; reflexivity.
    + eexists _, _. split; reflexivity.
Qed.

Lemma quiet_bind {A B : Type} c (m : M Nodes.Controller A)
    (f : A -> M Nodes.Controller B) :
  (exists t o, m c = mkResult t c o /\ drivers_updated t = []) ->
  (forall a, quiet c (f a c)) ->
  quiet c (bind m f c).
Proof.
  intros (t & o & Hm & Ht) Hf. unfold bind. rewrite Hm. cbn [out final trace].
  destruct o as [a| |e]; try (split; [exact Ht|split; reflexivity]).
  apply (quiet_after c t (f a c) Ht (Hf a)).
Qed.

Lemma open_observation_quiet c : quiet c (Nodes.open_observation env c).
Proof.
  unfold Nodes.open_observation.
  apply quiet_bind; [apply get_weather_data_run|]. intros jdata.
  destruct (is_None jdata).
  { rewrite bind_emit_after. apply quiet_after; [reflexivity|]. apply quiet_stop. }
  rewrite bind_lift. destruct (py_in "response" jdata) as [e|b]; [apply quiet_stop|].
  destruct b; cbn [negb].
  2:{ rewrite bind_emit_after. apply quiet_after; [reflexivity|]. apply quiet_stop. }
  rewrite bind_lift.
  destruct (py_getitem jdata "response") as [e|response]; [apply quiet_stop|].
  rewrite bind_lift. destruct (py_in "ob" response) as [e|b]; [apply quiet_stop|].
  destruct b; cbn [negb].
  2:{ rewrite bind_emit_after. apply quiet_after; [reflexivity|]. apply quiet_stop. }
  rewrite bind_lift. destruct (py_in "loc" response) as [e|b]; [apply quiet_stop|].
  destruct b.
  - unfold bind at 1. rewrite bind_lift.
    destruct (py_getitem response "loc") as [e|loc]; [apply quiet_stop|].
    rewrite bind_lift. destruct (py_in "lat" loc) as [e|b]; [apply quiet_stop|].
    destruct b.
    + rewrite bind_lift.
      destruct (py_getitem loc "lat") as [e|lat]; [apply quiet_stop|].
      rewrite bind_lift_opt. destruct (py_float env lat) as [x|]; [|apply quiet_stop].
      cbn [Nodes.modify out final trace app].
      destruct (py_getitem response "ob"); repeat split.
    + cbn [emit out final trace app].
      destruct (py_getitem response "ob"); repeat split.
  - rewrite bind_emit_after. apply quiet_after; [reflexivity|].
    destruct (py_getitem response "ob"); repeat split.
Qed.

Lemma drivers_updated_driver_event d v t :
  drivers_updated (driver_event env d v :: t) = d :: drivers_updated t.
Proof. unfold driver_event. destruct (py_float env v); reflexivity. Qed.

Lemma fields_trace_all tag ob fields :
  snd (fields_trace env tag ob fields) = None ->
  drivers_updated (fst (fields_trace env tag ob fields)) = map fst fields.
Proof.
  induction fields as [|[d l] fields IH]; [reflexivity|].
  cbn [fields_trace map fst].
  destruct (field_value tag ob l) as [e|v]; [discriminate|].
  destruct (fields_trace env tag ob fields) as [t r].
  cbn [fst snd] in *. intros ->.
  rewrite drivers_updated_driver_event. f_equal. now apply IH.
Qed.


Lemma bind_segment {B : Type} ob i (f : string -> M Nodes.Controller B) c s :
  py_getitem ob "weatherCoded" = inr (VStr s) ->
  bind (Nodes.segment ob i) f c =
  match nth_error (split ":" s) i with
  | Some seg => f seg c
  | None => mkResult [] c (Raised IndexError)
  end.
Proof.
  intros H. unfold Nodes.segment. unfold bind at 1.
  rewrite bind_lift, H. cbn [py_split]. rewrite bind_lift.
  destruct (nth_error (split ":" s) i) as [seg|]; [|reflexivity].
  cbn [lift_opt ret out final trace app].
  destruct (f seg c) as [t s' [b| |e]]; reflexivity.
Qed.

Lemma bind_update_driver {B : Type} d v (f : unit -> M Nodes.Controller B) c :
  bind (Nodes.update_driver env d v) f c = after [driver_event env d v] (f tt c).
Proof. unfold bind. rewrite update_driver_run. reflexivity. Qed.

(** [extract_weather] on a coded weather that is a str: one driver per
    segment, in order, and an IndexError at the first missing segment. *)
Lemma extract_weather_run ob c s :
  py_getitem ob "weatherCoded" = inr (VStr s) ->
  Nodes.extract_weather env ob c =
  mkResult (coded_events env (split ":" s)) c
    (if (3 <=? List.length (split ":" s))%nat then Normal tt else Raised IndexError).
Proof.
  intros H. unfold Nodes.extract_weather.
  rewrite bind_lift, H. cbn [py_str_add]. rewrite bind_lift.
  rewrite (bind_segment ob 0 _ c s H).
  destruct (split ":" s) as [|a segs] eqn:E0; [reflexivity|]. cbn [nth_error].
  rewrite bind_update_driver, (bind_segment ob 1 _ c s H), E0.
  destruct segs as [|b segs]; [reflexivity|]. cbn [nth_error].
  rewrite bind_update_driver, (bind_segment ob 2 _ c s H), E0.
  destruct segs as [|x segs]; [reflexivity|]. cbn [nth_error].
  rewrite update_driver_run. reflexivity.
Qed.

Lemma try_except_raised {A : Type} (body : M Nodes.Controller A) handler c e :
  out (body c) = Raised e ->
  try_except body handler c = after (trace (body c)) (handler e (final (body c))).
Proof. intros H. unfold try_except. rewrite H. reflexivity. Qed.

(** A configured [query_conditions] whose first phase ends normally with
    the value [p] of [precipitation] runs the second phase with it. *)
Lemma query_conditions_phases c t c1 p :
  Nodes.configured c = true ->
  Nodes.observation_phase env c = mkResult t c1 (Normal p) ->
  trace (Nodes.query_conditions env c) =
    (t ++ trace (Nodes.summary_phase env p c1))%list.
Proof.
  intros Hc Hp. unfold Nodes.query_conditions. rewrite call_trace.
  rewrite bind_get_self, Hc. cbn [negb].
  rewrite (bind_after _ _ _ _ _ _ Hp). reflexivity.
Qed.

(** When the body of the first [try] raises after the envelope was opened,
    the handler records the failure and [precipitation] is 0. *)
Lemma observation_phase_raised c t0 c1 ob tf e :
  Nodes.open_observation env c = mkResult t0 c1 (Normal ob) ->
  Nodes.extract_observation env ob c1 = mkResult tf c1 (Raised e) ->
  Nodes.observation_phase env c =
  mkResult (t0 ++ tf ++ [LogError "Current observation update failure"; LogExn e])
    c1 (Normal (VInt 0)).
Proof.
  intros Ho Hb. unfold Nodes.observation_phase.
  assert (Hobs : Nodes.observations env c = mkResult (t0 ++ tf) c1 (Raised e)).
  { unfold Nodes.observations. rewrite (bind_after _ _ _ _ _ _ Ho), Hb. reflexivity. }
  rewrite (try_except_raised _ _ c e); rewrite Hobs; [|reflexivity].
  cbn [trace final]. unfold after. cbn [bind emit ret trace final out app].
  rewrite <- app_assoc. reflexivity.
Qed.

End Observation.

(** ** The forecast loop below the horizon *)

Section ForecastLoop.
Variable env : Env.

Lemma get_weather_data_dispatches_nothing extra c :
  exists t o, Nodes.get_weather_data env extra c = mkResult t c o /\
              dispatched t = [].
Proof.
  unfold Nodes.get_weather_data.
  rewrite bind_param, bind_lift.
  destruct (py_str_add _ _) as [e|r1]; [exists [], (Raised e); split; reflexivity|].
  rewrite bind_param, bind_lift.
  destruct (py_str_add _ _) as [e|r2]; [exists [], (Raised e); split; reflexivity|].
  rewrite bind_param, bind_lift.
  destruct (py_str_add _ _) as [e|r3]; [exists [], (Raised e); split; reflexivity|].
  destruct (String.eqb extra "forecasts").
  - unfold bind at 1. rewrite bind_param.
    destruct (py_str_add _ _) as [e|r4]; [exists [], (Raised e); split; reflexivity|].
    cbn [lift ret out final trace app].
    destruct (fetch env _) as [j|]; eexists _, _; split; reflexivity.
  - rewrite bind_ret, bind_emit_after.
    destruct (fetch env _) as [j|]; eexists _, _; split; reflexivity.
Qed.

(** One turn of the loop: the controller is unchanged; either nothing is
    dispatched and the loop ends, or the period goes to the node of [day],
    and the loop goes on only while [day + 1] is below the horizon. *)
Lemma forecast_period_run c h day fc :
  py_int env (NSParameters.get (Nodes.params c) "Forecast Days") = Some h ->
  exists t o,
    Nodes.forecast_period env day fc c = mkResult t c o /\
    ((dispatched t = [] /\ forall d, o <> Normal d) \/
     (dispatched t = [forecast_address day] /\
      ((o = Normal (day + 1) /\ day + 1 < h) \/ forall d, o <> Normal d))).
Proof.
  intros Hh. unfold Nodes.forecast_period. fold (forecast_address day).
  rewrite bind_lift.
  destruct (py_getitem fc "dateTimeISO") as [e|iso].
  { eexists _, _. split; [reflexivity|]. left. split; [reflexivity|discriminate]. }
  rewrite bind_lift.
  destruct (py_str_add _ iso) as [e|s].
  { eexists _, _. split; [reflexivity|]. left. split; [reflexivity|discriminate]. }
  unfold Nodes.update_forecast. unfold bind at 1. rewrite bind_get_self.
  destruct (existsb (String.eqb (forecast_address day)) (Nodes.nodes c)).
  2:{ eexists _, _. split; [reflexivity|]. left. split; [reflexivity|discriminate]. }
  rewrite bind_emit_after.
  destruct (update_forecast_ok env (forecast_address day)).
  2:{ eexists _, _. split; [reflexivity|]. right.
      split; [reflexivity|]. right. discriminate. }
  cbn [ret after out final trace app].
  rewrite bind_param, bind_lift_opt, Hh.
  destruct (Z.geb_spec (day + 1) h) as [Hge|Hlt].
  - eexists _, _. split; [reflexivity|]. right.
    split; [reflexivity|]. right. discriminate.
  - eexists _, _. split; [reflexivity|]. right.
    split; [reflexivity|]. left. split; [reflexivity|lia].
Qed.

(** The loop dispatches the periods to the nodes of consecutive days from
    [day] on, and never more than [max 1 (h - day)] of them. *)
Lemma forecast_loop_run c h :
  py_int env (NSParameters.get (Nodes.params c) "Forecast Days") = Some h ->
  forall l day,
    exists k,
      0 <= k /\ (k = 0 \/ day + k <= Z.max (day + 1) h) /\
      dispatched (trace (for_fold l day (Nodes.forecast_period env) c)) =
        map forecast_address (range day (day + k)).
Proof.
  intros Hh l. induction l as [|fc l IH]; intros day.
  - exists 0. split; [lia|]. split; [left; reflexivity|].
    rewrite range_nil by lia. reflexivity.
  - cbn [for_fold]. rewrite bind_result.
    destruct (forecast_period_run c h day fc Hh) as (t & o & Hr & Hcase).
    rewrite Hr. cbn [out trace final].
    destruct Hcase as [[Hd Ho]|[Hd [[-> Hlt]|Ho]]].
    + exists 0. split; [lia|]. split; [left; reflexivity|].
      rewrite range_nil by lia.
      destruct o as [d| |e]; [destruct (Ho d eq_refl)|exact Hd|exact Hd].
    + destruct (IH (day + 1)) as (k & Hk0 & Hk & Hdisp).
      exists (1 + k). split; [lia|]. split; [right; lia|].
      cbn [after trace]. rewrite dispatched_app, Hd, Hdisp.
      rewrite (range_cons day (day + (1 + k))) by lia.
      cbn [map app]. do 2 f_equal. f_equal. lia.
    + exists 1. split; [lia|]. split; [right; lia|].
      rewrite (range_cons day (day + 1)) by lia. rewrite range_nil by lia.
      destruct o as [d| |e]; [destruct (Ho d eq_refl)|exact Hd|exact Hd].
Qed.

End ForecastLoop.

(** With a horizon [h] of 1 or more, [query_forecast] dispatches the
    periods to the nodes of the days 0 to [k - 1] for some [k <= h]: no
    period goes to a day at or beyond the horizon, whatever the response
    holds. *)
Theorem forecast_dispatch_stays_below_positive_horizon :
  forall (env : Env) (c : Nodes.Controller) (h : Z),
    py_int env (NSParameters.get (Nodes.params c) "Forecast Days") = Some h ->
    1 <= h ->
    exists k,
      0 <= k <= h /\
      dispatched (trace (Nodes.query_forecast env c)) =
        map forecast_address (range 0 k).
Proof.
  intros env c h Hh Hpos.
  assert (Hnone : exists k, 0 <= k <= h /\
                            @nil string = map forecast_address (range 0 k)).
  { exists 0. split; [lia|]. reflexivity. }
  unfold Nodes.query_forecast. rewrite call_trace, bind_get_self.
  destruct (Nodes.configured c); cbn [negb]; [|exact Hnone].
  unfold try_except.
  set (body := (jdata <- Nodes.get_weather_data env "forecasts" ;; _)).
  assert (Hbody : exists k, 0 <= k <= h /\
                    dispatched (trace (body c)) = map forecast_address (range 0 k)).
  { subst body. rewrite bind_result.
    destruct (get_weather_data_dispatches_nothing env "forecasts" c)
      as (t & o & Hg & Ht).
    rewrite Hg. cbn [out trace final].
    destruct o as [jdata| |e]; [|exists 0; split; [lia|exact Ht]..].
    assert (Hstop : forall (o : outcome unit),
              exists k, 0 <= k <= h /\
                dispatched (trace (after t (mkResult [] c o))) =
                  map forecast_address (range 0 k)).
    { intros o. exists 0. split; [lia|]. cbn [after trace].
      rewrite app_nil_r. exact Ht. }
    destruct (is_None jdata).
    { rewrite bind_emit_after. exists 0. split; [lia|].
      cbn [after return_ trace]. rewrite dispatched_app, Ht. reflexivity. }
    rewrite bind_lift.
    destruct (py_getitem jdata "response") as [e|response]; [apply Hstop|].
    rewrite bind_lift. destruct (py_index response 0) as [e|r0]; [apply Hstop|].
    rewrite bind_lift. destruct (py_in "periods" r0) as [e|b]; [apply Hstop|].
    destruct b; [|apply Hstop].
    rewrite bind_lift. destruct (py_getitem r0 "periods") as [e|periods]; [apply Hstop|].
    rewrite bind_lift. destruct (py_len periods) as [e|n]; [apply Hstop|].
    rewrite bind_lift. destruct (py_iter periods) as [e|l]; [apply Hstop|].
    destruct (forecast_loop_run env c h Hh l 0) as (k & Hk0 & Hk & Hdisp).
    exists k. split; [lia|].
    cbn [after trace]. rewrite dispatched_app, Ht. cbn [app].
    rewrite bind_result.
    destruct (out (for_fold l 0 (Nodes.forecast_period env) c));
      cbn [after ret trace]; rewrite ?app_nil_r; exact Hdisp. }
  destruct Hbody as (k & Hk & Hdisp). exists k. split; [exact Hk|].
  destruct (out (body c)); try exact Hdisp.
  cbn [trace bind emit out final]. rewrite dispatched_app, Hdisp.
  cbn [dispatched app]. apply app_nil_r.
Qed.

Lemma forecast_dispatch_stays_below_positive_horizon_witness :
  exists k,
    0 <= k <= 2 /\
    dispatched (trace (Nodes.query_forecast
       (Samples.world None None
          (Some (Samples.forecast_body
                   [Samples.period "2019-01-01T00:00:00-06:00";
                    Samples.period "2019-01-02T00:00:00-06:00";
                    Samples.period "2019-01-03T00:00:00-06:00"])))
       (Samples.with_days "2" ["forecast_0"; "forecast_1"; "forecast_2"]))) =
      map forecast_address (range 0 k).
Proof.
  apply (forecast_dispatch_stays_below_positive_horizon
           (Samples.world None None
              (Some (Samples.forecast_body
                       [Samples.period "2019-01-01T00:00:00-06:00";
                        Samples.period "2019-01-02T00:00:00-06:00";
                        Samples.period "2019-01-03T00:00:00-06:00"])))
           (Samples.with_days "2" ["forecast_0"; "forecast_1"; "forecast_2"]) 2).
  - vm_compute. reflexivity.
  - lia.
Defined.



(** C4 (as amended): when the fourteen plain fields are read and the coded
    weather is a str of fewer than three segments, the drivers of the
    segments that exist are updated (GV11 always, GV12 with two segments),
    then an IndexError ends the block: GV13 and the cloud cover GV14 are not
    updated, [precipitation] stays 0, and the summary is still queried. *)
Theorem short_coded_weather_updates_leading_segments :
  forall (env : Env) (c c1 : Nodes.Controller) (t0 : list event) (ob : value)
         (s : string),
    Nodes.configured c = true ->
    Nodes.open_observation env c = mkResult t0 c1 (Normal ob) ->
    snd (fields_trace env (Nodes.tag c1) ob plain_fields) = None ->
    py_getitem ob "weatherCoded" = inr (VStr s) ->
    (List.length (split ":" s) < 3)%nat ->
    (1 <= List.length (split ":" s))%nat /\
    drivers_updated
      (t0 ++ fst (fields_trace env (Nodes.tag c1) ob plain_fields)) =
      map fst plain_fields /\
    drivers_updated (coded_events env (split ":" s)) =
      firstn (List.length (split ":" s)) ["GV11"; "GV12"; "GV13"] /\
    trace (Nodes.query_conditions env c) =
      (t0 ++ fst (fields_trace env (Nodes.tag c1) ob plain_fields)
          ++ coded_events env (split ":" s)
          ++ [LogError "Current observation update failure"; LogExn IndexError]
          ++ trace (Nodes.summary_phase env (VInt 0) c1))%list.
Proof.
  intros env c c1 t0 ob s Hc Ho Hall Hw Hlen.
  split; [|split; [|split]].
  - destruct s as [|a s]; cbn [split List.length]; [lia|].
    destruct (Ascii.eqb a ":"); [cbn [List.length]; lia|].
    destruct (split ":" s); cbn [List.length]; lia.
  - rewrite drivers_updated_app, (fields_trace_all env _ _ _ Hall).
    pose proof (open_observation_quiet env c) as (Hq & _). rewrite Ho in Hq.
    cbn [trace] in Hq. rewrite Hq. reflexivity.
  - unfold coded_events, coded_drivers.
    destruct (split ":" s) as [|a [|b [|x segs]]]; cbn [List.length] in Hlen;
      try lia; cbn [combine map fst snd List.length firstn];
      rewrite ?drivers_updated_driver_event; reflexivity.
  - assert (Hx : Nodes.extract_observation env ob c1 =
                 mkResult (fst (fields_trace env (Nodes.tag c1) ob plain_fields)
                             ++ coded_events env (split ":" s))
                   c1 (Raised IndexError)).
    { unfold Nodes.extract_observation.
      assert (Hf : Nodes.extract_fields env ob c1 =
                   mkResult (fst (fields_trace env (Nodes.tag c1) ob plain_fields))
                     c1 (Normal tt)).
      { rewrite extract_fields_run, Hall. reflexivity. }
      rewrite (bind_after _ _ _ _ _ _ Hf).
      assert (Hwr : Nodes.extract_weather env ob c1 =
                    mkResult (coded_events env (split ":" s)) c1 (Raised IndexError)).
      { rewrite (extract_weather_run env ob c1 s Hw).
        destruct (Nat.leb_spec 3 (List.length (split ":" s))); [lia|reflexivity]. }
      rewrite (bind_raised _ _ _ _ _ _ Hwr). reflexivity. }
    rewrite (query_conditions_phases env c _ _ _ Hc
               (observation_phase_raised env c t0 c1 ob _ IndexError Ho Hx)).
    rewrite <- !app_assoc. reflexivity.
Qed.

(** C9 (as amended): when the processing of the precipitation summary
    raises, the handler updates GV6 with the local [precipitation]: the value
    read from the observation if the first block ran to its end, and the
    initial 0 if the first block raised. *)
Theorem summary_failure_falls_back_to_precipitation :
  forall (env : Env) (c c1 : Nodes.Controller) (t : list event) (p : value) (e : exn),
    Nodes.configured c = true ->
    Nodes.observation_phase env c = mkResult t c1 (Normal p) ->
    out (Nodes.precipitation_summary env c1) = Raised e ->
    trace (Nodes.query_conditions env c) =
      (t ++ trace (Nodes.precipitation_summary env c1)
         ++ [LogError "Precipitation summary update failure"; LogExn e;
             driver_event env "GV6" p])%list /\
    (out (Nodes.observations env c) = Normal p \/
     (p = VInt 0 /\ exists e', out (Nodes.observations env c) = Raised e')).
Proof.
  intros env c c1 t p e Hc Hp Hs. split.
  - rewrite (query_conditions_phases env c _ _ _ Hc Hp). f_equal.
    unfold Nodes.summary_phase. rewrite (try_except_raised _ _ c1 e Hs).
    unfold after. cbn [trace]. f_equal.
    rewrite !bind_emit_after, update_driver_run. reflexivity.
  - unfold Nodes.observation_phase, try_except in Hp.
    destruct (out (Nodes.observations env c)) as [a| |e'] eqn:Ho.
    + left. rewrite (result_eta (Nodes.observations env c)), Ho in Hp.
      congruence.
    + rewrite (result_eta (Nodes.observations env c)), Ho in Hp. discriminate.
    + right. cbn [bind emit ret trace final out app] in Hp.
      split; [congruence|]. exists e'. reflexivity.
Qed.




Lemma short_coded_weather_updates_leading_segments_witness :
  (1 <= List.length (split ":" "PT:HVY"))%nat /\
  drivers_updated
    ([Fetch Samples.observation_request; LogError "No location data in response."]
       ++ fst (fields_trace
                 (Samples.world (Some (Samples.observation_body Samples.two_segments))
                    (Some Samples.summary_ok) None)
                 (Nodes.tag Samples.configured_controller)
                 (VDict Samples.two_segments) plain_fields)) =
    map fst plain_fields /\
  drivers_updated (coded_events
     (Samples.world (Some (Samples.observation_body Samples.two_segments))
        (Some Samples.summary_ok) None) (split ":" "PT:HVY")) =
    firstn (List.length (split ":" "PT:HVY")) ["GV11"; "GV12"; "GV13"] /\
  trace (Nodes.query_conditions
           (Samples.world (Some (Samples.observation_body Samples.two_segments))
              (Some Samples.summary_ok) None)
           Samples.configured_controller) =
    ([Fetch Samples.observation_request; LogError "No location data in response."]
       ++ fst (fields_trace
                 (Samples.world (Some (Samples.observation_body Samples.two_segments))
                    (Some Samples.summary_ok) None)
                 (Nodes.tag Samples.configured_controller)
                 (VDict Samples.two_segments) plain_fields)
       ++ coded_events
            (Samples.world (Some (Samples.observation_body Samples.two_segments))
               (Some Samples.summary_ok) None) (split ":" "PT:HVY")
       ++ [LogError "Current observation update failure"; LogExn IndexError]
       ++ trace (Nodes.summary_phase
                   (Samples.world (Some (Samples.observation_body Samples.two_segments))
                      (Some Samples.summary_ok) None)
                   (VInt 0) Samples.configured_controller))%list.
Proof.
  apply (short_coded_weather_updates_leading_segments
           (Samples.world (Some (Samples.observation_body Samples.two_segments))
              (Some Samples.summary_ok) None)
           Samples.configured_controller Samples.configured_controller
           [Fetch Samples.observation_request; LogError "No location data in response."]
           (VDict Samples.two_segments) "PT:HVY").
  - reflexivity.
  - vm_compute. reflexivity.
  - vm_compute. reflexivity.
  - vm_compute. reflexivity.
  - vm_compute. lia.
Defined.

(** C4, as the claim states it, fails: with the two segments of ["PT:HVY"]
    the coverage GV11 and the intensity GV12 are updated, and the cloud cover
    GV14, whose key [sky] is present, is not. *)
Lemma two_segments_update_coverage_and_intensity :
  dict_mem Samples.two_segments "sky" = true /\
  List.length (split ":" "PT:HVY") = 2%nat /\
  drivers_updated
    (trace (Nodes.query_conditions
              (Samples.world (Some (Samples.observation_body Samples.two_segments))
                 (Some Samples.summary_ok) None)
              Samples.configured_controller)) =
    [ "CLITEMP"; "CLIHUM"; "BARPRES"; "SPEED"; "GV5"; "WINDDIR"; "DISTANC";
      "DEWPT"; "GV3"; "GV4"; "GV2"; "SOLRAD"; "UV"; "GV15";
      "GV11"; "GV12"; "GV6" ].
Proof. repeat split; vm_compute; reflexivity. Qed.

Lemma summary_failure_falls_back_to_precipitation_witness :
  trace (Nodes.query_conditions
           (Samples.world (Some (Samples.observation_body Samples.ob_full))
              (Some Samples.summary_without_periods) None)
           Samples.configured_controller) =
    (trace (Nodes.observation_phase
              (Samples.world (Some (Samples.observation_body Samples.ob_full))
                 (Some Samples.summary_without_periods) None)
              Samples.configured_controller)
       ++ trace (Nodes.precipitation_summary
                   (Samples.world (Some (Samples.observation_body Samples.ob_full))
                      (Some Samples.summary_without_periods) None)
                   Samples.configured_controller)
       ++ [LogError "Precipitation summary update failure";
           LogExn (KeyError "periods");
           driver_event
             (Samples.world (Some (Samples.observation_body Samples.ob_full))
                (Some Samples.summary_without_periods) None)
             "GV6" (VFloat 0.5)])%list /\
  (out (Nodes.observations
          (Samples.world (Some (Samples.observation_body Samples.ob_full))
             (Some Samples.summary_without_periods) None)
          Samples.configured_controller) = Normal (VFloat 0.5) \/
   (VFloat 0.5 = VInt 0 /\
    exists e', out (Nodes.observations
                      (Samples.world (Some (Samples.observation_body Samples.ob_full))
                         (Some Samples.summary_without_periods) None)
                      Samples.configured_controller) = Raised e')).
Proof.
  apply (summary_failure_falls_back_to_precipitation
           (Samples.world (Some (Samples.observation_body Samples.ob_full))
              (Some Samples.summary_without_periods) None)
           Samples.configured_controller Samples.configured_controller).
  - reflexivity.
  - vm_compute. reflexivity.
  - vm_compute. reflexivity.
Defined.

(** C9, as the claim states it, fails. When neither the summary nor the
    observation gives a precipitation (the key [precipIN] is absent, the
    summary has no periods), GV6 is written with 0. When the observation
    gives 0.5 and the summary query fails in the transport, the method
    returns before its handler and GV6 is not written at all. *)
Lemma precipitation_fallback_counterexample :
  dict_mem (Samples.without "precipIN" Samples.ob_full) "precipIN" = false /\
  last (trace (Nodes.query_conditions
                 (Samples.world
                    (Some (Samples.observation_body
                             (Samples.without "precipIN" Samples.ob_full)))
                    (Some Samples.summary_without_periods) None)
                 Samples.configured_controller))
       (LogError "") = SetDriver "GV6" 0 /\
  dict_get Samples.ob_full "precipIN" = Some (VFloat 0.5) /\
  existsb (String.eqb "GV6")
    (drivers_updated
       (trace (Nodes.query_conditions
                 (Samples.world (Some (Samples.observation_body Samples.ob_full))
                    None None)
                 Samples.configured_controller))) = false.
Proof. repeat split; vm_compute; reflexivity. Qed.

(** ** The order of binary64 numbers *)

Section FloatOrder.

Lemma lex_lt_trans e1 m1 e2 m2 e3 m3 :
  lex e1 m1 e2 m2 = Lt -> lex e2 m2 e3 m3 = Lt -> lex e1 m1 e3 m3 = Lt.
Proof.
  unfold lex.
  destruct (Z.compare_spec e1 e2), (Z.compare_spec e2 e3), (Z.compare_spec e1 e3);
    try discriminate; try lia; try reflexivity.
  rewrite !Pos.compare_lt_iff. lia.
Qed.

Lemma lex_gt_trans e1 m1 e2 m2 e3 m3 :
  lex e1 m1 e2 m2 = Gt -> lex e2 m2 e3 m3 = Gt -> lex e1 m1 e3 m3 = Gt.
Proof.
  unfold lex.
  destruct (Z.compare_spec e1 e2), (Z.compare_spec e2 e3), (Z.compare_spec e1 e3);
    try discriminate; try lia; try reflexivity.
  rewrite !Pos.compare_gt_iff. lia.
Qed.

Lemma lex_opp e1 m1 e2 m2 : lex e2 m2 e1 m1 = CompOpp (lex e1 m1 e2 m2).
Proof.
  unfold lex. rewrite (Z.compare_antisym e1 e2).
  destruct (e1 ?= e2)%Z; cbn [CompOpp]; try reflexivity.
  apply Pos.compare_antisym.
Qed.

Lemma SFcompare_finite s1 m1 e1 s2 m2 e2 :
  SFcompare (S754_finite s1 m1 e1) (S754_finite s2 m2 e2) =
  Some (match s1, s2 with
        | true, false => Lt
        | false, true => Gt
        | false, false => lex e1 m1 e2 m2
        | true, true => CompOpp (lex e1 m1 e2 m2)
        end).
Proof.
  unfold lex, SFcompare. destruct s1, s2; try reflexivity.
  - destruct (e1 ?= e2)%Z; reflexivity.
Qed.

Lemma CompOpp_Lt c : CompOpp c = Lt <-> c = Gt.
Proof. destruct c; cbn; split; congruence. Qed.

Lemma SFcompare_lt_trans a b c :
  SFcompare a b = Some Lt -> SFcompare b c = Some Lt -> SFcompare a c = Some Lt.
Proof.
  destruct a as [sa|sa| |sa ma ea], b as [sb|sb| |sb mb eb], c as [sc|sc| |sc mc ec];
    rewrite ?SFcompare_finite;
    try (cbn [SFcompare]; repeat match goal with s : bool |- _ => destruct s end;
         intros; congruence).
  destruct sa, sb, sc; intros H1 H2; try congruence; f_equal;
    injection H1 as H1; injection H2 as H2.
  - apply CompOpp_Lt in H1, H2. apply CompOpp_Lt. eapply lex_gt_trans; eassumption.
  - eapply lex_lt_trans; eassumption.
Qed.

Lemma SFcompare_opp a b :
  SFcompare b a = option_map CompOpp (SFcompare a b).
Proof.
  destruct a as [sa|sa| |sa ma ea], b as [sb|sb| |sb mb eb];
    rewrite ?SFcompare_finite;
    try (cbn [SFcompare option_map];
         repeat match goal with s : bool |- _ => destruct s end; reflexivity).
  cbn [option_map]. f_equal. rewrite (lex_opp ea ma eb mb).
  destruct sa, sb; cbn [CompOpp]; reflexivity.
Qed.

(** [b <= a] and [a < c] give [not (c < b)]: the running maximum dominates
    what it has seen; this holds for nan too. *)
Lemma ltb_false_trans (a b c : float) :
  (a <? b)%float = false -> (a <? c)%float = true -> (c <? b)%float = false.
Proof.
  rewrite !ltb_spec. unfold SFltb. intros Hab Hac.
  destruct (SFcompare (Prim2SF c) (Prim2SF b)) as [[| |]|] eqn:Hcb; try reflexivity.
  destruct (SFcompare (Prim2SF a) (Prim2SF c)) as [[| |]|] eqn:Hac'; try discriminate.
  rewrite (SFcompare_lt_trans _ _ _ Hac' Hcb) in Hab. discriminate.
Qed.

(** [a <= z] and [c < a] give [not (z < c)]. *)
Lemma ltb_false_trans_min (a z c : float) :
  (z <? a)%float = false -> (c <? a)%float = true -> (z <? c)%float = false.
Proof.
  rewrite !ltb_spec. unfold SFltb. intros Hza Hca.
  destruct (SFcompare (Prim2SF z) (Prim2SF c)) as [[| |]|] eqn:Hzc; try reflexivity.
  destruct (SFcompare (Prim2SF c) (Prim2SF a)) as [[| |]|] eqn:Hca'; try discriminate.
  rewrite (SFcompare_lt_trans _ _ _ Hzc Hca') in Hza. discriminate.
Qed.

Lemma ltb_irrefl (a : float) : (a <? a)%float = false.
Proof.
  rewrite ltb_spec. unfold SFltb.
  pose proof (SFcompare_opp (Prim2SF a) (Prim2SF a)) as H.
  destruct (SFcompare (Prim2SF a) (Prim2SF a)) as [[| |]|]; try reflexivity.
  discriminate.
Qed.

Lemma SFcompare_total a b :
  SFcompare a a <> None -> SFcompare b b <> None -> SFcompare a b <> None.
Proof.
  destruct a as [sa|sa| |sa ma ea], b as [sb|sb| |sb mb eb];
    rewrite ?SFcompare_finite; cbn [SFcompare]; congruence.
Qed.

(** Two numbers, none below the other, are equal as numbers. *)
Lemma ltb_false_antisym (a b : float) :
  is_nan a = false -> is_nan b = false ->
  (a <? b)%float = false -> (b <? a)%float = false -> (a =? b)%float = true.
Proof.
  unfold is_nan. rewrite !ltb_spec, !eqb_spec. unfold SFltb, SFeqb.
  intros Ha Hb Hab Hba.
  rewrite (SFcompare_opp (Prim2SF a) (Prim2SF b)) in Hba.
  assert (Hn : SFcompare (Prim2SF a) (Prim2SF b) <> None).
  { apply SFcompare_total.
    - destruct (SFcompare (Prim2SF a) (Prim2SF a)); [congruence|discriminate].
    - destruct (SFcompare (Prim2SF b) (Prim2SF b)); [congruence|discriminate]. }
  destruct (SFcompare (Prim2SF a) (Prim2SF b)) as [[| |]|];
    try reflexivity; try discriminate; congruence.
Qed.

End FloatOrder.


(** ** Running maximum and minimum *)

Lemma fold_fmax_in (xs : list float) : forall acc,
  In (fold_left fmax xs acc) (acc :: xs).
Proof.
  induction xs as [|x xs IH]; intros acc; cbn [fold_left]; [left; reflexivity|].
  destruct (IH (fmax acc x)) as [H|H]; [|right; right; exact H].
  rewrite <- H. unfold fmax. destruct (acc <? x)%float; [right; left|left]; reflexivity.
Qed.

Lemma fold_fmin_in (xs : list float) : forall acc,
  In (fold_left fmin xs acc) (acc :: xs).
Proof.
  induction xs as [|x xs IH]; intros acc; cbn [fold_left]; [left; reflexivity|].
  destruct (IH (fmin acc x)) as [H|H]; [|right; right; exact H].
  rewrite <- H. unfold fmin. destruct (x <? acc)%float; [right; left|left]; reflexivity.
Qed.

Lemma fold_fmax_dominates (xs : list float) : forall acc seen,
  (forall z, In z seen -> (acc <? z)%float = false) ->
  forall z, In z (seen ++ xs)%list -> (fold_left fmax xs acc <? z)%float = false.
Proof.
  induction xs as [|x xs IH]; intros acc seen Hseen z Hz; cbn [fold_left].
  - rewrite app_nil_r in Hz. apply Hseen, Hz.
  - apply (IH (fmax acc x) (seen ++ [x])%list).
    + intros y Hy. apply in_app_iff in Hy. unfold fmax.
      destruct (acc <? x)%float eqn:E.
      * destruct Hy as [Hy|[<-|[]]].
        -- apply (ltb_false_trans acc); [apply Hseen, Hy|exact E].
        -- apply ltb_irrefl.
      * destruct Hy as [Hy|[<-|[]]]; [apply Hseen, Hy|exact E].
    + rewrite <- app_assoc. exact Hz.
Qed.

Lemma fold_fmin_dominated (xs : list float) : forall acc seen,
  (forall z, In z seen -> (z <? acc)%float = false) ->
  forall z, In z (seen ++ xs)%list -> (z <? fold_left fmin xs acc)%float = false.
Proof.
  induction xs as [|x xs IH]; intros acc seen Hseen z Hz; cbn [fold_left].
  - rewrite app_nil_r in Hz. apply Hseen, Hz.
  - apply (IH (fmin acc x) (seen ++ [x])%list).
    + intros y Hy. apply in_app_iff in Hy. unfold fmin.
      destruct (x <? acc)%float eqn:E.
      * destruct Hy as [Hy|[<-|[]]].
        -- apply (ltb_false_trans_min acc); [apply Hseen, Hy|exact E].
        -- apply ltb_irrefl.
      * destruct Hy as [Hy|[<-|[]]]; [apply Hseen, Hy|exact E].
    + rewrite <- app_assoc. exact Hz.
Qed.

(** The running maximum of a day does not depend on the order of its
    values, as long as none is nan. *)
Lemma fold_fmax_permutation (x0 y0 : float) (xs ys : list float) :
  Permutation (x0 :: xs) (y0 :: ys) ->
  Forall (fun x => is_nan x = false) (x0 :: xs) ->
  (fold_left fmax xs x0 =? fold_left fmax ys y0)%float = true.
Proof.
  intros Hp Hn. rewrite Forall_forall in Hn.
  pose proof (fold_fmax_in xs x0) as Hx.
  pose proof (fold_fmax_in ys y0) as Hy.
  apply ltb_false_antisym.
  - apply Hn, Hx.
  - apply Hn. apply (Permutation_in _ (Permutation_sym Hp)), Hy.
  - apply (fold_fmax_dominates xs x0 [x0]).
    + intros z [<-|[]]. apply ltb_irrefl.
    + apply (Permutation_in _ (Permutation_sym Hp)), Hy.
  - apply (fold_fmax_dominates ys y0 [y0]).
    + intros z [<-|[]]. apply ltb_irrefl.
    + apply (Permutation_in _ Hp), Hx.
Qed.

Lemma fold_fmin_permutation (x0 y0 : float) (xs ys : list float) :
  Permutation (x0 :: xs) (y0 :: ys) ->
  Forall (fun x => is_nan x = false) (x0 :: xs) ->
  (fold_left fmin xs x0 =? fold_left fmin ys y0)%float = true.
Proof.
  intros Hp Hn. rewrite Forall_forall in Hn.
  pose proof (fold_fmin_in xs x0) as Hx.
  pose proof (fold_fmin_in ys y0) as Hy.
  apply ltb_false_antisym.
  - apply Hn, Hx.
  - apply Hn. apply (Permutation_in _ (Permutation_sym Hp)), Hy.
  - apply (fold_fmin_dominated ys y0 [y0]).
    + intros z [<-|[]]. apply ltb_irrefl.
    + apply (Permutation_in _ Hp), Hx.
  - apply (fold_fmin_dominated xs x0 [x0]).
    + intros z [<-|[]]. apply ltb_irrefl.
    + apply (Permutation_in _ (Permutation_sym Hp)), Hy.
Qed.

(** ** The legacy aggregation of a day *)

Section LegacyDay.
Variable env : Env.

Lemma bind_silent {S A B : Type} (m : M S A) (f : A -> M S B) (s s' : S) a :
  m s = mkResult [] s' (Normal a) -> bind m f s = f a s'.
Proof. intros H. rewrite (bind_after _ _ _ _ _ _ H). apply after_nil. Qed.

Lemma reading_run fc k1 k2 x (c : Legacy.Controller) :
  reading_of env fc k1 k2 = Some x ->
  Legacy.reading env fc k1 k2 c = mkResult [] c (Normal x).
Proof.
  unfold reading_of, Legacy.reading. intros H.
  rewrite bind_lift. destruct (py_getitem fc k1) as [e|a]; [discriminate|].
  rewrite bind_lift. destruct (py_getitem a k2) as [e|v]; [discriminate|].
  rewrite H. reflexivity.
Qed.

Lemma modify_fcast_run g f (c : Legacy.Controller) :
  Legacy.modify_fcast g (Legacy.with_fcast f c)
  = mkResult [] (Legacy.with_fcast (g f) c) (Normal tt).
Proof. reflexivity. Qed.

(** One of the four tests of lines 344-351, followed by the rest. *)
Lemma extreme_step {B : Type} fc k1 k2 x (lt : float -> float -> bool)
    (get : fcast_t -> float) (set : float -> fcast_t -> fcast_t)
    (k : M Legacy.Controller B) f c :
  reading_of env fc k1 k2 = Some x ->
  (forall g, set (get g) g = g) ->
  (y <- Legacy.reading env fc k1 k2 ;;
   s <- get_self ;;
   (if lt (get (Legacy.fcast s)) y then
      z <- Legacy.reading env fc k1 k2 ;; Legacy.modify_fcast (set z)
    else ret tt) ;;
   k) (Legacy.with_fcast f c)
  = k (Legacy.with_fcast
         (set (if lt (get f) x then x else get f) f) c).
Proof.
  intros Hr Hsg.
  rewrite (bind_silent _ _ _ _ _ (reading_run fc k1 k2 x _ Hr)).
  rewrite bind_get_self. cbn [Legacy.fcast Legacy.with_fcast].
  destruct (lt (get f) x).
  - rewrite (bind_silent _ (fun _ => k) _
               (Legacy.with_fcast (set x f) c) tt); [reflexivity|].
    rewrite (bind_silent _ _ _ _ _ (reading_run fc k1 k2 x _ Hr)).
    apply modify_fcast_run.
  - rewrite bind_ret, Hsg. reflexivity.
Qed.

(** One of the three sums of lines 354-356, followed by the rest. *)
Lemma sum_step {B : Type} fc k1 k2 x (g : float -> fcast_t -> fcast_t)
    (k : M Legacy.Controller B) f c :
  reading_of env fc k1 k2 = Some x ->
  (y <- Legacy.reading env fc k1 k2 ;; Legacy.modify_fcast (g y) ;; k)
    (Legacy.with_fcast f c)
  = k (Legacy.with_fcast (g x f) c).
Proof.
  intros Hr.
  rewrite (bind_silent _ _ _ _ _ (reading_run fc k1 k2 x _ Hr)).
  rewrite (bind_silent _ (fun _ => k) _ (Legacy.with_fcast (g x f) c) tt);
    [reflexivity|].
  apply modify_fcast_run.
Qed.

Lemma bucket_readings_inv fc b :
  bucket_readings env fc = Some b ->
  reading_of env fc "main" "temp_max" = Some (r_temp_max b) /\
  reading_of env fc "main" "temp_min" = Some (r_temp_min b) /\
  reading_of env fc "main" "humidity" = Some (r_humidity b) /\
  reading_of env fc "main" "pressure" = Some (r_pressure b) /\
  reading_of env fc "wind" "speed" = Some (r_speed b) /\
  reading_of env fc "clouds" "all" = Some (r_clouds b).
Proof.
  unfold bucket_readings.
  destruct (reading_of env fc "main" "temp_max"); [|discriminate].
  destruct (reading_of env fc "main" "temp_min"); [|discriminate].
  destruct (reading_of env fc "main" "humidity"); [|discriminate].
  destruct (reading_of env fc "main" "pressure"); [|discriminate].
  destruct (reading_of env fc "wind" "speed"); [|discriminate].
  destruct (reading_of env fc "clouds" "all"); [|discriminate].
  intros [= <-]. cbn. repeat split; reflexivity.
Qed.

(** Lines 342-357 on a bucket whose six values are read. *)
Lemma fold_bucket_run fc b l f c :
  bucket_readings env fc = Some b ->
  Legacy.fold_bucket env l fc (Legacy.with_fcast f c) =
  mkResult [] (Legacy.with_fcast (absorb f b) c)
    (Normal {| Legacy.day := Legacy.day l; Legacy.start := Legacy.start l;
               Legacy.count := Legacy.count l + 1 |}).
Proof.
  intros Hb. apply bucket_readings_inv in Hb.
  destruct Hb as (H1 & H2 & H3 & H4 & H5 & H6).
  unfold Legacy.fold_bucket.
  rewrite (extreme_step fc "main" "temp_max" (r_temp_max b)
             (fun a y => PrimFloat.ltb a y) temp_max Legacy.set_temp_max _ f c H1)
    by (intros []; reflexivity).
  rewrite (extreme_step fc "main" "temp_min" (r_temp_min b)
             (fun a y => PrimFloat.ltb y a) temp_min Legacy.set_temp_min _ _ c H2)
    by (intros []; reflexivity).
  rewrite (extreme_step fc "main" "humidity" (r_humidity b)
             (fun a y => PrimFloat.ltb a y) Hmax Legacy.set_Hmax _ _ c H3)
    by (intros []; reflexivity).
  rewrite (extreme_step fc "main" "humidity" (r_humidity b)
             (fun a y => PrimFloat.ltb y a) Hmin Legacy.set_Hmin _ _ c H3)
    by (intros []; reflexivity).
  rewrite (sum_step fc "main" "pressure" (r_pressure b) _ _ _ c H4).
  rewrite (sum_step fc "wind" "speed" (r_speed b) _ _ _ c H5).
  rewrite (sum_step fc "clouds" "all" (r_clouds b) _ _ _ c H6).
  destruct f. reflexivity.
Qed.

Lemma set_step {B : Type} fc k1 k2 x (g : float -> fcast_t -> fcast_t)
    (k : M Legacy.Controller B) c :
  reading_of env fc k1 k2 = Some x ->
  (y <- Legacy.reading env fc k1 k2 ;; Legacy.modify_fcast (g y) ;; k) c
  = k (Legacy.with_fcast (g x (Legacy.fcast c)) c).
Proof.
  intros Hr.
  rewrite (bind_silent _ _ _ _ _ (reading_run fc k1 k2 x _ Hr)).
  rewrite (bind_silent _ (fun _ => k) _
             (Legacy.with_fcast (g x (Legacy.fcast c)) c) tt);
    reflexivity.
Qed.

Lemma uv_block_run uv_data d c :
  try_except
    (u <- lift (py_index uv_data (Z.to_nat (d - 1))) ;;
     v <- lift (py_getitem u "value") ;;
     Legacy.modify_fcast (Legacy.set_uv v))
    (fun _ => Legacy.modify_fcast (Legacy.set_uv (VInt 0))) c
  = mkResult [] (Legacy.with_fcast (Legacy.set_uv (uv_of uv_data d) (Legacy.fcast c)) c)
      (Normal tt).
Proof.
  unfold try_except, uv_of. rewrite bind_lift.
  destruct (py_index uv_data (Z.to_nat (d - 1))) as [e|u]; [reflexivity|].
  rewrite bind_lift. destruct (py_getitem u "value") as [e|v]; reflexivity.
Qed.

(** Lines 325-341 on a bucket whose values are read. *)
Lemma start_day_run uv_data fc b w dtv l c :
  bucket_readings env fc = Some b ->
  bucket_weather env fc = Some w ->
  py_getitem fc "dt" = inr dtv ->
  Legacy.start_day env uv_data l fc c =
  mkResult [] (Legacy.with_fcast (seed b w dtv (uv_of uv_data (Legacy.day l))) c)
    (Normal {| Legacy.day := Legacy.day l; Legacy.start := true;
               Legacy.count := 1 |}).
Proof.
  intros Hb Hw Hd. apply bucket_readings_inv in Hb.
  destruct Hb as (H1 & H2 & H3 & H4 & H5 & H6).
  unfold Legacy.start_day.
  rewrite (set_step fc "main" "temp_max" _ Legacy.set_temp_max _ _ H1).
  rewrite (set_step fc "main" "temp_min" _ Legacy.set_temp_min _ _ H2).
  rewrite (set_step fc "main" "humidity" _ Legacy.set_Hmax _ _ H3).
  rewrite (set_step fc "main" "humidity" _ Legacy.set_Hmin _ _ H3).
  rewrite (set_step fc "main" "pressure" _ Legacy.set_pressure _ _ H4).
  unfold bucket_weather in Hw.
  rewrite bind_lift. destruct (py_getitem fc "weather") as [e|w1]; [discriminate|].
  rewrite bind_lift. destruct (py_index w1 0) as [e|w0]; [discriminate|].
  rewrite bind_lift. destruct (py_getitem w0 "id") as [e|v]; [discriminate|].
  rewrite bind_lift_opt, Hw.
  rewrite (bind_silent _ _ _ _ tt (eq_refl : Legacy.modify_fcast _ _ = mkResult [] _ _)).
  rewrite (set_step fc "wind" "speed" _ Legacy.set_speed _ _ H5).
  rewrite (set_step fc "clouds" "all" _ Legacy.set_clouds _ _ H6).
  rewrite bind_lift, Hd.
  rewrite (bind_silent _ _ _ _ tt (eq_refl : Legacy.modify_fcast _ _ = mkResult [] _ _)).
  rewrite (bind_silent _ _ _ _ tt (uv_block_run uv_data (Legacy.day l) _)).
  reflexivity.
Qed.

Lemma bucket_time_inv fc t :
  bucket_time fc = Some t ->
  exists txt d0, py_getitem fc "dt_txt" = inr (VStr txt) /\
                 nth_error (split " " txt) 0 = Some d0 /\
                 nth_error (split " " txt) 1 = Some t.
Proof.
  unfold bucket_time. destruct (py_getitem fc "dt_txt") as [e|[]]; try discriminate.
  intros H. exists s. destruct (split " " s) as [|d0 rest]; [discriminate|].
  exists d0. repeat split. exact H.
Qed.

(** The loop body once the time of the bucket is known. *)
Lemma forecast_bucket_time uv_data l fc t c :
  bucket_time fc = Some t ->
  Legacy.forecast_bucket env uv_data l fc c =
  (l' <- (if String.eqb t "00:00:00" then Legacy.start_day env uv_data l fc
          else if Legacy.start l then Legacy.fold_bucket env l fc
          else ret l) ;;
   if String.eqb t "21:00:00" && Legacy.start l' then
     Legacy.close_averages 8 ;;
     s <- get_self ;;
     Legacy.update_forecast env ("forecast_" ++ str_of_Z (Legacy.day l'))
       (Legacy.elevation s) (Legacy.plant_type s) ;;
     ret {| Legacy.day := Legacy.day l' + 1; Legacy.start := false;
            Legacy.count := 0 |}
   else ret l') c.
Proof.
  intros Ht. destruct (bucket_time_inv fc t Ht) as (txt & d0 & H1 & H2 & H3).
  unfold Legacy.forecast_bucket.
  rewrite bind_lift, H1. cbn [py_split]. rewrite bind_lift.
  rewrite bind_lift_opt, H2, bind_lift_opt, H3. reflexivity.
Qed.

Lemma forecast_bucket_start uv_data l fc b w dtv c :
  start_bucket env fc b w dtv ->
  Legacy.forecast_bucket env uv_data l fc c =
  mkResult [] (Legacy.with_fcast (seed b w dtv (uv_of uv_data (Legacy.day l))) c)
    (Normal {| Legacy.day := Legacy.day l; Legacy.start := true;
               Legacy.count := 1 |}).
Proof.
  intros (Ht & Hb & Hw & Hd).
  rewrite (forecast_bucket_time uv_data l fc _ c Ht).
  cbn [String.eqb Ascii.eqb Bool.eqb andb].
  rewrite (bind_silent _ _ _ _ _ (start_day_run uv_data fc b w dtv l c Hb Hw Hd)).
  reflexivity.
Qed.

Lemma forecast_bucket_middle uv_data l fc b f c :
  middle_bucket env fc b ->
  Legacy.start l = true ->
  Legacy.forecast_bucket env uv_data l fc (Legacy.with_fcast f c) =
  mkResult [] (Legacy.with_fcast (absorb f b) c)
    (Normal {| Legacy.day := Legacy.day l; Legacy.start := true;
               Legacy.count := Legacy.count l + 1 |}).
Proof.
  intros (Hb & t & Ht & H0 & H21) Hs.
  rewrite (forecast_bucket_time uv_data l fc _ _ Ht), H0, H21, Hs.
  rewrite (bind_silent _ _ _ _ _ (fold_bucket_run fc b l f c Hb)).
  rewrite Hs. reflexivity.
Qed.

Lemma close_averages_run n f c :
  n <> 0 ->
  Legacy.close_averages n (Legacy.with_fcast f c) =
  mkResult [] (Legacy.with_fcast (averaged f n) c) (Normal tt).
Proof.
  intros Hn. unfold Legacy.close_averages, Legacy.py_div.
  destruct (Z.eqb_spec n 0) as [|_]; [contradiction|].
  rewrite bind_get_self, bind_ret.
  rewrite (bind_silent _ _ _ _ tt (eq_refl : Legacy.modify_fcast _ _ = mkResult [] _ _)).
  rewrite bind_get_self, bind_ret.
  rewrite (bind_silent _ _ _ _ tt (eq_refl : Legacy.modify_fcast _ _ = mkResult [] _ _)).
  rewrite bind_get_self, bind_ret.
  destruct f. reflexivity.
Qed.

Lemma update_forecast_run address f elev plant c :
  Legacy.update_forecast env address elev plant (Legacy.with_fcast f c) =
  handed env address f elev plant c.
Proof.
  unfold Legacy.update_forecast, handed. rewrite bind_get_self.
  cbn [Legacy.nodes Legacy.with_fcast].
  destruct (existsb (String.eqb address) (Legacy.nodes c)); [|reflexivity].
  rewrite bind_emit_after.
  destruct (update_forecast_ok env address); reflexivity.
Qed.

(** The bucket of 21:00:00 of a started day: folded, averaged over 8, and
    handed to the node of the day. *)
Lemma forecast_bucket_closing uv_data l fc b f c :
  closing_bucket env fc b ->
  Legacy.start l = true ->
  trace (Legacy.forecast_bucket env uv_data l fc (Legacy.with_fcast f c)) =
    trace (handed env ("forecast_" ++ str_of_Z (Legacy.day l)) (averaged (absorb f b) 8)
             (Legacy.elevation c) (Legacy.plant_type c) c) /\
  final (Legacy.forecast_bucket env uv_data l fc (Legacy.with_fcast f c)) =
    Legacy.with_fcast (averaged (absorb f b) 8) c /\
  match out (Legacy.forecast_bucket env uv_data l fc (Legacy.with_fcast f c)) with
  | Normal l' => Legacy.start l' = false
  | Returned => False
  | Raised _ => True
  end.
Proof.
  intros (Ht & Hb) Hs.
  rewrite (forecast_bucket_time uv_data l fc _ _ Ht).
  cbn [String.eqb Ascii.eqb Bool.eqb andb]. rewrite Hs.
  rewrite (bind_silent _ _ _ _ _ (fold_bucket_run fc b l f c Hb)).
  cbn [Legacy.start Legacy.day]. rewrite Hs. cbn [andb].
  rewrite (bind_silent _ _ _ _ tt (close_averages_run 8 _ c ltac:(discriminate))).
  rewrite bind_get_self. cbn [Legacy.elevation Legacy.plant_type Legacy.with_fcast].
  unfold bind. rewrite update_forecast_run. unfold handed.
  destruct (existsb _ (Legacy.nodes c)); [|repeat split].
  destruct (update_forecast_ok env _); repeat split.
Qed.

(** The buckets between the first and the last of a day are folded one by
    one; each adds one to [count]. *)
Lemma fold_middle_buckets uv_data (mids : list (value * readings)) :
  Forall (fun p => middle_bucket env (fst p) (snd p)) mids ->
  forall tail l f c,
    Legacy.start l = true ->
    for_fold (map fst mids ++ tail) l (Legacy.forecast_bucket env uv_data)
      (Legacy.with_fcast f c) =
    for_fold tail
      {| Legacy.day := Legacy.day l; Legacy.start := true;
         Legacy.count := Legacy.count l + Z.of_nat (List.length mids) |}
      (Legacy.forecast_bucket env uv_data)
      (Legacy.with_fcast (fold_left absorb (map snd mids) f) c).
Proof.
  induction 1 as [|[fc b] mids Hm _ IH]; intros tail l f c Hs.
  - cbn [map app List.length fold_left Z.of_nat]. rewrite Z.add_0_r.
    destruct l as [d s n]. cbn [Legacy.start] in Hs. subst s. reflexivity.
  - cbn [map app fst snd fold_left for_fold].
    rewrite (bind_silent _ _ _ _ _
               (forecast_bucket_middle uv_data l fc b f c Hm Hs)).
    rewrite (IH tail
               {| Legacy.day := Legacy.day l; Legacy.start := true;
                  Legacy.count := Legacy.count l + 1 |}
               (absorb f b) c eq_refl).
    cbn [Legacy.day Legacy.count List.length].
    replace (Legacy.count l + 1 + Z.of_nat (List.length mids))
      with (Legacy.count l + Z.of_nat (S (List.length mids))) by lia.
    reflexivity.
Qed.

Lemma http_request_run r j (c : Legacy.Controller) :
  fetch env r = Some j ->
  Legacy.http_request env r c = mkResult [Fetch r] c (Normal tt).
Proof. intros H. unfold Legacy.http_request. rewrite H. reflexivity. Qed.

Lemma json_loads_run r j (c : Legacy.Controller) :
  fetch env r = Some j ->
  Legacy.json_loads env r c = mkResult [] c (Normal j).
Proof. intros H. unfold Legacy.json_loads. rewrite H. reflexivity. Qed.

(** A request that is answered, and its body decoded at once. *)
Lemma bind_request_loads {B : Type} r j (f : value -> M Legacy.Controller B) c :
  fetch env r = Some j ->
  (Legacy.http_request env r ;; jdata <- Legacy.json_loads env r ;; f jdata) c =
    after [Fetch r] (f j c).
Proof.
  intros H. rewrite (bind_after _ _ _ _ _ _ (http_request_run r j c H)).
  rewrite (bind_silent _ _ _ _ _ (json_loads_run r j c H)). reflexivity.
Qed.

Lemma py_getitem_in v k x : py_getitem v k = inr x -> py_in k v = inr true.
Proof.
  destruct v; try discriminate. cbn [py_getitem py_in]. unfold dict_mem.
  destruct (dict_get d k); [reflexivity|discriminate].
Qed.

(** The run of [query_forecast] on the buckets of one day. *)
Lemma legacy_day_trace c rq uq jdata uv_data first b0 w dtv mids last :
  Legacy.configured c = true ->
  Legacy.forecast_request c = inr rq ->
  Legacy.uv_request c = inr uq ->
  fetch env rq = Some jdata ->
  fetch env uq = Some uv_data ->
  py_getitem jdata "list" = inr (VList (day_buckets first mids last)) ->
  start_bucket env first b0 w dtv ->
  Forall (fun p => middle_bucket env (fst p) (snd p)) mids ->
  match last with Some p => closing_bucket env (fst p) (snd p) | None => True end ->
  trace (Legacy.query_forecast env c) =
    Fetch rq :: Fetch uq ::
    trace (handed env "forecast_1"
             (averaged (folded b0 w dtv (uv_of uv_data 1) (day_readings mids last))
                (divisor mids last))
             (match last with Some _ => Legacy.elevation c | None => VInt 400 end)
             (match last with Some _ => Legacy.plant_type c | None => VFloat 0.23 end)
             c).
Proof.
  intros Hc Hrq Huq Hf Hu Hl Hs Hm Hlast.
  unfold Legacy.query_forecast. rewrite call_trace, bind_get_self.
  rewrite bind_lift, Hrq, Hc. cbn [negb].
  rewrite (bind_after _ _ _ _ _ _ (http_request_run rq jdata c Hf)).
  rewrite bind_lift, Huq.
  rewrite (bind_after _ _ _ _ _ _ (http_request_run uq uv_data c Hu)).
  rewrite (bind_silent _ _ _ _ _ (json_loads_run uq uv_data c Hu)).
  rewrite (bind_silent _ _ _ _ _ (json_loads_run rq jdata c Hf)).
  cbn [after trace app]. do 2 f_equal.
  rewrite bind_lift, (py_getitem_in _ _ _ Hl), bind_lift, Hl.
  cbn [py_iter]. rewrite bind_lift. unfold day_buckets. cbn [for_fold].
  unfold bind at 1.
  rewrite (bind_silent _ _ _ _ _
             (forecast_bucket_start uv_data _ first b0 w dtv c Hs)).
  cbn [Legacy.day].
  rewrite (fold_middle_buckets uv_data mids Hm _
             {| Legacy.day := 1; Legacy.start := true; Legacy.count := 1 |}
             _ c eq_refl).
  cbn [Legacy.day Legacy.count]. unfold folded, day_readings, divisor.
  rewrite fold_left_app.
  set (F := fold_left absorb (map snd mids) (seed b0 w dtv (uv_of uv_data 1))).
  destruct last as [[fcl bl]|]; cbn [fst snd fold_left].
  - destruct (forecast_bucket_closing uv_data
                {| Legacy.day := 1; Legacy.start := true;
                   Legacy.count := 1 + Z.of_nat (List.length mids) |}
                fcl bl F c Hlast eq_refl) as (Ht & Hfin & Ho).
    cbn [Legacy.day] in Ht.
    rewrite !for_fold_one.
    destruct (out (Legacy.forecast_bucket env uv_data _ fcl (Legacy.with_fcast F c)))
      as [l'| |e]; try contradiction.
    + rewrite Ho. cbn [after ret trace final out]. rewrite app_nil_r. exact Ht.
    + cbn [trace]. exact Ht.
  - cbn [for_fold ret out final trace Legacy.start Legacy.count Legacy.day app].
    rewrite (bind_silent _ _ _ _ tt
               (close_averages_run (1 + Z.of_nat (List.length mids)) F c
                  ltac:(lia))).
    rewrite update_forecast_run.
    replace (Z.of_nat (S (List.length mids)))
      with (1 + Z.of_nat (List.length mids)) by lia.
    reflexivity.
Qed.

End LegacyDay.


Lemma fold_absorb_field (p : fcast_t -> float) (q : readings -> float)
    (op : float -> float -> float) :
  (forall f b, p (absorb f b) = op (p f) (q b)) ->
  forall rs f, p (fold_left absorb rs f) = fold_left op (map q rs) (p f).
Proof.
  intros H rs. induction rs as [|b rs IH]; intros f; [reflexivity|].
  cbn [fold_left map]. rewrite IH, H. reflexivity.
Qed.

(** The summary handed out for the buckets of one day. *)
Lemma day_run_summary env c uv_data first b0 mids last :
  day_run env c uv_data first b0 mids last ->
  exists w dtv,
    summaries (trace (Legacy.query_forecast env c)) =
      [averaged (folded b0 w dtv (uv_of uv_data 1) (day_readings mids last))
         (divisor mids last)].
Proof.
  intros (Hc & Hn & (uq & Huq & Hu) & (jdata & (rq & Hrq & Hf) & Hl)
          & (w & dtv & Hs) & Hm & Hlast).
  exists w, dtv.
  rewrite (legacy_day_trace env c rq uq jdata uv_data first b0 w dtv mids last
             Hc Hrq Huq Hf Hu Hl Hs Hm Hlast).
  unfold handed. rewrite Hn. reflexivity.
Qed.


(** C8 (as amended): for the buckets of one day, the maximum temperature is
    seeded with [temp_max] of the first bucket and the minimum with its
    [temp_min], both humidity extremes with its [humidity], and each later
    bucket replaces an extreme only when strictly beyond it; a day of one
    bucket hands out the values of that bucket. When the values are numbers,
    a second day made of the same buckets in another order hands out extremes
    equal to those of the first. *)
Theorem legacy_extremes_seeded_and_order_independent :
  forall (env env' : Env) (c c' : Legacy.Controller)
         (uv_data uv_data' first first' : value) (b0 b0' : readings)
         (mids mids' : list (value * readings))
         (last last' : option (value * readings)),
    day_run env c uv_data first b0 mids last ->
    day_run env' c' uv_data' first' b0' mids' last' ->
    Permutation (b0 :: day_readings mids last) (b0' :: day_readings mids' last') ->
    Forall numeric (b0 :: day_readings mids last) ->
    exists s s',
      summaries (trace (Legacy.query_forecast env c)) = [s] /\
      summaries (trace (Legacy.query_forecast env' c')) = [s'] /\
      temp_max s =
        fold_left fmax (map r_temp_max (day_readings mids last)) (r_temp_max b0) /\
      temp_min s =
        fold_left fmin (map r_temp_min (day_readings mids last)) (r_temp_min b0) /\
      Hmax s =
        fold_left fmax (map r_humidity (day_readings mids last)) (r_humidity b0) /\
      Hmin s =
        fold_left fmin (map r_humidity (day_readings mids last)) (r_humidity b0) /\
      (day_readings mids last = [] ->
         temp_max s = r_temp_max b0 /\ temp_min s = r_temp_min b0 /\
         Hmax s = r_humidity b0 /\ Hmin s = r_humidity b0) /\
      (temp_max s =? temp_max s')%float = true /\
      (temp_min s =? temp_min s')%float = true /\
      (Hmax s =? Hmax s')%float = true /\
      (Hmin s =? Hmin s')%float = true.
Proof.
  intros env env' c c' uv_data uv_data' first first' b0 b0' mids mids' last last'
         Hrun Hrun' Hperm Hnum.
  destruct (day_run_summary env c uv_data first b0 mids last Hrun)
    as (w & dtv & Hs).
  destruct (day_run_summary env' c' uv_data' first' b0' mids' last' Hrun')
    as (w' & dtv' & Hs').
  eexists. eexists. split; [exact Hs|]. split; [exact Hs'|].
  unfold folded. cbn [averaged temp_max temp_min Hmax Hmin].
  rewrite !(fold_absorb_field temp_max r_temp_max fmax) by reflexivity.
  rewrite !(fold_absorb_field temp_min r_temp_min fmin) by reflexivity.
  rewrite !(fold_absorb_field Hmax r_humidity fmax) by reflexivity.
  rewrite !(fold_absorb_field Hmin r_humidity fmin) by reflexivity.
  cbn [seed temp_max temp_min Hmax Hmin].
  do 4 (split; [reflexivity|]).
  split; [intros ->; repeat split|].
  assert (Hn : forall q : readings -> float,
             (forall b, numeric b -> is_nan (q b) = false) ->
             Forall (fun x => is_nan x = false)
               (q b0 :: map q (day_readings mids last))).
  { intros q Hq. change (q b0 :: map q (day_readings mids last))
      with (map q (b0 :: day_readings mids last)).
    rewrite Forall_map. revert Hnum. apply Forall_impl. exact Hq. }
  assert (Hp : forall q : readings -> float,
             Permutation (q b0 :: map q (day_readings mids last))
                         (q b0' :: map q (day_readings mids' last'))).
  { intros q. apply (Permutation_map q) in Hperm. exact Hperm. }
  split; [|split; [|split]].
  - apply fold_fmax_permutation; [apply Hp|apply Hn]. intros b Hb; apply Hb.
  - apply fold_fmin_permutation; [apply Hp|apply Hn]. intros b Hb; apply Hb.
  - apply fold_fmax_permutation; [apply Hp|apply Hn]. intros b Hb; apply Hb.
  - apply fold_fmin_permutation; [apply Hp|apply Hn]. intros b Hb; apply Hb.
Qed.


Ltac solve_day_run :=
  unfold day_run, start_bucket;
  repeat match goal with
         | |- _ /\ _ => split
         | |- True => exact I
         | |- Forall _ [] => constructor
         | |- Forall _ (_ :: _) => constructor
         | |- middle_bucket _ _ _ =>
             split; [vm_compute; reflexivity
                    | eexists; split; [vm_compute; reflexivity
                                      | split; vm_compute; reflexivity]]
         | |- closing_bucket _ _ _ => split; vm_compute; reflexivity
         | |- answered_with _ _ _ =>
             eexists; split; [vm_compute; reflexivity|vm_compute; reflexivity]
         | |- exists jdata, answered_with _ _ jdata /\ _ =>
             eexists; split;
               [eexists; split; [vm_compute; reflexivity|vm_compute; reflexivity]
               |vm_compute; reflexivity]
         | |- exists w dtv, _ => exists 800%float, (VInt 1546300800)
         | |- _ = _ => vm_compute; reflexivity
         end.




Lemma legacy_extremes_seeded_and_order_independent_witness :
  exists s s',
    summaries (trace (Legacy.query_forecast Days.order_a Days.node_one)) = [s] /\
    summaries (trace (Legacy.query_forecast Days.order_b Days.node_one)) = [s'] /\
    temp_max s =
      fold_left fmax
        (map r_temp_max
           (day_readings [(Days.fc "03:00:00" 25, Days.at_temp 25);
                          (Days.fc "06:00:00" 5, Days.at_temp 5)] None))
        (r_temp_max (Days.at_temp 10)) /\
    temp_min s =
      fold_left fmin
        (map r_temp_min
           (day_readings [(Days.fc "03:00:00" 25, Days.at_temp 25);
                          (Days.fc "06:00:00" 5, Days.at_temp 5)] None))
        (r_temp_min (Days.at_temp 10)) /\
    Hmax s =
      fold_left fmax
        (map r_humidity
           (day_readings [(Days.fc "03:00:00" 25, Days.at_temp 25);
                          (Days.fc "06:00:00" 5, Days.at_temp 5)] None))
        (r_humidity (Days.at_temp 10)) /\
    Hmin s =
      fold_left fmin
        (map r_humidity
           (day_readings [(Days.fc "03:00:00" 25, Days.at_temp 25);
                          (Days.fc "06:00:00" 5, Days.at_temp 5)] None))
        (r_humidity (Days.at_temp 10)) /\
    (day_readings [(Days.fc "03:00:00" 25, Days.at_temp 25);
                   (Days.fc "06:00:00" 5, Days.at_temp 5)] None = [] ->
       temp_max s = r_temp_max (Days.at_temp 10) /\
       temp_min s = r_temp_min (Days.at_temp 10) /\
       Hmax s = r_humidity (Days.at_temp 10) /\
       Hmin s = r_humidity (Days.at_temp 10)) /\
    (temp_max s =? temp_max s')%float = true /\
    (temp_min s =? temp_min s')%float = true /\
    (Hmax s =? Hmax s')%float = true /\
    (Hmin s =? Hmin s')%float = true.
Proof.
  apply (legacy_extremes_seeded_and_order_independent
           Days.order_a Days.order_b Days.node_one Days.node_one
           (VList []) (VList [])
           (Days.fc "00:00:00" 10) (Days.fc "00:00:00" 25)
           (Days.at_temp 10) (Days.at_temp 25)
           [(Days.fc "03:00:00" 25, Days.at_temp 25);
            (Days.fc "06:00:00" 5, Days.at_temp 5)]
           [(Days.fc "03:00:00" 5, Days.at_temp 5);
            (Days.fc "06:00:00" 10, Days.at_temp 10)]
           None None).
  - solve_day_run.
  - solve_day_run.
  - apply (Permutation_cons_append [Days.at_temp 25; Days.at_temp 5] (Days.at_temp 10)).
  - repeat constructor.
Defined.

(** The sample of the spec: the temperatures 10, 25 and 5 give a maximum of
    25 and a minimum of 5 in both orders. *)
Lemma three_temperatures_in_two_orders :
  map temp_max (summaries (trace (Legacy.query_forecast Days.order_a Days.node_one)))
    = [25%float] /\
  map temp_min (summaries (trace (Legacy.query_forecast Days.order_a Days.node_one)))
    = [5%float] /\
  map temp_max (summaries (trace (Legacy.query_forecast Days.order_b Days.node_one)))
    = [25%float] /\
  map temp_min (summaries (trace (Legacy.query_forecast Days.order_b Days.node_one)))
    = [5%float].
Proof. repeat split; vm_compute; reflexivity. Qed.

(** C8, as the claim states it, fails. The maximum is seeded from the key
    [temp_max] of the first bucket and the minimum from its key [temp_min]:
    a day of one bucket with a [temp_max] of 25 and a [temp_min] of 10 hands
    out a maximum of 25 and a minimum of 10. And a nan among the values, which
    [json.loads] accepts, makes the maximum depend on the order: nan then 1
    gives nan, 1 then nan gives 1. *)
Lemma one_bucket_has_two_temperatures :
  map temp_max
    (summaries (trace (Legacy.query_forecast
       (Samples.legacy_world [Samples.bucket "00:00:00" 25 10 40 1000 2 20])
       Days.node_one))) = [25%float] /\
  map temp_min
    (summaries (trace (Legacy.query_forecast
       (Samples.legacy_world [Samples.bucket "00:00:00" 25 10 40 1000 2 20])
       Days.node_one))) = [10%float] /\
  (25 =? 10)%float = false /\
  map temp_max
    (summaries (trace (Legacy.query_forecast
       (Samples.legacy_world [Days.fc "00:00:00" nan; Days.fc "03:00:00" 1])
       Days.node_one))) = [nan] /\
  map temp_max
    (summaries (trace (Legacy.query_forecast
       (Samples.legacy_world [Days.fc "00:00:00" 1; Days.fc "03:00:00" nan])
       Days.node_one))) = [1%float].
Proof. repeat split; vm_compute; reflexivity. Qed.

(** ** Footprints of the monad's operations *)

Section Within.
Context {S : Type} (P : event -> bool) (R : S -> S -> Prop).
Hypothesis R_refl : forall s, R s s.
Hypothesis R_trans : forall a b c, R a b -> R b c -> R a c.

Lemma within_ret {A : Type} (a : A) : within P R (ret a).
Proof. intros s. split; [reflexivity|apply R_refl]. Qed.

Lemma within_raise {A : Type} (e : exn) : within P R (@raise S A e).
Proof. intros s. split; [reflexivity|apply R_refl]. Qed.

Lemma within_return {A : Type} : within P R (@return_ S A).
Proof. intros s. split; [reflexivity|apply R_refl]. Qed.

Lemma within_get_self : within P R (@get_self S).
Proof. intros s. split; [reflexivity|apply R_refl]. Qed.

Lemma within_lift {A : Type} (x : exn + A) : within P R (@lift S A x).
Proof. destruct x; [apply within_raise|apply within_ret]. Qed.

Lemma within_lift_opt {A : Type} (e : exn) (x : option A) :
  within P R (@lift_opt S A e x).
Proof. destruct x; [apply within_ret|apply within_raise]. Qed.

Lemma within_emit (ev : event) : P ev = true -> within P R (@emit S ev).
Proof.
  intros H s. split; [|apply R_refl]. cbn [emit trace forallb].
  rewrite H. reflexivity.
Qed.

Lemma within_bind {A B : Type} (m : M S A) (f : A -> M S B) :
  within P R m -> (forall a, within P R (f a)) -> within P R (bind m f).
Proof.
  intros Hm Hf s. destruct (Hm s) as [Ht Hs]. unfold bind.
  destruct (out (m s)) as [a| |e]; cbn [trace final]; try (split; assumption).
  destruct (Hf a (final (m s))) as [Ht' Hs']. split.
  - rewrite forallb_app, Ht, Ht'. reflexivity.
  - exact (R_trans _ _ _ Hs Hs').
Qed.

Lemma within_try {A : Type} (body : M S A) (handler : exn -> M S A) :
  within P R body -> (forall e, within P R (handler e)) ->
  within P R (try_except body handler).
Proof.
  intros Hm Hf s. destruct (Hm s) as [Ht Hs]. unfold try_except.
  destruct (out (body s)) as [a| |e]; try (split; assumption).
  destruct (Hf e (final (body s))) as [Ht' Hs']. cbn [trace final]. split.
  - rewrite forallb_app, Ht, Ht'. reflexivity.
  - exact (R_trans _ _ _ Hs Hs').
Qed.

Lemma within_call (m : M S unit) : within P R m -> within P R (call m).
Proof.
  intros Hm s. destruct (Hm s) as [Ht Hs]. unfold call.
  destruct (out (m s)); split; assumption.
Qed.

Lemma within_for_each {A : Type} (l : list A) (body : A -> M S unit) :
  (forall x, within P R (body x)) -> within P R (for_each l body).
Proof.
  intros Hb. induction l as [|x l IH]; cbn [for_each].
  - apply within_ret.
  - apply within_bind; [apply Hb|intros _; exact IH].
Qed.

Lemma within_for_fold {A L : Type} (l : list A) (body : L -> A -> M S L) :
  (forall acc x, within P R (body acc x)) ->
  forall acc, within P R (for_fold l acc body).
Proof.
  intros Hb. induction l as [|x l IH]; intros acc; cbn [for_fold].
  - apply within_ret.
  - apply within_bind; [apply Hb|intros acc'; apply IH].
Qed.

End Within.

Lemma within_weaken {S A : Type} (P P' : event -> bool) (R R' : S -> S -> Prop)
    (m : M S A) :
  (forall ev, P ev = true -> P' ev = true) ->
  (forall s s', R s s' -> R' s s') ->
  within P R m -> within P' R' m.
Proof.
  intros HP HR Hm s. destruct (Hm s) as [Ht Hs]. split; [|apply HR, Hs].
  rewrite forallb_forall in *. intros ev Hin. apply HP, Ht, Hin.
Qed.

(** *** Runs that raise nothing *)

Lemma never_raises_bind {S A B : Type} (m : M S A) (f : A -> M S B) :
  never_raises m -> (forall a, never_raises (f a)) -> never_raises (bind m f).
Proof.
  intros Hm Hf s e. unfold bind. specialize (Hm s).
  destruct (out (m s)) as [a| |e']; cbn [out].
  - apply Hf.
  - discriminate.
  - destruct (Hm e' eq_refl).
Qed.

Lemma never_raises_try {S A : Type} (body : M S A) (handler : exn -> M S A) :
  (forall e, never_raises (handler e)) -> never_raises (try_except body handler).
Proof.
  intros Hh s e. unfold try_except.
  destruct (out (body s)) as [a| |e'] eqn:Ho; cbn [out].
  - rewrite Ho. discriminate.
  - rewrite Ho. discriminate.
  - apply Hh.
Qed.

Lemma never_raises_emit {S : Type} (ev : event) : never_raises (@emit S ev).
Proof. intros s e. discriminate. Qed.

Lemma never_raises_ret {S A : Type} (a : A) : never_raises (@ret S A a).
Proof. intros s e. discriminate. Qed.

Lemma never_raises_return {S A : Type} : never_raises (@return_ S A).
Proof. intros s e. discriminate. Qed.

Lemma never_raises_get_self {S : Type} : never_raises (@get_self S).
Proof. intros s e. discriminate. Qed.

(** A call whose body raises nothing ends normally. *)
Lemma call_normal {S : Type} (m : M S unit) :
  never_raises m -> forall s, out (call m s) = Normal tt.
Proof.
  intros Hm s. unfold call. specialize (Hm s).
  destruct (out (m s)) as [[]| |e] eqn:Ho; cbn [out].
  - exact Ho.
  - reflexivity.
  - destruct (Hm e eq_refl).
Qed.

(** *** Counting the requests *)

Lemma fetches_app (t1 t2 : list event) :
  fetches (t1 ++ t2) = (fetches t1 + fetches t2)%nat.
Proof.
  unfold fetches. induction t1 as [|ev t1 IH]; [reflexivity|].
  destruct ev; cbn [app requests List.length]; rewrite ?IH; reflexivity.
Qed.

Lemma cost_weaken {S A : Type} (n n' : nat) (m : M S A) :
  (n <= n')%nat -> cost n m -> cost n' m.
Proof. intros Hle Hm s. specialize (Hm s). lia. Qed.

Lemma cost_bind {S A B : Type} (n1 n2 : nat) (m : M S A) (f : A -> M S B) :
  cost n1 m -> (forall a, cost n2 (f a)) -> cost (n1 + n2) (bind m f).
Proof.
  intros Hm Hf s. unfold bind. specialize (Hm s).
  destruct (out (m s)) as [a| |e]; cbn [trace]; try lia.
  rewrite fetches_app. specialize (Hf a (final (m s))). lia.
Qed.

Lemma cost_try {S A : Type} (n1 n2 : nat) (body : M S A) (handler : exn -> M S A) :
  cost n1 body -> (forall e, cost n2 (handler e)) ->
  cost (n1 + n2) (try_except body handler).
Proof.
  intros Hm Hf s. unfold try_except. specialize (Hm s).
  destruct (out (body s)) as [a| |e]; cbn [trace]; try lia.
  rewrite fetches_app. specialize (Hf e (final (body s))). lia.
Qed.

Lemma cost_call {S : Type} (n : nat) (m : M S unit) : cost n m -> cost n (call m).
Proof.
  intros Hm s. unfold call. specialize (Hm s).
  destruct (out (m s)); cbn [trace]; exact Hm.
Qed.

(** A run without a request costs nothing. *)
Lemma within_cost {S A : Type} (R : S -> S -> Prop) (m : M S A) :
  within not_fetch R m -> cost 0 m.
Proof.
  intros Hm s. destruct (Hm s) as [Ht _]. unfold fetches.
  induction (trace (m s)) as [|ev t IH]; [reflexivity|].
  cbn [forallb] in Ht. apply andb_true_iff in Ht as [Hev Ht].
  destruct ev; try discriminate; cbn [requests]; apply IH, Ht.
Qed.

(** Runs through a body whose steps are operations of the monad. *)
Ltac foot_step rf tr known :=
  first
    [ apply (within_ret _ _ rf) | apply (within_raise _ _ rf)
    | apply (within_return _ _ rf) | apply (within_get_self _ _ rf)
    | apply (within_lift _ _ rf) | apply (within_lift_opt _ _ rf)
    | apply (within_emit _ _ rf); reflexivity
    | known
    | apply (within_bind _ _ tr); [ | intros ? ]
    | apply (within_try _ _ tr); [ | intros ? ]
    | apply within_call
    | apply (within_for_each _ _ rf tr); intros ?
    | apply (within_for_fold _ _ rf tr); intros ? ?
    | match goal with
      | |- within _ _ (if ?b then _ else _) => destruct b
      | |- within _ _ (match ?x with _ => _ end) => destruct x
      end ].

Ltac foot rf tr known := repeat (foot_step rf tr known).

(** ** Footprints of the current controller *)

Lemma only_latitude_refl c : only_latitude c c.
Proof. destruct c; reflexivity. Qed.

Lemma only_latitude_trans a b c :
  only_latitude a b -> only_latitude b c -> only_latitude a c.
Proof. unfold only_latitude. intros -> ->. destruct a; reflexivity. Qed.

Lemma only_nodes_refl c : only_nodes c c.
Proof. destruct c; reflexivity. Qed.

Lemma only_nodes_trans a b c :
  only_nodes a b -> only_nodes b c -> only_nodes a c.
Proof. unfold only_nodes. intros -> ->. destruct a; reflexivity. Qed.

Lemma stays_configured_trans a b c :
  stays_configured a b -> stays_configured b c -> stays_configured a c.
Proof. unfold stays_configured. auto. Qed.

Section NodesFootprint.
Variable env : Env.
Variable P : event -> bool.
Variable R : Nodes.Controller -> Nodes.Controller -> Prop.
Hypothesis R_refl : forall s, R s s.
Hypothesis R_trans : forall a b c, R a b -> R b c -> R a c.
Hypothesis P_fetch : forall r, P (Fetch r) = true.
Hypothesis P_error : forall m, P (LogError m) = true.
Hypothesis P_exn : forall e, P (LogExn e) = true.
Hypothesis P_set : forall d x,
  declares NodesDrivers.drivers d = true -> P (SetDriver d x) = true.
Hypothesis P_missing : forall d,
  declares NodesDrivers.drivers d = true -> P (MissingData d) = true.
Hypothesis P_dispatch : forall a f la el pl tg fo,
  P (UpdateForecast a f la el pl tg fo) = true.
Hypothesis P_registry : forall ev, registry_event ev = true -> P ev = true.
Hypothesis R_latitude : forall c v, R c (Nodes.with_latitude v c).
Hypothesis R_nodes : forall c l, R c (Nodes.with_nodes l c).
Hypothesis R_configured : forall c, R c (Nodes.with_configured true c).
Hypothesis R_params : forall c p, R c (Nodes.with_params p c).
Hypothesis R_tag : forall c t, R c (Nodes.with_tag t c).
Hypothesis R_force : forall c b, R c (Nodes.with_force b c).

Lemma modify_within f : (forall c, R c (f c)) -> within P R (Nodes.modify f).
Proof. intros H c. split; [reflexivity|apply H]. Qed.

Lemma param_within n : within P R (Nodes.param n).
Proof. unfold Nodes.param. foot R_refl R_trans fail. Qed.

Lemma log_within m : within P R (@emit Nodes.Controller (LogError m)).
Proof. apply (within_emit _ _ R_refl), P_error. Qed.

Lemma get_weather_data_within extra : within P R (Nodes.get_weather_data env extra).
Proof.
  unfold Nodes.get_weather_data.
  foot R_refl R_trans ltac:(first [apply param_within | apply log_within
    | apply (within_emit _ _ R_refl), P_fetch]).
Qed.

Lemma update_driver_within d v :
  declares NodesDrivers.drivers d = true ->
  within P R (Nodes.update_driver env d v).
Proof.
  intros Hd. unfold Nodes.update_driver.
  destruct (py_float env v); apply (within_emit _ _ R_refl); auto.
Qed.

Lemma field_within ob l : within P R (Nodes.field ob l).
Proof. unfold Nodes.field. foot R_refl R_trans fail. Qed.

Lemma segment_within ob i : within P R (Nodes.segment ob i).
Proof. unfold Nodes.segment. foot R_refl R_trans fail. Qed.

Lemma open_observation_within : within P R (Nodes.open_observation env).
Proof.
  unfold Nodes.open_observation.
  foot R_refl R_trans ltac:(first [apply get_weather_data_within | apply log_within
    | apply modify_within; intros; apply R_latitude]).
Qed.

Lemma extract_fields_within ob : within P R (Nodes.extract_fields env ob).
Proof.
  unfold Nodes.extract_fields.
  foot R_refl R_trans ltac:(first [apply field_within
    | apply update_driver_within; reflexivity]).
Qed.

Lemma extract_weather_within ob : within P R (Nodes.extract_weather env ob).
Proof.
  unfold Nodes.extract_weather.
  foot R_refl R_trans ltac:(first [apply segment_within
    | apply update_driver_within; reflexivity]).
Qed.

Lemma extract_observation_within ob : within P R (Nodes.extract_observation env ob).
Proof.
  unfold Nodes.extract_observation.
  foot R_refl R_trans ltac:(first [apply extract_fields_within
    | apply extract_weather_within | apply field_within
    | apply update_driver_within; reflexivity]).
Qed.

Lemma observations_within : within P R (Nodes.observations env).
Proof.
  unfold Nodes.observations.
  foot R_refl R_trans ltac:(first [apply open_observation_within
    | apply extract_observation_within]).
Qed.

Lemma precipitation_summary_within : within P R (Nodes.precipitation_summary env).
Proof.
  unfold Nodes.precipitation_summary.
  foot R_refl R_trans ltac:(first [apply get_weather_data_within | apply log_within
    | apply update_driver_within; reflexivity]).
Qed.

Lemma observation_phase_within : within P R (Nodes.observation_phase env).
Proof.
  unfold Nodes.observation_phase.
  foot R_refl R_trans ltac:(first [apply observations_within | apply log_within
    | apply (within_emit _ _ R_refl), P_exn]).
Qed.

Lemma summary_phase_within p : within P R (Nodes.summary_phase env p).
Proof.
  unfold Nodes.summary_phase.
  foot R_refl R_trans ltac:(first [apply precipitation_summary_within
    | apply log_within | apply (within_emit _ _ R_refl), P_exn
    | apply update_driver_within; reflexivity]).
Qed.

Lemma query_conditions_within : within P R (Nodes.query_conditions env).
Proof.
  unfold Nodes.query_conditions.
  foot R_refl R_trans ltac:(first [apply observation_phase_within
    | apply summary_phase_within]).
Qed.

Lemma update_forecast_within a f : within P R (Nodes.update_forecast env a f).
Proof.
  unfold Nodes.update_forecast.
  foot R_refl R_trans ltac:(apply (within_emit _ _ R_refl), P_dispatch).
Qed.

Lemma forecast_period_within day f : within P R (Nodes.forecast_period env day f).
Proof.
  unfold Nodes.forecast_period.
  foot R_refl R_trans ltac:(first [apply update_forecast_within | apply param_within]).
Qed.

Lemma query_forecast_within : within P R (Nodes.query_forecast env).
Proof.
  unfold Nodes.query_forecast.
  foot R_refl R_trans ltac:(first [apply get_weather_data_within | apply log_within
    | apply (within_emit _ _ R_refl), P_exn | apply forecast_period_within]).
Qed.

Lemma delete_node_within a : within P R (Nodes.delete_node env a).
Proof.
  unfold Nodes.delete_node.
  foot R_refl R_trans ltac:(first
    [ apply (within_emit _ _ R_refl), P_registry; reflexivity
    | apply modify_within; intros; apply R_nodes ]).
Qed.

Lemma create_node_within a t : within P R (Nodes.create_node env a t).
Proof.
  unfold Nodes.create_node.
  foot R_refl R_trans ltac:(first
    [ apply (within_emit _ _ R_refl), P_registry; reflexivity
    | apply modify_within; intros c0;
      destruct (existsb (String.eqb a) (Nodes.nodes c0));
      [apply R_refl|apply R_nodes] ]).
Qed.

Lemma set_driver_uom_within u : within P R (Nodes.set_driver_uom env u).
Proof.
  unfold Nodes.set_driver_uom.
  foot R_refl R_trans ltac:(apply param_within).
Qed.

Lemma reconcile_within : within P R (Nodes.reconcile env).
Proof.
  unfold Nodes.reconcile.
  foot R_refl R_trans ltac:(first [apply param_within | apply delete_node_within
    | apply create_node_within]).
Qed.

Lemma discover_within : within P R (Nodes.discover env).
Proof.
  unfold Nodes.discover.
  foot R_refl R_trans ltac:(first [apply param_within | apply reconcile_within
    | apply set_driver_uom_within]).
Qed.

Lemma check_params_within : within P R (Nodes.check_params env).
Proof.
  unfold Nodes.check_params.
  foot R_refl R_trans ltac:(first [apply param_within
    | apply modify_within; intros; first [apply R_configured|apply R_params]]).
Qed.

Lemma set_tags_within u : within P R (Nodes.set_tags u).
Proof. unfold Nodes.set_tags. apply modify_within. intros. apply R_tag. Qed.

Lemma parameterHandler_within custom : within P R (Nodes.parameterHandler env custom).
Proof.
  unfold Nodes.parameterHandler.
  foot R_refl R_trans ltac:(first [apply discover_within
    | apply modify_within; intros; first [apply R_configured|apply R_params]]).
Qed.

Lemma start_within : within P R (Nodes.start env).
Proof.
  unfold Nodes.start.
  foot R_refl R_trans ltac:(first [apply check_params_within | apply param_within
    | apply set_tags_within | apply discover_within
    | apply query_conditions_within | apply query_forecast_within
    | apply modify_within; intros; apply R_force]).
Qed.

Lemma poll_within longpoll : within P R (Nodes.poll env longpoll).
Proof.
  unfold Nodes.poll.
  foot R_refl R_trans ltac:(first [apply query_conditions_within
    | apply query_forecast_within]).
Qed.

End NodesFootprint.

(** ** What the two queries never do *)

Section QueryCost.
Variable env : Env.

Lemma get_weather_data_cost extra : cost 1 (Nodes.get_weather_data env extra).
Proof.
  intros c. unfold Nodes.get_weather_data.
  rewrite bind_param, bind_lift.
  destruct (py_str_add _ _) as [e|r1]; [cbn; lia|].
  rewrite bind_param, bind_lift.
  destruct (py_str_add _ _) as [e|r2]; [cbn; lia|].
  rewrite bind_param, bind_lift.
  destruct (py_str_add _ _) as [e|r3]; [cbn; lia|].
  destruct (String.eqb extra "forecasts").
  - unfold bind at 1. rewrite bind_param.
    destruct (py_str_add _ _) as [e|r4]; [cbn; lia|].
    cbn [lift ret out final trace app].
    destruct (fetch env _) as [j|]; cbn; lia.
  - rewrite bind_ret, bind_emit_after.
    destruct (fetch env _) as [j|]; cbn; lia.
Qed.

Ltac no_fetch lem :=
  apply (within_cost any_state); apply lem;
  solve [ intros; exact I | intros; reflexivity
        | intros [] H; first [discriminate H | reflexivity] ].

Lemma open_observation_cost : cost 1 (Nodes.open_observation env).
Proof.
  unfold Nodes.open_observation.
  apply (cost_bind 1 0); [apply get_weather_data_cost|]. intros jdata.
  apply (within_cost any_state).
  foot (fun c : Nodes.Controller => I)
       (fun (a b c : Nodes.Controller) (_ : any_state a b) (_ : any_state b c) => I)
       ltac:(intros c; split; [reflexivity|exact I]).
Qed.

Lemma extract_observation_cost ob : cost 0 (Nodes.extract_observation env ob).
Proof. no_fetch extract_observation_within. Qed.

Lemma observation_phase_cost : cost 1 (Nodes.observation_phase env).
Proof.
  unfold Nodes.observation_phase, Nodes.observations.
  apply (cost_try 1 0).
  - apply (cost_bind 1 0); [apply open_observation_cost|].
    intros ob. apply extract_observation_cost.
  - intros e c. cbn. lia.
Qed.

Lemma summary_phase_cost p : cost 1 (Nodes.summary_phase env p).
Proof.
  unfold Nodes.summary_phase, Nodes.precipitation_summary.
  apply (cost_try 1 0).
  - apply (cost_bind 1 0); [apply get_weather_data_cost|]. intros jdata.
    apply (within_cost any_state).
    foot (fun c : Nodes.Controller => I)
         (fun (a b c : Nodes.Controller) (_ : any_state a b) (_ : any_state b c) => I)
         ltac:(apply update_driver_within;
               solve [intros; exact I | intros; reflexivity]).
  - intros e c. unfold Nodes.update_driver.
    destruct (py_float env p); cbn; lia.
Qed.

Lemma query_conditions_cost : cost 2 (Nodes.query_conditions env).
Proof.
  unfold Nodes.query_conditions. apply cost_call.
  intros c. rewrite bind_get_self.
  destruct (negb (Nodes.configured c)); [cbn; lia|].
  apply (cost_bind 1 1); [apply observation_phase_cost|].
  intros p. apply summary_phase_cost.
Qed.

Lemma query_forecast_cost : cost 1 (Nodes.query_forecast env).
Proof.
  unfold Nodes.query_forecast. apply cost_call.
  intros c. rewrite bind_get_self.
  destruct (negb (Nodes.configured c)); [cbn; lia|].
  apply (cost_try 1 0); [|intros e c'; cbn; lia].
  apply (cost_bind 1 0); [apply get_weather_data_cost|]. intros jdata.
  apply (within_cost any_state).
  foot (fun c : Nodes.Controller => I)
       (fun (a b c : Nodes.Controller) (_ : any_state a b) (_ : any_state b c) => I)
       ltac:(apply forecast_period_within;
             solve [intros; exact I | intros; reflexivity]).
Qed.

Lemma update_driver_never_raises d v : never_raises (Nodes.update_driver env d v).
Proof.
  intros c e. unfold Nodes.update_driver.
  destruct (py_float env v); discriminate.
Qed.

Lemma query_conditions_normal c : out (Nodes.query_conditions env c) = Normal tt.
Proof.
  unfold Nodes.query_conditions. apply call_normal.
  apply never_raises_bind; [apply never_raises_get_self|]. intros c0.
  destruct (negb (Nodes.configured c0)); [apply never_raises_return|].
  apply never_raises_bind.
  - apply never_raises_try. intros e.
    repeat (apply never_raises_bind; [apply never_raises_emit|intros _]).
    apply never_raises_ret.
  - intros p. apply never_raises_try. intros e.
    repeat (apply never_raises_bind; [apply never_raises_emit|intros _]).
    apply update_driver_never_raises.
Qed.

Lemma query_forecast_normal c : out (Nodes.query_forecast env c) = Normal tt.
Proof.
  unfold Nodes.query_forecast. apply call_normal.
  apply never_raises_bind; [apply never_raises_get_self|]. intros c0.
  destruct (negb (Nodes.configured c0)); [apply never_raises_return|].
  apply never_raises_try. intros e.
  apply never_raises_bind; [apply never_raises_emit|intros _].
  apply never_raises_emit.
Qed.

Lemma query_forecast_unchanged c : final (Nodes.query_forecast env c) = c.
Proof.
  assert (H : within forecast_event (fun a b => b = a) (Nodes.query_forecast env)).
  { apply query_forecast_within;
      solve [ reflexivity | intros; congruence ]. }
  exact (proj2 (H c)).
Qed.

Lemma query_conditions_only_latitude c :
  forallb conditions_event (trace (Nodes.query_conditions env c)) = true /\
  only_latitude c (final (Nodes.query_conditions env c)).
Proof.
  assert (H : within conditions_event only_latitude (Nodes.query_conditions env)).
  { apply query_conditions_within;
      solve [ apply only_latitude_refl | apply only_latitude_trans
            | reflexivity | intros; assumption
            | intros [] ? ?; reflexivity ]. }
  exact (H c).
Qed.

End QueryCost.

(** X3: a query of the conditions never raises and never leaves a [return]
    pending; it records nothing but requests, log lines and updates of
    drivers that the controller declares (no node is created, deleted or
    handed a forecast); it changes nothing of the controller but the
    latitude; and it issues at most two requests. *)
Theorem query_conditions_footprint :
  forall (env : Env) (c : Nodes.Controller),
    out (Nodes.query_conditions env c) = Normal tt /\
    forallb conditions_event (trace (Nodes.query_conditions env c)) = true /\
    final (Nodes.query_conditions env c) =
      Nodes.with_latitude (Nodes.latitude (final (Nodes.query_conditions env c))) c /\
    (fetches (trace (Nodes.query_conditions env c)) <= 2)%nat.
Proof.
  intros env c. split; [apply query_conditions_normal|].
  destruct (query_conditions_only_latitude env c) as [Ht Hs].
  split; [exact Ht|]. split; [exact Hs|]. apply query_conditions_cost.
Qed.

(** X4: a query of the forecast never raises; it records nothing but
    requests, log lines and periods handed to forecast nodes (no driver of
    the controller is updated, no node is created or deleted); it leaves the
    controller as it was; and it issues at most one request. *)
Theorem query_forecast_footprint :
  forall (env : Env) (c : Nodes.Controller),
    out (Nodes.query_forecast env c) = Normal tt /\
    forallb forecast_event (trace (Nodes.query_forecast env c)) = true /\
    final (Nodes.query_forecast env c) = c /\
    (fetches (trace (Nodes.query_forecast env c)) <= 1)%nat.
Proof.
  intros env c. split; [apply query_forecast_normal|].
  assert (H : within forecast_event (fun a b => b = a) (Nodes.query_forecast env)).
  { apply query_forecast_within;
      solve [ reflexivity | intros; congruence ]. }
  split; [exact (proj1 (H c))|]. split; [apply query_forecast_unchanged|].
  apply query_forecast_cost.
Qed.

(** ** The request of [get_weather_data] *)

Lemma string_app_nil_r (s : string) : s ++ "" = s.
Proof. induction s as [|a s IH]; [reflexivity|]. cbn [append]. now rewrite IH. Qed.

Lemma get_weather_data_answered (env : Env) (extra : string) (c : Nodes.Controller)
    (loc id secret days : string) :
  credentials_are c loc id secret ->
  (extra = "forecasts" ->
   NSParameters.get (Nodes.params c) "Forecast Days" = VStr days) ->
  Nodes.get_weather_data env extra c =
    answered env (aeris_request extra loc id secret days) c.
Proof.
  intros (Hl & Hi & Hs) Hd. unfold Nodes.get_weather_data.
  rewrite bind_param, Hl, bind_lift. cbn [py_str_add].
  rewrite bind_param, Hi, bind_lift. cbn [py_str_add].
  rewrite bind_param, Hs, bind_lift. cbn [py_str_add].
  unfold aeris_request, request_suffix, answered.
  destruct (String.eqb extra "forecasts") eqn:Ef.
  - apply String.eqb_eq in Ef. subst extra.
    unfold bind at 1. rewrite bind_param, (Hd eq_refl).
    cbn [lift py_str_add ret out final trace app String.eqb Ascii.eqb Bool.eqb].
    rewrite !string_app_assoc.
    destruct (fetch env _); reflexivity.
  - rewrite bind_ret, bind_emit_after.
    destruct (String.eqb extra "observations/summary").
    + rewrite !string_app_assoc. destruct (fetch env _); reflexivity.
    + rewrite !string_app_assoc, string_app_nil_r.
      destruct (fetch env _); reflexivity.
Qed.

(** X5: when the location and the credentials are strs (and the horizon,
    for a forecast), [get_weather_data] issues exactly one request, built
    from the kind of query, the location and the credentials; it answers
    the decoded body, or None after a log line when the transport fails; it
    raises nothing and leaves the controller as it was. *)
Theorem get_weather_data_contract :
  forall (env : Env) (extra : string) (c : Nodes.Controller)
         (loc id secret days : string),
    credentials_are c loc id secret ->
    (extra = "forecasts" ->
     NSParameters.get (Nodes.params c) "Forecast Days" = VStr days) ->
    requests (trace (Nodes.get_weather_data env extra c)) =
      [aeris_request extra loc id secret days] /\
    final (Nodes.get_weather_data env extra c) = c /\
    out (Nodes.get_weather_data env extra c) =
      Normal (match fetch env (aeris_request extra loc id secret days) with
              | Some jdata => jdata
              | None => VNone
              end) /\
    (fetch env (aeris_request extra loc id secret days) = None <->
     trace (Nodes.get_weather_data env extra c) =
       [ Fetch (aeris_request extra loc id secret days);
         LogError "HTTP request failed for api.aerisapi.com" ]).
Proof.
  intros env extra c loc id secret days Hc Hd.
  rewrite (get_weather_data_answered env extra c loc id secret days Hc Hd).
  unfold answered.
  destruct (fetch env (aeris_request extra loc id secret days)) as [j|];
    cbn [trace final out requests]; repeat split; trivial; discriminate.
Qed.

(** The request of the precipitation summary of the sample controller. *)
Lemma get_weather_data_contract_witness :
  aeris_request "observations/summary" "55555" "id" "secret" "" =
    "http://api.aerisapi.com/observations/summary/55555?client_id=id&client_secret=secret&fields=periods.summary.precip" /\
  requests (trace (Nodes.get_weather_data Samples.silent "observations/summary"
                     Samples.configured_controller)) =
    [aeris_request "observations/summary" "55555" "id" "secret" ""] /\
  final (Nodes.get_weather_data Samples.silent "observations/summary"
           Samples.configured_controller) = Samples.configured_controller /\
  out (Nodes.get_weather_data Samples.silent "observations/summary"
         Samples.configured_controller) =
    Normal (match fetch Samples.silent
                    (aeris_request "observations/summary" "55555" "id" "secret" "") with
            | Some jdata => jdata
            | None => VNone
            end) /\
  (fetch Samples.silent
     (aeris_request "observations/summary" "55555" "id" "secret" "") = None <->
   trace (Nodes.get_weather_data Samples.silent "observations/summary"
            Samples.configured_controller) =
     [ Fetch (aeris_request "observations/summary" "55555" "id" "secret" "");
       LogError "HTTP request failed for api.aerisapi.com" ]).
Proof.
  split; [reflexivity|].
  apply (get_weather_data_contract Samples.silent "observations/summary"
           Samples.configured_controller "55555" "id" "secret" "").
  - repeat split.
  - discriminate.
Defined.

(** ** A horizon that is not a str *)

Lemma py_str_add_error s v e : py_str_add s v = inl e -> e = TypeError.
Proof. destruct v; cbn [py_str_add]; congruence. Qed.

Ltac split_add :=
  match goal with
  | |- context [match py_str_add ?s ?v with _ => _ end] =>
      let E := fresh "E" in
      destruct (py_str_add s v) as [?e|?r] eqn:E;
      [rewrite (py_str_add_error _ _ _ E); reflexivity|clear E]
  end.

Lemma forecast_request_needs_str (env : Env) (c : Nodes.Controller) :
  (forall s, NSParameters.get (Nodes.params c) "Forecast Days" <> VStr s) ->
  Nodes.get_weather_data env "forecasts" c = mkResult [] c (Raised TypeError).
Proof.
  intros Hd. unfold Nodes.get_weather_data.
  rewrite bind_param, bind_lift. split_add.
  rewrite bind_param, bind_lift. split_add.
  rewrite bind_param, bind_lift. split_add.
  cbn [String.eqb Ascii.eqb Bool.eqb].
  unfold bind at 1. rewrite bind_param.
  destruct (NSParameters.get (Nodes.params c) "Forecast Days") eqn:Ev;
    try reflexivity.
  destruct (Hd s eq_refl).
Qed.

(** X6: when the parameter Forecast Days holds a value that is not a str
    (the clamp of [check_params] writes the int 6), a configured query of
    the forecast issues no request and hands no period to any node: the
    request cannot be built, and the TypeError is logged. *)
Theorem horizon_not_a_str_blocks_forecast :
  forall (env : Env) (c : Nodes.Controller),
    Nodes.configured c = true ->
    (forall s, NSParameters.get (Nodes.params c) "Forecast Days" <> VStr s) ->
    Nodes.query_forecast env c =
      mkResult [LogError "Forecast data failure: "; LogExn TypeError] c (Normal tt).
Proof.
  intros env c Hc Hd. unfold Nodes.query_forecast, call.
  rewrite bind_get_self, Hc. cbn [negb].
  match goal with
  | |- context [try_except ?b ?h c] =>
      assert (Hb : b c = mkResult [] c (Raised TypeError))
        by (apply bind_raised, forecast_request_needs_str, Hd);
      rewrite (try_except_raised b h c TypeError) by (rewrite Hb; reflexivity);
      rewrite Hb
  end.
  reflexivity.
Qed.

(** The controller that [check_params] leaves when the horizon was 9: the
    parameter is the int 6, the six nodes are there, and no forecast is
    requested. *)
Lemma horizon_not_a_str_blocks_forecast_witness :
  NSParameters.get
    (Nodes.params (final (Nodes.check_params Samples.silent
                            (Samples.with_days "9" ["forecast_0"]))))
    "Forecast Days" = VInt 6 /\
  Nodes.query_forecast
    (Samples.world None None
       (Some (Samples.forecast_body [Samples.period "2019-01-01T00:00:00-06:00"])))
    (final (Nodes.check_params Samples.silent (Samples.with_days "9" ["forecast_0"]))) =
  mkResult [LogError "Forecast data failure: "; LogExn TypeError]
    (final (Nodes.check_params Samples.silent (Samples.with_days "9" ["forecast_0"])))
    (Normal tt).
Proof.
  split; [vm_compute; reflexivity|].
  apply (horizon_not_a_str_blocks_forecast
           (Samples.world None None
              (Some (Samples.forecast_body [Samples.period "2019-01-01T00:00:00-06:00"])))
           (final (Nodes.check_params Samples.silent
                     (Samples.with_days "9" ["forecast_0"])))).
  - vm_compute. reflexivity.
  - intros s. vm_compute. discriminate.
Defined.

(** ** An answer without observation ends the query *)

Section NoObservation.
Variable env : Env.

Lemma bind_returned {S A B : Type} (m : M S A) (f : A -> M S B) (s s' : S) t :
  m s = mkResult t s' Returned -> bind m f s = mkResult t s' Returned.
Proof. intros H. unfold bind. rewrite H. reflexivity. Qed.

Lemma try_except_returned {S A : Type} (body : M S A) handler (s s' : S) t :
  body s = mkResult t s' Returned ->
  try_except body handler s = mkResult t s' Returned.
Proof. intros H. unfold try_except. rewrite H. reflexivity. Qed.

Lemma returned_observation_ends_query c t :
  Nodes.configured c = true ->
  Nodes.open_observation env c = mkResult t c Returned ->
  Nodes.query_conditions env c = mkResult t c (Normal tt).
Proof.
  intros Hc Ho. unfold Nodes.query_conditions, call.
  rewrite bind_get_self, Hc. cbn [negb].
  rewrite (bind_returned _ _ c c t); [reflexivity|].
  apply try_except_returned, bind_returned, Ho.
Qed.

Lemma py_in_not_None k v b : py_in k v = inr b -> is_None v = false.
Proof. destruct v; cbn [py_in is_None]; congruence. Qed.

Lemma open_observation_lacking c loc id secret :
  credentials_are c loc id secret ->
  lacks_observation (fetch env (aeris_request "observations" loc id secret "")) ->
  exists t,
    Nodes.open_observation env c = mkResult t c Returned /\
    requests t = [aeris_request "observations" loc id secret ""] /\
    drivers_updated t = [].
Proof.
  intros Hp Hl. unfold Nodes.open_observation.
  unfold bind at 1.
  rewrite (get_weather_data_answered env "observations" c loc id secret ""
             Hp ltac:(discriminate)).
  unfold answered. unfold lacks_observation in Hl.
  destruct (fetch env _) as [jdata|]; cbn [out final trace].
  2:{ eexists. split; [reflexivity|]. split; reflexivity. }
  destruct Hl as [->|[Hr|(response & Hr & Hob)]].
  - eexists. split; [reflexivity|]. split; reflexivity.
  - rewrite (py_in_not_None _ _ _ Hr).
    rewrite bind_lift, Hr. cbn [negb].
    eexists. split; [reflexivity|]. split; reflexivity.
  - pose proof (py_getitem_in _ _ _ Hr) as Hin.
    rewrite (py_in_not_None _ _ _ Hin).
    rewrite bind_lift, Hin. cbn [negb].
    rewrite bind_lift, Hr, bind_lift, Hob. cbn [negb].
    eexists. split; [reflexivity|]. split; reflexivity.
Qed.

End NoObservation.

(** X7: when the answer to the request of the observations holds no
    observation, the query of the conditions ends there: the request of
    the observations is the only one (the precipitation summary is not
    queried), no driver is updated, and the controller is unchanged. *)
Theorem no_observation_ends_the_query :
  forall (env : Env) (c : Nodes.Controller) (loc id secret : string),
    Nodes.configured c = true ->
    credentials_are c loc id secret ->
    lacks_observation (fetch env (aeris_request "observations" loc id secret "")) ->
    requests (trace (Nodes.query_conditions env c)) =
      [aeris_request "observations" loc id secret ""] /\
    drivers_updated (trace (Nodes.query_conditions env c)) = [] /\
    final (Nodes.query_conditions env c) = c.
Proof.
  intros env c loc id secret Hc Hp Hl.
  destruct (open_observation_lacking env c loc id secret Hp Hl) as (t & Ho & Hr & Hd).
  rewrite (returned_observation_ends_query env c t Hc Ho).
  cbn [trace final]. repeat split; assumption.
Qed.

(** An answer whose response has no ['ob']: the summary, which the world
    would answer, is not requested. *)
Lemma no_observation_ends_the_query_witness :
  requests (trace (Nodes.query_conditions
     (Samples.world (Some (VDict [("success", VBool true); ("response", VDict [])]))
        (Some Samples.summary_ok) None)
     Samples.configured_controller)) =
    [aeris_request "observations" "55555" "id" "secret" ""] /\
  drivers_updated (trace (Nodes.query_conditions
     (Samples.world (Some (VDict [("success", VBool true); ("response", VDict [])]))
        (Some Samples.summary_ok) None)
     Samples.configured_controller)) = [] /\
  final (Nodes.query_conditions
     (Samples.world (Some (VDict [("success", VBool true); ("response", VDict [])]))
        (Some Samples.summary_ok) None)
     Samples.configured_controller) = Samples.configured_controller.
Proof.
  apply (no_observation_ends_the_query
           (Samples.world (Some (VDict [("success", VBool true); ("response", VDict [])]))
              (Some Samples.summary_ok) None)
           Samples.configured_controller "55555" "id" "secret").
  - reflexivity.
  - repeat split.
  - vm_compute. right. right. exists (VDict []). split; reflexivity.
Defined.

(** ** An observation that is complete *)

Section CompleteObservation.
Variable env : Env.

Lemma extract_observation_complete ob c s sky p :
  snd (fields_trace env (Nodes.tag c) ob plain_fields) = None ->
  py_getitem ob "weatherCoded" = inr (VStr s) ->
  (3 <= List.length (split ":" s))%nat ->
  py_getitem ob "sky" = inr sky ->
  field_value (Nodes.tag c) ob "precipitation" = inr p ->
  Nodes.extract_observation env ob c =
    mkResult (fst (fields_trace env (Nodes.tag c) ob plain_fields)
                ++ coded_events env (split ":" s)
                ++ [driver_event env "GV14" sky])
      c (Normal p).
Proof.
  intros Hall Hw Hlen Hsky Hp. unfold Nodes.extract_observation.
  assert (Hf : Nodes.extract_fields env ob c =
               mkResult (fst (fields_trace env (Nodes.tag c) ob plain_fields))
                 c (Normal tt)).
  { rewrite extract_fields_run, Hall. reflexivity. }
  rewrite (bind_after _ _ _ _ _ _ Hf).
  assert (Hwr : Nodes.extract_weather env ob c =
                mkResult (coded_events env (split ":" s)) c (Normal tt)).
  { rewrite (extract_weather_run env ob c s Hw).
    destruct (Nat.leb_spec 3 (List.length (split ":" s))); [reflexivity|lia]. }
  rewrite (bind_after _ _ _ _ _ _ Hwr).
  rewrite bind_lift, Hsky, bind_update_driver, field_run, Hp.
  reflexivity.
Qed.

Lemma observation_phase_normal c t0 c1 ob tf p :
  Nodes.open_observation env c = mkResult t0 c1 (Normal ob) ->
  Nodes.extract_observation env ob c1 = mkResult tf c1 (Normal p) ->
  Nodes.observation_phase env c = mkResult (t0 ++ tf) c1 (Normal p).
Proof.
  intros Ho Hb. unfold Nodes.observation_phase.
  assert (Hobs : Nodes.observations env c = mkResult (t0 ++ tf) c1 (Normal p)).
  { unfold Nodes.observations. rewrite (bind_after _ _ _ _ _ _ Ho), Hb. reflexivity. }
  unfold try_except. rewrite Hobs. reflexivity.
Qed.

End CompleteObservation.

(** X8: when the envelope is opened, the fourteen plain fields are read,
    the coded weather has three segments or more, and the sky and the
    precipitation are there, the first block updates eighteen drivers in
    the order of the source (a fourth segment of the coded weather is
    ignored), and the summary phase receives the precipitation of the
    observation. *)
Theorem complete_observation_updates_eighteen_drivers :
  forall (env : Env) (c c1 : Nodes.Controller) (t0 : list event) (ob : value)
         (s : string) (sky p : value),
    Nodes.configured c = true ->
    Nodes.open_observation env c = mkResult t0 c1 (Normal ob) ->
    snd (fields_trace env (Nodes.tag c1) ob plain_fields) = None ->
    py_getitem ob "weatherCoded" = inr (VStr s) ->
    (3 <= List.length (split ":" s))%nat ->
    py_getitem ob "sky" = inr sky ->
    field_value (Nodes.tag c1) ob "precipitation" = inr p ->
    trace (Nodes.query_conditions env c) =
      (t0 ++ fst (fields_trace env (Nodes.tag c1) ob plain_fields)
          ++ coded_events env (split ":" s)
          ++ [driver_event env "GV14" sky]
          ++ trace (Nodes.summary_phase env p c1))%list /\
    drivers_updated
      (t0 ++ fst (fields_trace env (Nodes.tag c1) ob plain_fields)
          ++ coded_events env (split ":" s)
          ++ [driver_event env "GV14" sky]) =
      (map fst plain_fields ++ ["GV11"; "GV12"; "GV13"; "GV14"])%list.
Proof.
  intros env c c1 t0 ob s sky p Hc Ho Hall Hw Hlen Hsky Hp. split.
  - rewrite (query_conditions_phases env c _ _ _ Hc
               (observation_phase_normal env c t0 c1 ob _ p Ho
                  (extract_observation_complete env ob c1 s sky p
                     Hall Hw Hlen Hsky Hp))).
    rewrite <- !app_assoc. reflexivity.
  - rewrite !drivers_updated_app, (fields_trace_all env _ _ _ Hall).
    pose proof (open_observation_quiet env c) as (Hq & _). rewrite Ho in Hq.
    cbn [trace] in Hq. rewrite Hq. cbn [app]. f_equal.
    unfold coded_events, coded_drivers.
    destruct (split ":" s) as [|a [|b [|x segs]]]; cbn [List.length] in Hlen;
      try lia.
    cbn [combine map fst snd].
    rewrite !drivers_updated_app || idtac.
    cbn [app]. rewrite !drivers_updated_driver_event. reflexivity.
Qed.

Lemma complete_observation_updates_eighteen_drivers_witness :
  trace (Nodes.query_conditions
           (Samples.world (Some (Samples.observation_body Samples.ob_full))
              (Some Samples.summary_ok) None)
           Samples.configured_controller) =
    ([Fetch Samples.observation_request; LogError "No location data in response."]
       ++ fst (fields_trace
                 (Samples.world (Some (Samples.observation_body Samples.ob_full))
                    (Some Samples.summary_ok) None)
                 (Nodes.tag Samples.configured_controller)
                 (VDict Samples.ob_full) plain_fields)
       ++ coded_events
            (Samples.world (Some (Samples.observation_body Samples.ob_full))
               (Some Samples.summary_ok) None)
            (split ":" "PT:HVY:RA")
       ++ [driver_event
             (Samples.world (Some (Samples.observation_body Samples.ob_full))
                (Some Samples.summary_ok) None)
             "GV14" (VInt 50)]
       ++ trace (Nodes.summary_phase
                   (Samples.world (Some (Samples.observation_body Samples.ob_full))
                      (Some Samples.summary_ok) None)
                   (VFloat 0.5) Samples.configured_controller))%list /\
  drivers_updated
    ([Fetch Samples.observation_request; LogError "No location data in response."]
       ++ fst (fields_trace
                 (Samples.world (Some (Samples.observation_body Samples.ob_full))
                    (Some Samples.summary_ok) None)
                 (Nodes.tag Samples.configured_controller)
                 (VDict Samples.ob_full) plain_fields)
       ++ coded_events
            (Samples.world (Some (Samples.observation_body Samples.ob_full))
               (Some Samples.summary_ok) None)
            (split ":" "PT:HVY:RA")
       ++ [driver_event
             (Samples.world (Some (Samples.observation_body Samples.ob_full))
                (Some Samples.summary_ok) None)
             "GV14" (VInt 50)]) =
    (map fst plain_fields ++ ["GV11"; "GV12"; "GV13"; "GV14"])%list.
Proof.
  apply (complete_observation_updates_eighteen_drivers
           (Samples.world (Some (Samples.observation_body Samples.ob_full))
              (Some Samples.summary_ok) None)
           Samples.configured_controller Samples.configured_controller
           [Fetch Samples.observation_request; LogError "No location data in response."]
           (VDict Samples.ob_full) "PT:HVY:RA" (VInt 50) (VFloat 0.5));
    vm_compute; reflexivity.
Defined.

(** ** The precipitation summary *)

Section Summary.
Variable env : Env.

Lemma summary_of_run {B : Type} response rd (f : value -> M Nodes.Controller B) c :
  summary_of response = inr rd ->
  bind (if is_list response then
          r0 <- lift (py_index response 0) ;;
          periods <- lift (py_getitem r0 "periods") ;;
          p0 <- lift (py_index periods 0) ;;
          lift (py_getitem p0 "summary")
        else
          periods <- lift (py_getitem response "periods") ;;
          p0 <- lift (py_index periods 0) ;;
          lift (py_getitem p0 "summary")) f c = f rd c.
Proof.
  unfold summary_of. intros H.
  assert (E : forall r0,
            match py_getitem r0 "periods" with
            | inl e => inl e
            | inr periods =>
                match py_index periods 0 with
                | inl e => inl e
                | inr p0 => py_getitem p0 "summary"
                end
            end = inr rd ->
            (periods <- lift (py_getitem r0 "periods") ;;
             p0 <- lift (py_index periods 0) ;;
             lift (py_getitem p0 "summary")) c = mkResult [] c (Normal rd)).
  { intros r0 Hr. rewrite bind_lift.
    destruct (py_getitem r0 "periods") as [e|periods]; [discriminate|].
    rewrite bind_lift.
    destruct (py_index periods 0) as [e|p0]; [discriminate|].
    rewrite Hr. reflexivity. }
  revert H. destruct (is_list response).
  - destruct (py_index response 0) as [e|r0] eqn:E0; [discriminate|]. intros H.
    rewrite (bind_after _ _ c c [] rd).
    + apply after_nil.
    + rewrite bind_lift. apply E, H.
  - intros H. rewrite (bind_after _ _ c c [] rd); [apply after_nil|apply E, H].
Qed.

Lemma precipitation_summary_run c loc id secret jdata response rd :
  credentials_are c loc id secret ->
  fetch env (aeris_request "observations/summary" loc id secret "") = Some jdata ->
  py_getitem jdata "response" = inr response ->
  summary_of response = inr rd ->
  Nodes.precipitation_summary env c =
    after [Fetch (aeris_request "observations/summary" loc id secret "")]
      (match py_in "precip" rd with
       | inl e => mkResult [] c (Raised e)
       | inr false => mkResult [] c (Normal tt)
       | inr true =>
           match py_getitem rd "precip" with
           | inl e => mkResult [] c (Raised e)
           | inr precip =>
               match field_value (Nodes.tag c) precip "precip_summary" with
               | inl e => mkResult [] c (Raised e)
               | inr v => mkResult [driver_event env "GV6" v] c (Normal tt)
               end
           end
       end).
Proof.
  intros Hp Hf Hr Hrd. unfold Nodes.precipitation_summary.
  unfold bind at 1.
  rewrite (get_weather_data_answered env "observations/summary" c loc id secret ""
             Hp ltac:(discriminate)).
  unfold answered. rewrite Hf. cbn [out final trace].
  pose proof (py_getitem_in _ _ _ Hr) as Hin.
  rewrite (py_in_not_None _ _ _ Hin).
  rewrite bind_lift, Hin. cbn [negb].
  rewrite bind_lift, Hr.
  rewrite (summary_of_run response rd _ c Hrd).
  rewrite bind_lift.
  unfold after. cbn [trace final out].
  destruct (py_in "precip" rd) as [e|[|]]; try reflexivity.
  rewrite bind_lift.
  destruct (py_getitem rd "precip") as [e|precip]; [reflexivity|].
  rewrite bind_get_self. unfold field_value.
  destruct (dict_get (Nodes.tag c) "precip_summary") as [k|]; [|reflexivity].
  cbn [lift_opt]. rewrite bind_ret, bind_lift.
  destruct (py_getitem precip k) as [e|v]; [reflexivity|].
  rewrite update_driver_run. reflexivity.
Qed.

End Summary.

(** X9: when the summary is answered and its first period holds a
    summary [rd] (the response may be a list or an object), the rain driver
    GV6 is set from the total of [rd['precip']] under the units' key, and
    the precipitation of the observation is not used; when [rd] holds no
    ['precip'], GV6 is not updated at all and nothing is logged. *)
Theorem summary_sets_rain_from_total_or_not_at_all :
  forall (env : Env) (c : Nodes.Controller) (loc id secret : string)
         (jdata response rd p : value),
    credentials_are c loc id secret ->
    fetch env (aeris_request "observations/summary" loc id secret "") = Some jdata ->
    py_getitem jdata "response" = inr response ->
    summary_of response = inr rd ->
    (py_in "precip" rd = inr false ->
     Nodes.summary_phase env p c =
       mkResult [Fetch (aeris_request "observations/summary" loc id secret "")]
         c (Normal tt)) /\
    (forall precip v,
       py_getitem rd "precip" = inr precip ->
       field_value (Nodes.tag c) precip "precip_summary" = inr v ->
       Nodes.summary_phase env p c =
         mkResult [ Fetch (aeris_request "observations/summary" loc id secret "");
                    driver_event env "GV6" v ]
           c (Normal tt)).
Proof.
  intros env c loc id secret jdata response rd p Hp Hf Hr Hrd.
  pose proof (precipitation_summary_run env c loc id secret jdata response rd
                Hp Hf Hr Hrd) as Hrun.
  split.
  - intros Hno. unfold Nodes.summary_phase, try_except.
    rewrite Hrun, Hno. reflexivity.
  - intros precip v Hpre Hv. unfold Nodes.summary_phase, try_except.
    rewrite Hrun, (py_getitem_in _ _ _ Hpre), Hpre, Hv. reflexivity.
Qed.

(** The summary of the sample, a list, and the same as an object. *)
Lemma summary_sets_rain_from_total_or_not_at_all_witness :
  Nodes.summary_phase (Samples.world None (Some Samples.summary_ok) None)
    (VFloat 0.5) Samples.configured_controller =
    mkResult [ Fetch (aeris_request "observations/summary" "55555" "id" "secret" "");
               SetDriver "GV6" 1.25 ]
      Samples.configured_controller (Normal tt).
Proof.
  refine (proj2 (summary_sets_rain_from_total_or_not_at_all
           (Samples.world None (Some Samples.summary_ok) None)
           Samples.configured_controller "55555" "id" "secret"
           Samples.summary_ok
           (VList [VDict [("periods",
              VList [VDict [("summary",
                VDict [("precip", VDict [("totalIN", VFloat 1.25)])])]])]])
           (VDict [("precip", VDict [("totalIN", VFloat 1.25)])])
           (VFloat 0.5) _ _ _ _)
           (VDict [("totalIN", VFloat 1.25)]) (VFloat 1.25) _ _);
    try (vm_compute; reflexivity).
  repeat split.
Defined.

(** ** The tags *)

Lemma dict_get_set {V : Type} (d : dict V) (k k' : string) (v : V) :
  dict_get (dict_set d k v) k' =
    if String.eqb k' k then Some v else dict_get d k'.
Proof.
  induction d as [|[k0 v0] d IH]; cbn [dict_set dict_get].
  - reflexivity.
  - destruct (String.eqb k k0) eqn:E; cbn [dict_get].
    + apply String.eqb_eq in E. subst k0.
      destruct (String.eqb k' k); reflexivity.
    + destruct (String.eqb k' k0) eqn:E'.
      * apply String.eqb_eq in E'. subst k0.
        rewrite String.eqb_sym, E. reflexivity.
      * exact IH.
Qed.

(** Assigning the entries of a table whose keys are distinct: a key of the
    table reads its entry, another key reads what it read before. *)
Lemma dict_get_assigned {V : Type} (kvs : list (string * V)) :
  distinct (map fst kvs) = true ->
  forall (d : dict V) (k : string),
    dict_get (fold_left (fun d kv => dict_set d (fst kv) (snd kv)) kvs d) k =
      match dict_get kvs k with
      | Some v => Some v
      | None => dict_get d k
      end.
Proof.
  induction kvs as [|[k0 v0] kvs IH]; intros Hd d k; [reflexivity|].
  cbn [map fst distinct] in Hd. apply andb_true_iff in Hd as [Hk0 Hd].
  cbn [fold_left fst snd dict_get].
  rewrite (IH Hd), dict_get_set.
  destruct (String.eqb k k0) eqn:E; [|reflexivity].
  apply String.eqb_eq in E. subst k0.
  assert (Hn : dict_get kvs k = None).
  { apply negb_true_iff in Hk0. clear -Hk0.
    induction kvs as [|[k1 v1] kvs IH]; [reflexivity|].
    cbn [map fst existsb] in Hk0. apply orb_false_iff in Hk0 as [H1 H2].
    cbn [dict_get]. rewrite H1. apply IH, H2. }
  rewrite Hn. reflexivity.
Qed.

Lemma tags_of_distinct units : distinct (map fst (tags_of units)) = true.
Proof. unfold tags_of. destruct (Nodes.is_metric units); vm_compute; reflexivity. Qed.

Lemma tags_of_keys units units' : map fst (tags_of units) = map fst (tags_of units').
Proof.
  unfold tags_of.
  destruct (Nodes.is_metric units), (Nodes.is_metric units'); reflexivity.
Qed.

Lemma dict_get_keys {V : Type} (d d' : list (string * V)) (k : string) :
  map fst d = map fst d' -> dict_get d k = None -> dict_get d' k = None.
Proof.
  revert d'. induction d as [|[k0 v0] d IH]; intros [|[k1 v1] d'] Hm Hn;
    try discriminate; [reflexivity|].
  cbn [map fst] in Hm. injection Hm as -> Hm.
  cbn [dict_get] in *. destruct (String.eqb k k1); [discriminate|].
  apply IH; assumption.
Qed.

Lemma set_tags_lookup units c k :
  dict_get (Nodes.tag (final (Nodes.set_tags units c))) k =
    match dict_get (tags_of units) k with
    | Some v => Some v
    | None => dict_get (Nodes.tag c) k
    end.
Proof.
  unfold Nodes.set_tags, Nodes.modify. cbn [final Nodes.tag Nodes.with_tag].
  apply (dict_get_assigned (tags_of units)), tags_of_distinct.
Qed.

(** X10: [set_tags] makes every key of the units' table read its entry
    of that table, whatever the tags held before (only the str ['metric']
    selects the metric table), and leaves every other key as it was; so a
    second [set_tags] overrides the first for every key, and every logical
    field that [query_conditions] reads has a tag afterwards. *)
Theorem set_tags_overrides_the_units_keys :
  forall (units units' : value) (c : Nodes.Controller) (k : string),
    dict_get (Nodes.tag (final (Nodes.set_tags units c))) k =
      match dict_get (tags_of units) k with
      | Some v => Some v
      | None => dict_get (Nodes.tag c) k
      end /\
    dict_get (Nodes.tag (final (Nodes.set_tags units
                                  (final (Nodes.set_tags units' c))))) k =
      dict_get (Nodes.tag (final (Nodes.set_tags units c))) k /\
    (In k fields_read ->
     dict_get (Nodes.tag (final (Nodes.set_tags units c))) k <> None).
Proof.
  intros units units' c k. split; [apply set_tags_lookup|]. split.
  - rewrite !set_tags_lookup.
    destruct (dict_get (tags_of units) k) eqn:E; [reflexivity|].
    rewrite (dict_get_keys _ _ k (tags_of_keys units units') E). reflexivity.
  - intros Hin. rewrite set_tags_lookup.
    assert (H : dict_get (tags_of units) k <> None).
    { unfold tags_of, fields_read, plain_fields in *.
      cbn [map snd app In] in Hin.
      destruct (Nodes.is_metric units);
        repeat (destruct Hin as [<-|Hin]; [vm_compute; discriminate|]);
        destruct Hin. }
    destruct (dict_get (tags_of units) k); [discriminate|contradiction].
Qed.

(** ** How [discover] ends *)

Section DiscoverOutcome.
Variable env : Env.

Lemma uom_loop_outcome l : forall c,
  for_each l (fun day =>
    c <- get_self ;;
    if existsb (String.eqb ("forecast_" ++ str_of_Z day)) (Nodes.nodes c)
    then ret tt else raise (KeyError ("forecast_" ++ str_of_Z day))) c
  = mkResult [] c
      match first_missing (Nodes.nodes c) l with
      | None => Normal tt
      | Some d => Raised (KeyError (forecast_address d))
      end.
Proof.
  induction l as [|d l IH]; intros c; [reflexivity|].
  cbn [for_each first_missing find]. unfold bind at 1. rewrite bind_get_self.
  fold (forecast_address d).
  destruct (existsb (String.eqb (forecast_address d)) (Nodes.nodes c)); cbn [negb].
  - cbn [ret out final trace app]. rewrite IH. reflexivity.
  - reflexivity.
Qed.

Lemma set_driver_uom_outcome u c h :
  py_int env (NSParameters.get (Nodes.params c) "Forecast Days") = Some h ->
  Nodes.set_driver_uom env (VStr u) c =
    mkResult [] c
      match first_missing (Nodes.nodes c) (range 0 h) with
      | None => Normal tt
      | Some d => Raised (KeyError (forecast_address d))
      end.
Proof.
  intros Hh. unfold Nodes.set_driver_uom. cbn [py_str_add lift].
  rewrite bind_ret, bind_param, Hh. cbn [lift_opt]. rewrite bind_ret.
  apply uom_loop_outcome.
Qed.

Lemma discover_after_reconcile c h :
  py_int env (NSParameters.get (Nodes.params c) "Forecast Days") = Some h ->
  Nodes.discover env c =
    after (trace (Nodes.reconcile env c))
      (call (v <- Nodes.param "Units" ;; Nodes.set_driver_uom env v)
         (final (Nodes.reconcile env c))).
Proof.
  intros Hh. destruct (reconcile_run env c h Hh) as (_ & Ho & _).
  unfold Nodes.discover, call.
  rewrite (bind_normal _ _ _ _ _ _
             (eq_trans (result_eta (Nodes.reconcile env c)) (f_equal _ Ho))).
  unfold after.
  destruct ((v <- Nodes.param "Units";; Nodes.set_driver_uom env v)
              (final (Nodes.reconcile env c))) as [t s [[]| |e]]; reflexivity.
Qed.

Lemma discover_final c h :
  py_int env (NSParameters.get (Nodes.params c) "Forecast Days") = Some h ->
  final (Nodes.discover env c) = final (Nodes.reconcile env c).
Proof.
  intros Hh. rewrite (discover_after_reconcile c h Hh).
  unfold after, call. cbn [final].
  rewrite bind_param.
  destruct (set_driver_uom_run env
              (NSParameters.get (Nodes.params (final (Nodes.reconcile env c))) "Units")
              (final (Nodes.reconcile env c))) as [o Ho].
  rewrite Ho. destruct o; reflexivity.
Qed.

End DiscoverOutcome.

(** X11: how [discover] ends. A horizon that [int] rejects raises the
    exception of [int] (ValueError for a str and for nan, OverflowError for
    an infinity, TypeError for None, a list or a dict) before any node is
    deleted or created. Otherwise the nodes are reconciled first; then
    units that are not a str raise TypeError, and with units that are a
    str the call raises KeyError for the first day below the horizon whose
    node the registry lacks (the host refused to create it), and returns
    normally when there is none. *)
Theorem discover_outcome :
  forall (env : Env) (c : Nodes.Controller),
    out (Nodes.discover env c) =
      match py_int env (NSParameters.get (Nodes.params c) "Forecast Days") with
      | None => Raised (int_error (NSParameters.get (Nodes.params c) "Forecast Days"))
      | Some h =>
          match NSParameters.get (Nodes.params c) "Units" with
          | VStr _ =>
              match first_missing (Nodes.nodes (final (Nodes.discover env c)))
                      (range 0 h) with
              | None => Normal tt
              | Some d => Raised (KeyError (forecast_address d))
              end
          | _ => Raised TypeError
          end
      end /\
    (py_int env (NSParameters.get (Nodes.params c) "Forecast Days") = None ->
     trace (Nodes.discover env c) = [] /\ final (Nodes.discover env c) = c).
Proof.
  intros env c.
  destruct (py_int env (NSParameters.get (Nodes.params c) "Forecast Days"))
    as [h|] eqn:Hh.
  2:{ assert (E : Nodes.discover env c =
                    mkResult [] c
                      (Raised (int_error
                                 (NSParameters.get (Nodes.params c) "Forecast Days")))).
      { assert (Hr : Nodes.reconcile env c =
                       mkResult [] c
                         (Raised (int_error
                                    (NSParameters.get (Nodes.params c) "Forecast Days")))).
        { unfold Nodes.reconcile. rewrite bind_param, Hh. reflexivity. }
        unfold Nodes.discover, call.
        rewrite (bind_raised _ _ _ _ _ _ Hr). reflexivity. }
      rewrite E. split; [reflexivity|]. intros _. split; reflexivity. }
  split; [|discriminate].
  rewrite (discover_final env c h Hh).
  rewrite (discover_after_reconcile env c h Hh).
  destruct (reconcile_run env c h Hh) as (_ & _ & Hp & _).
  unfold after, call. cbn [out]. rewrite bind_param, Hp.
  destruct (NSParameters.get (Nodes.params c) "Units") eqn:Hu;
    try reflexivity.
  rewrite (set_driver_uom_outcome env s _ h) by (rewrite Hp; exact Hh).
  cbn [out].
  destruct (first_missing _ _); reflexivity.
Qed.

(** ** Running [discover] again *)

Lemma norm_not_nil (d : Decimal.signed_int) :
  Decimal.norm d <> Decimal.Pos Decimal.Nil /\
  Decimal.norm d <> Decimal.Neg Decimal.Nil.
Proof.
  destruct d as [u|u]; cbn [Decimal.norm]; unfold Decimal.unorm.
  - destruct (Decimal.nzhead u); split; discriminate.
  - destruct (Decimal.nzhead u); split; discriminate.
Qed.

Lemma str_of_Z_inj (a b : Z) : str_of_Z a = str_of_Z b -> a = b.
Proof.
  unfold str_of_Z. intros H.
  assert (Hn : forall n, Z.to_int n = Decimal.norm (Z.to_int n)).
  { intros n. rewrite <- DecimalZ.to_of, DecimalZ.of_to. reflexivity. }
  assert (Hr : forall n, NilZero.int_of_string (NilZero.string_of_int (Z.to_int n))
                         = Some (Z.to_int n)).
  { intros n. apply NilZero.isi; rewrite Hn; apply norm_not_nil. }
  apply DecimalZ.to_int_inj.
  pose proof (Hr a) as Ha. rewrite H, Hr in Ha. congruence.
Qed.

Lemma forecast_address_inj (a b : Z) :
  forecast_address a = forecast_address b -> a = b.
Proof.
  unfold forecast_address. cbn [append]. intros H.
  apply str_of_Z_inj. congruence.
Qed.

Lemma in_range (a b d : Z) : In d (range a b) <-> a <= d < b.
Proof.
  unfold range. rewrite in_map_iff. split.
  - intros (i & <- & Hi). apply in_seq in Hi. lia.
  - intros H. exists (Z.to_nat (d - a)). split; [lia|]. apply in_seq. lia.
Qed.

Section DiscoverAgain.
Variable env : Env.

Lemma with_nodes_same c : Nodes.with_nodes (Nodes.nodes c) c = c.
Proof. destruct c; reflexivity. Qed.

Lemma filter_absent (a : string) (l : list string) :
  ~ In a l -> filter (fun x => negb (String.eqb x a)) l = l.
Proof.
  induction l as [|x l IH]; intros H; [reflexivity|]. cbn [filter].
  destruct (String.eqb_spec x a) as [->|Hne].
  - destruct H. left; reflexivity.
  - cbn [negb]. f_equal. apply IH. intros Hin. apply H. right; exact Hin.
Qed.

Lemma delete_settled l : forall c,
  (forall d, In d l -> delNode_ok env (forecast_address d) = true ->
             ~ In (forecast_address d) (Nodes.nodes c)) ->
  final (for_each l (fun day => Nodes.delete_node env ("forecast_" ++ str_of_Z day)) c)
    = c.
Proof.
  induction l as [|d l IH]; intros c H; [reflexivity|].
  cbn [for_each]. fold (forecast_address d).
  assert (Hd : exists t, Nodes.delete_node env (forecast_address d) c =
                         mkResult t c (Normal tt)).
  { rewrite delete_node_run.
    destruct (delNode_ok env (forecast_address d)) eqn:Hok.
    - rewrite filter_absent by (apply H; [left; reflexivity|exact Hok]).
      rewrite with_nodes_same. eexists; reflexivity.
    - eexists; reflexivity. }
  destruct Hd as [t Hd]. rewrite (bind_normal _ _ _ _ _ _ Hd). cbn [final].
  apply IH. intros d' Hin. apply H. right; exact Hin.
Qed.

Lemma create_settled l : forall c,
  (forall d, In d l -> addNode_ok env (forecast_address d) = true ->
             In (forecast_address d) (Nodes.nodes c)) ->
  final (for_each l (fun day =>
           Nodes.create_node env ("forecast_" ++ str_of_Z day)
             ("Forecast " ++ str_of_Z day)) c) = c.
Proof.
  induction l as [|d l IH]; intros c H; [reflexivity|].
  cbn [for_each]. fold (forecast_address d).
  assert (Hd : exists t, Nodes.create_node env (forecast_address d)
                           ("Forecast " ++ str_of_Z d) c =
                         mkResult t c (Normal tt)).
  { rewrite create_node_run.
    destruct (addNode_ok env (forecast_address d)) eqn:Hok.
    - assert (Hex : existsb (String.eqb (forecast_address d)) (Nodes.nodes c) = true).
      { apply existsb_exists. exists (forecast_address d).
        split; [apply H; [left; reflexivity|exact Hok]|apply String.eqb_refl]. }
      rewrite Hex. eexists; reflexivity.
    - eexists; reflexivity. }
  destruct Hd as [t Hd]. rewrite (bind_normal _ _ _ _ _ _ Hd). cbn [final].
  apply IH. intros d' Hin. apply H. right; exact Hin.
Qed.

Lemma reconcile_settled c h :
  py_int env (NSParameters.get (Nodes.params c) "Forecast Days") = Some h ->
  (forall d, In d (range h 7) -> delNode_ok env (forecast_address d) = true ->
             ~ In (forecast_address d) (Nodes.nodes c)) ->
  (forall d, In d (range 0 h) -> addNode_ok env (forecast_address d) = true ->
             In (forecast_address d) (Nodes.nodes c)) ->
  final (Nodes.reconcile env c) = c.
Proof.
  intros Hh Hdel Hadd. unfold Nodes.reconcile.
  rewrite bind_param, Hh. cbn [lift_opt]. rewrite bind_ret.
  set (del := if h <? 7
              then for_each (range h 7)
                     (fun day => Nodes.delete_node env ("forecast_" ++ str_of_Z day))
              else ret tt).
  assert (Hd : exists t, del c = mkResult t c (Normal tt)).
  { subst del. destruct (h <? 7).
    - destruct (delete_loop env (range h 7) c) as (_ & Ho & _).
      pose proof (delete_settled (range h 7) c Hdel) as Hf.
      eexists. rewrite (result_eta (for_each _ _ c)), Ho, Hf. reflexivity.
    - eexists; reflexivity. }
  destruct Hd as [t Hd]. rewrite (bind_normal _ _ _ _ _ _ Hd). cbn [final].
  apply create_settled, Hadd.
Qed.

Lemma discover_trace c h :
  py_int env (NSParameters.get (Nodes.params c) "Forecast Days") = Some h ->
  trace (Nodes.discover env c) =
    (map (deletion_event env) (range h 7) ++ map (creation_event env) (range 0 h))%list.
Proof.
  intros Hh. rewrite (discover_after_reconcile env c h Hh).
  destruct (reconcile_run env c h Hh) as (Ht & _).
  unfold after, call. cbn [trace]. rewrite bind_param.
  destruct (set_driver_uom_run env
              (NSParameters.get (Nodes.params (final (Nodes.reconcile env c))) "Units")
              (final (Nodes.reconcile env c))) as [o Ho].
  rewrite Ho, Ht. destruct o; cbn [trace]; apply app_nil_r.
Qed.

End DiscoverAgain.

(** X12: running [discover] again. Run a second time with the same
    horizon, while the host answers the deletion of each node of the days
    [h, 7) and the creation of each node of the days [0, h) as it answered
    in the first run, [discover] asks for the same deletions and creations
    and leaves the controller, its registry included, as the first run left
    it, whatever the host accepted or refused. (A host that changes its
    answer for one of these nodes is outside the statement.) *)
Theorem discover_again_changes_nothing :
  forall (env env' : Env) (c : Nodes.Controller) (h : Z),
    py_int env (NSParameters.get (Nodes.params c) "Forecast Days") = Some h ->
    py_int env' (NSParameters.get (Nodes.params c) "Forecast Days") = Some h ->
    (forall d, h <= d < 7 ->
       delNode_ok env' (forecast_address d) = delNode_ok env (forecast_address d)) ->
    (forall d, 0 <= d < h ->
       addNode_ok env' (forecast_address d) = addNode_ok env (forecast_address d)) ->
    final (Nodes.discover env' (final (Nodes.discover env c))) =
      final (Nodes.discover env c) /\
    trace (Nodes.discover env' (final (Nodes.discover env c))) =
      trace (Nodes.discover env c).
Proof.
  intros env env' c h Hh Hh2 Hdel Hadd.
  destruct (reconcile_run env c h Hh) as (_ & _ & Hp & Hn).
  rewrite (discover_final env c h Hh).
  assert (Hh' : py_int env'
                  (NSParameters.get (Nodes.params (final (Nodes.reconcile env c)))
                     "Forecast Days") = Some h)
    by (rewrite Hp; exact Hh2).
  split.
  - rewrite (discover_final env' _ h Hh').
    apply (reconcile_settled env' _ h Hh').
    + intros d Hd Hok Hin. apply Hn in Hin.
      rewrite (Hdel d) in Hok by (apply in_range; exact Hd).
      destruct Hin as [[_ Hnd]|(_ & d' & Hd' & Heq)].
      * apply Hnd. split; [exact Hok|]. exists d. split; [exact Hd|reflexivity].
      * apply forecast_address_inj in Heq. subst d'.
        apply in_range in Hd, Hd'. lia.
    + intros d Hd Hok. apply Hn. right.
      rewrite (Hadd d) in Hok by (apply in_range; exact Hd).
      split; [exact Hok|].
      exists d. split; [exact Hd|reflexivity].
  - rewrite (discover_trace env' _ h Hh'), (discover_trace env c h Hh).
    f_equal; apply map_ext_in; intros d Hd; apply in_range in Hd.
    + unfold deletion_event. rewrite (Hdel d Hd). reflexivity.
    + unfold creation_event. rewrite (Hadd d Hd). reflexivity.
Qed.

(** The sample of C6, run twice; in the second run the host refuses the
    node of day 9, which is outside the horizon of 3. *)
Lemma discover_again_changes_nothing_witness :
  final (Nodes.discover (Samples.refusing "forecast_9")
           (final (Nodes.discover Samples.silent
                     (Samples.with_days "3" ["forecast_0"; "forecast_4"])))) =
    final (Nodes.discover Samples.silent
             (Samples.with_days "3" ["forecast_0"; "forecast_4"])) /\
  trace (Nodes.discover (Samples.refusing "forecast_9")
           (final (Nodes.discover Samples.silent
                     (Samples.with_days "3" ["forecast_0"; "forecast_4"])))) =
    trace (Nodes.discover Samples.silent
             (Samples.with_days "3" ["forecast_0"; "forecast_4"])).
Proof.
  apply (discover_again_changes_nothing Samples.silent (Samples.refusing "forecast_9")
           (Samples.with_days "3" ["forecast_0"; "forecast_4"]) 3).
  - reflexivity.
  - reflexivity.
  - intros d Hd.
    assert (Hc : d = 3 \/ d = 4 \/ d = 5 \/ d = 6) by lia.
    destruct Hc as [->|[->|[->| ->]]]; vm_compute; reflexivity.
  - intros d Hd.
    assert (Hc : d = 0 \/ d = 1 \/ d = 2) by lia.
    destruct Hc as [->|[->| ->]]; vm_compute; reflexivity.
Defined.

(** ** The flag [configured] *)

Ltac stays :=
  first
    [ exact stays_configured_trans
    | intros; reflexivity
    | unfold stays_configured; intros;
      first [assumption | reflexivity] ].

(** X13: no handler resets [configured]. Once the flag is true it stays
    true through [parameterHandler] (whatever the new parameters are, also
    when a required one is emptied), [check_params], [discover], [start] and
    [poll]. *)
Theorem configured_is_never_reset :
  forall (env : Env) (c : Nodes.Controller) (custom : dict value) (longpoll : bool),
    Nodes.configured c = true ->
    Nodes.configured (final (Nodes.parameterHandler env custom c)) = true /\
    Nodes.configured (final (Nodes.check_params env c)) = true /\
    Nodes.configured (final (Nodes.discover env c)) = true /\
    Nodes.configured (final (Nodes.start env c)) = true /\
    Nodes.configured (final (Nodes.poll env longpoll c)) = true.
Proof.
  intros env c custom longpoll Hc.
  assert (H1 : within any_event stays_configured (Nodes.parameterHandler env custom))
    by (apply parameterHandler_within; stays).
  assert (H2 : within any_event stays_configured (Nodes.check_params env))
    by (apply check_params_within; stays).
  assert (H3 : within any_event stays_configured (Nodes.discover env))
    by (apply discover_within; stays).
  assert (H4 : within any_event stays_configured (Nodes.start env))
    by (apply start_within; stays).
  assert (H5 : within any_event stays_configured (Nodes.poll env longpoll))
    by (apply poll_within; stays).
  repeat split.
  - exact (proj2 (H1 c) Hc).
  - exact (proj2 (H2 c) Hc).
  - exact (proj2 (H3 c) Hc).
  - exact (proj2 (H4 c) Hc).
  - exact (proj2 (H5 c) Hc).
Qed.

(** The parameters of the sample controller with the client id emptied:
    the store is no longer configured, the flag still is. *)
Lemma configured_is_never_reset_witness :
  NSParameters.isConfigured
    (Nodes.params (final (Nodes.parameterHandler Samples.silent
                            [("ClientID", VStr "")] Samples.configured_controller)))
    = false /\
  Nodes.configured (final (Nodes.parameterHandler Samples.silent
                             [("ClientID", VStr "")] Samples.configured_controller))
    = true /\
  Nodes.configured (final (Nodes.check_params Samples.silent
                             Samples.configured_controller)) = true /\
  Nodes.configured (final (Nodes.discover Samples.silent
                             Samples.configured_controller)) = true /\
  Nodes.configured (final (Nodes.start Samples.silent
                             Samples.configured_controller)) = true /\
  Nodes.configured (final (Nodes.poll Samples.silent false
                             Samples.configured_controller)) = true.
Proof.
  split; [vm_compute; reflexivity|].
  apply (configured_is_never_reset Samples.silent Samples.configured_controller
           [("ClientID", VStr "")] false).
  reflexivity.
Defined.

(** ** [start] *)

Section Start.
Variable env : Env.

Lemma call_not_returned {S : Type} (m : M S unit) (s : S) :
  out (call m s) <> Returned.
Proof. unfold call. destruct (out (m s)) eqn:E; cbn [out]; congruence. Qed.

Lemma no_event_nil (t : list event) : forallb no_event t = true -> t = [].
Proof. destruct t; [reflexivity|discriminate]. Qed.

Lemma check_params_silent c :
  trace (Nodes.check_params env c) = [] /\
  Nodes.force (final (Nodes.check_params env c)) = Nodes.force c.
Proof.
  assert (H : within no_event same_force (Nodes.check_params env)).
  { apply check_params_within; unfold same_force; intros;
      first [reflexivity | congruence]. }
  destruct (H c) as [Ht Hs]. split; [apply no_event_nil, Ht|exact Hs].
Qed.

Lemma registry_quiet (t : list event) :
  forallb registry_event t = true ->
  requests t = [] /\ drivers_updated t = [].
Proof.
  induction t as [|ev t IH]; [split; reflexivity|].
  cbn [forallb]. intros H. apply andb_true_iff in H as [Hev Ht].
  destruct (IH Ht) as [Hr Hd].
  destruct ev; try discriminate; cbn [requests drivers_updated driver_of];
    split; assumption.
Qed.

Lemma discover_registry c :
  forallb registry_event (trace (Nodes.discover env c)) = true /\
  only_nodes c (final (Nodes.discover env c)).
Proof.
  assert (H : within registry_event only_nodes (Nodes.discover env)).
  { apply discover_within;
      first [ exact only_nodes_refl | exact only_nodes_trans
            | intros; assumption | intros [] ?; reflexivity ]. }
  exact (H c).
Qed.

Lemma bind_out_normal {S A B : Type} (m : M S A) (f : A -> M S B) (s : S) a :
  out (m s) = Normal a -> bind m f s = after (trace (m s)) (f a (final (m s))).
Proof. intros H. rewrite bind_result, H. reflexivity. Qed.

Lemma bind_out_raised {S A B : Type} (m : M S A) (f : A -> M S B) (s : S) e :
  out (m s) = Raised e ->
  bind m f s = mkResult (trace (m s)) (final (m s)) (Raised e).
Proof. intros H. rewrite bind_result, H. reflexivity. Qed.

Lemma call_out {S : Type} (m : M S unit) (s : S) :
  out (call m s) = Normal tt \/ exists e, out (call m s) = Raised e.
Proof.
  unfold call. destruct (out (m s)) as [[]| |e] eqn:E; cbn [out]; rewrite ?E; eauto.
Qed.

Lemma call_kept {S : Type} (m : M S unit) (s : S) :
  out (m s) <> Returned -> call m s = m s.
Proof. intros H. unfold call. destruct (out (m s)); congruence. Qed.

(** [start], step by step. *)
Lemma start_run c :
  Nodes.start env c =
    match out (Nodes.check_params env c) with
    | Raised e => mkResult [] (final (Nodes.check_params env c)) (Raised e)
    | _ =>
        match out (Nodes.discover env (tagged env c)) with
        | Raised e =>
            mkResult (trace (Nodes.discover env (tagged env c)))
              (final (Nodes.discover env (tagged env c))) (Raised e)
        | _ =>
            if Nodes.configured (final (Nodes.discover env (tagged env c))) then
              mkResult
                (trace (Nodes.discover env (tagged env c))
                   ++ trace (Nodes.query_conditions env
                               (final (Nodes.discover env (tagged env c))))
                   ++ trace (Nodes.query_forecast env
                               (final (Nodes.query_conditions env
                                         (final (Nodes.discover env (tagged env c)))))))
                (Nodes.with_force false
                   (final (Nodes.query_conditions env
                             (final (Nodes.discover env (tagged env c))))))
                (Normal tt)
            else mkResult (trace (Nodes.discover env (tagged env c)))
                   (final (Nodes.discover env (tagged env c))) (Normal tt)
        end
    end.
Proof.
  unfold Nodes.start.
  destruct (check_params_silent c) as [Ht1 _].
  destruct (call_out
    (c0 <- get_self;;
     (if NSParameters.isConfigured (Nodes.params c0)
      then
       Nodes.modify (Nodes.with_configured true);;
       v <- Nodes.param "Forecast Days";;
       n <- lift_opt (int_error v) (py_int env v);;
       (if n >? 6
        then
         Nodes.modify
           (fun c1 : Nodes.Controller =>
            Nodes.with_params
              (NSParameters.set (Nodes.params c1) "Forecast Days" (VInt 6)) c1)
        else ret tt)
      else ret tt)) c) as [Ho1|[e Ho1]];
    fold (Nodes.check_params env) in Ho1; rewrite Ho1.
  2:{ rewrite call_kept; rewrite (bind_out_raised _ _ _ _ Ho1), ?Ht1;
        [reflexivity|discriminate]. }
  set (c1 := final (Nodes.check_params env c)).
  set (c2 := tagged env c).
  match goal with
  | |- call ?m c = ?rhs => assert (E : m c = rhs)
  end.
  { rewrite (bind_out_normal _ _ _ _ Ho1), Ht1, after_nil. fold c1.
    rewrite bind_param. unfold Nodes.set_tags at 1.
    rewrite bind_modify. change (Nodes.with_tag _ c1) with c2.
    destruct (call_out
      (Nodes.reconcile env;;
       v <- Nodes.param "Units";; Nodes.set_driver_uom env v) c2) as [Ho3|[e Ho3]];
      fold (Nodes.discover env) in Ho3; rewrite Ho3.
    2:{ rewrite (bind_out_raised _ _ _ _ Ho3). reflexivity. }
    rewrite (bind_out_normal _ _ _ _ Ho3), bind_get_self.
    destruct (Nodes.configured (final (Nodes.discover env c2))).
    - rewrite (bind_out_normal _ _ _ _ (query_conditions_normal env _)).
      rewrite (bind_out_normal _ _ _ _ (query_forecast_normal env _)).
      rewrite query_forecast_unchanged. unfold after.
      cbn [trace final out Nodes.modify]. rewrite app_nil_r. reflexivity.
    - unfold after. cbn [ret trace final out]. rewrite app_nil_r. reflexivity. }
  rewrite call_kept; [exact E|]. rewrite E.
  destruct (out (Nodes.discover env c2)); try discriminate;
    destruct (Nodes.configured (final (Nodes.discover env c2))); discriminate.
Qed.

End Start.


Lemma only_latitude_configured a b :
  only_latitude a b -> Nodes.configured b = Nodes.configured a.
Proof. intros ->. reflexivity. Qed.

Lemma only_nodes_force a b : only_nodes a b -> Nodes.force b = Nodes.force a.
Proof. intros ->. reflexivity. Qed.

Lemma tagged_force env c :
  Nodes.force (tagged env c) = Nodes.force (final (Nodes.check_params env c)).
Proof.
  unfold tagged, Nodes.set_tags, Nodes.modify.
  cbn [final Nodes.force Nodes.with_tag]. reflexivity.
Qed.

(** What follows from the steps of [start] for its result [r]. *)
Lemma start_shape (c : Nodes.Controller) (r r3 r4 : result Nodes.Controller unit)
    (o1 : outcome unit) (c1 : Nodes.Controller) (t5 : list event) :
  r = match o1 with
      | Raised e => mkResult [] c1 (Raised e)
      | _ =>
          match out r3 with
          | Raised e => mkResult (trace r3) (final r3) (Raised e)
          | _ =>
              if Nodes.configured (final r3) then
                mkResult (trace r3 ++ trace r4 ++ t5)
                  (Nodes.with_force false (final r4)) (Normal tt)
              else mkResult (trace r3) (final r3) (Normal tt)
          end
      end ->
  Nodes.force c1 = Nodes.force c ->
  Nodes.force (final r3) = Nodes.force c ->
  requests (trace r3) = [] ->
  drivers_updated (trace r3) = [] ->
  Nodes.configured (final r4) = Nodes.configured (final r3) ->
  (forall e, out r = Raised e ->
     requests (trace r) = [] /\
     drivers_updated (trace r) = [] /\
     Nodes.force (final r) = Nodes.force c) /\
  (out r = Normal tt ->
   if Nodes.configured (final r)
   then Nodes.force (final r) = false
   else requests (trace r) = [] /\
        drivers_updated (trace r) = [] /\
        Nodes.force (final r) = Nodes.force c).
Proof.
  intros -> Hf1 Hf3 Hrq Hdu Hc4.
  destruct o1 as [[]| |e1].
  - destruct (out r3) as [[]| |e3].
    + destruct (Nodes.configured (final r3)) eqn:Hc3; cbn [out trace final].
      * split; [intros e0 H0; discriminate H0|]. intros _.
        cbn [Nodes.configured Nodes.with_force Nodes.force]. rewrite Hc4.
        reflexivity.
      * split; [intros e0 H0; discriminate H0|]. intros _.
        rewrite Hc3. repeat split; assumption.
    + destruct (Nodes.configured (final r3)) eqn:Hc3; cbn [out trace final].
      * split; [intros e0 H0; discriminate H0|]. intros _.
        cbn [Nodes.configured Nodes.with_force Nodes.force]. rewrite Hc4.
        reflexivity.
      * split; [intros e0 H0; discriminate H0|]. intros _.
        rewrite Hc3. repeat split; assumption.
    + cbn [out trace final]. split; [|intros H0; discriminate H0].
      intros e _. repeat split; assumption.
  - destruct (out r3) as [[]| |e3].
    + destruct (Nodes.configured (final r3)) eqn:Hc3; cbn [out trace final].
      * split; [intros e0 H0; discriminate H0|]. intros _.
        cbn [Nodes.configured Nodes.with_force Nodes.force]. rewrite Hc4.
        reflexivity.
      * split; [intros e0 H0; discriminate H0|]. intros _.
        rewrite Hc3. repeat split; assumption.
    + destruct (Nodes.configured (final r3)) eqn:Hc3; cbn [out trace final].
      * split; [intros e0 H0; discriminate H0|]. intros _.
        cbn [Nodes.configured Nodes.with_force Nodes.force]. rewrite Hc4.
        reflexivity.
      * split; [intros e0 H0; discriminate H0|]. intros _.
        rewrite Hc3. repeat split; assumption.
    + cbn [out trace final]. split; [|intros H0; discriminate H0].
      intros e _. repeat split; assumption.
  - cbn [out trace final]. split; [|intros H0; discriminate H0].
    intros e _. repeat split; trivial.
Qed.

(** X14: [start] queries the provider only when the controller is
    configured. When [start] raises (the horizon is not an integer, or the
    host refused a node of the horizon), no request was issued, no driver
    was updated and [force] is as it was. When it returns and the
    controller is configured, [force] is false; when it returns and the
    controller is not configured, nothing was requested and [force] is as
    it was. *)
Theorem start_queries_only_when_configured :
  forall (env : Env) (c : Nodes.Controller),
    (forall e, out (Nodes.start env c) = Raised e ->
       requests (trace (Nodes.start env c)) = [] /\
       drivers_updated (trace (Nodes.start env c)) = [] /\
       Nodes.force (final (Nodes.start env c)) = Nodes.force c) /\
    (out (Nodes.start env c) = Normal tt ->
     if Nodes.configured (final (Nodes.start env c))
     then Nodes.force (final (Nodes.start env c)) = false
     else requests (trace (Nodes.start env c)) = [] /\
          drivers_updated (trace (Nodes.start env c)) = [] /\
          Nodes.force (final (Nodes.start env c)) = Nodes.force c).
Proof.
  intros env c.
  destruct (check_params_silent env c) as [_ Hf1].
  destruct (discover_registry env (tagged env c)) as [Hreg Hn].
  destruct (registry_quiet _ Hreg) as [Hrq Hdu].
  destruct (query_conditions_only_latitude env
              (final (Nodes.discover env (tagged env c)))) as [_ Hl].
  apply (start_shape c _ _ _ _ _ _ (start_run env c)).
  - exact Hf1.
  - rewrite (only_nodes_force _ _ Hn), tagged_force. exact Hf1.
  - exact Hrq.
  - exact Hdu.
  - exact (only_latitude_configured _ _ Hl).
Qed.

(** ** The periods that are dispatched *)

Section Dispatch.
Variable env : Env.

Lemma forecast_period_ready c h day p :
  py_int env (NSParameters.get (Nodes.params c) "Forecast Days") = Some h ->
  dated p -> node_ready env c day ->
  Nodes.forecast_period env day p c =
    mkResult (handed_periods c day 1 [p]) c
      (if day + 1 >=? h then Returned else Normal (day + 1)).
Proof.
  intros Hh [iso Hiso] [Hn Hok]. unfold Nodes.forecast_period.
  fold (forecast_address day).
  rewrite bind_lift, Hiso. cbn [py_str_add]. rewrite bind_lift.
  unfold Nodes.update_forecast. unfold bind at 1. rewrite bind_get_self, Hn.
  rewrite bind_emit_after, Hok. unfold after. cbn [ret trace final out app].
  rewrite bind_param, Hh. cbn [lift_opt]. rewrite bind_ret.
  destruct (day + 1 >=? h); reflexivity.
Qed.

Lemma forecast_loop_ready c h :
  py_int env (NSParameters.get (Nodes.params c) "Forecast Days") = Some h ->
  forall periods day,
    Forall dated periods ->
    (day < h \/ day = 0) ->
    (forall d, day <= d < day + Z.max 1 (h - day) ->
               d < day + Z.of_nat (List.length periods) -> node_ready env c d) ->
    trace (for_fold periods day (Nodes.forecast_period env) c) =
      handed_periods c day (Z.to_nat (Z.max 1 (h - day))) periods /\
    final (for_fold periods day (Nodes.forecast_period env) c) = c /\
    forall e, out (for_fold periods day (Nodes.forecast_period env) c) <> Raised e.
Proof.
  intros Hh periods. induction periods as [|p periods IH]; intros day Hd Hday Hn.
  - cbn [for_fold ret trace final out].
    destruct (Z.to_nat (Z.max 1 (h - day))); repeat split; discriminate.
  - cbn [for_fold]. inversion Hd as [|? ? Hp Hps]; subst.
    assert (Hr : node_ready env c day).
    { apply Hn; cbn [List.length]; lia. }
    rewrite bind_result, (forecast_period_ready c h day p Hh Hp Hr).
    cbn [out trace final].
    replace (Z.to_nat (Z.max 1 (h - day)))
      with (S (Z.to_nat (Z.max 1 (h - day)) - 1)) by lia.
    cbn [handed_periods].
    destruct (Z.geb_spec (day + 1) h) as [Hge|Hlt].
    + cbn [trace final out].
      replace (Z.to_nat (Z.max 1 (h - day)) - 1)%nat with O by lia.
      destruct periods; repeat split; discriminate.
    + destruct (IH (day + 1) Hps) as (Ht & Hf & Ho).
      * left. lia.
      * intros d H1 H2. apply Hn; cbn [List.length]; lia.
      * unfold after. cbn [trace final out]. rewrite Ht, Hf.
        replace (Z.to_nat (Z.max 1 (h - (day + 1))))
          with (Z.to_nat (Z.max 1 (h - day)) - 1)%nat by lia.
        repeat split. exact Ho.
Qed.

End Dispatch.

(** X15: when the forecast is answered with periods that carry their
    date, and the nodes of the days concerned are in the registry and accept
    a forecast, the query hands the period of rank [i] to the node of
    day [i], for the first [max 1 h] periods ([h] the horizon), each with the
    controller's latitude, elevation, plant type, tags and [force]; the
    periods beyond are not read, and nothing else is recorded. *)
Theorem forecast_periods_go_to_consecutive_days :
  forall (env : Env) (c : Nodes.Controller) (loc id secret days : string) (h : Z)
         (jdata : value) (periods : list value),
    Nodes.configured c = true ->
    credentials_are c loc id secret ->
    NSParameters.get (Nodes.params c) "Forecast Days" = VStr days ->
    int_of_str env days = Some h ->
    fetch env (aeris_request "forecasts" loc id secret days) = Some jdata ->
    periods_of jdata = inr (VList periods) ->
    Forall dated periods ->
    (forall d, 0 <= d < Z.max 1 h -> d < Z.of_nat (List.length periods) ->
               node_ready env c d) ->
    trace (Nodes.query_forecast env c) =
      Fetch (aeris_request "forecasts" loc id secret days)
        :: handed_periods c 0 (Z.to_nat (Z.max 1 h)) periods /\
    final (Nodes.query_forecast env c) = c.
Proof.
  intros env c loc id secret days h jdata periods
         Hc Hp Hd Hh Hf Hper Hdated Hready.
  assert (Hh' : py_int env (NSParameters.get (Nodes.params c) "Forecast Days") = Some h)
    by (rewrite Hd; exact Hh).
  destruct (forecast_loop_ready env c h Hh' periods 0 Hdated) as (Ht & Hfin & Ho).
  { destruct (Z.ltb_spec 0 h); [left; assumption|right; reflexivity]. }
  { intros d H1 H2. apply Hready; lia. }
  replace (h - 0) with h in Ht by lia.
  split; [|apply query_forecast_unchanged].
  unfold Nodes.query_forecast. rewrite call_trace, bind_get_self, Hc. cbn [negb].
  unfold periods_of in Hper.
  destruct (py_getitem jdata "response") as [e|response] eqn:Hr; [discriminate|].
  destruct (py_index response 0) as [e|r0] eqn:H0; [discriminate|].
  assert (Hbody :
    exists o, (forall e, o <> Raised e) /\
    (jdata <- Nodes.get_weather_data env "forecasts" ;;
     if is_None jdata then
       emit (LogError "Current condition query returned no data") ;; return_
     else
     response <- lift (py_getitem jdata "response") ;;
     r0 <- lift (py_index response 0) ;;
     b <- lift (py_in "periods" r0) ;;
     if b then
       periods <- lift (py_getitem r0 "periods") ;;
       _ <- lift (py_len periods) ;;
       l <- lift (py_iter periods) ;;
       _ <- for_fold l 0 (Nodes.forecast_period env) ;;
       ret tt
     else ret tt) c =
    mkResult (Fetch (aeris_request "forecasts" loc id secret days)
                :: handed_periods c 0 (Z.to_nat (Z.max 1 h)) periods) c o).
  { unfold bind at 1.
    rewrite (get_weather_data_answered env "forecasts" c loc id secret days Hp
               (fun _ => Hd)).
    unfold answered. rewrite Hf. cbn [out final trace].
    rewrite (py_in_not_None _ _ _ (py_getitem_in _ _ _ Hr)).
    rewrite bind_lift, Hr, bind_lift, H0, bind_lift.
    rewrite (py_getitem_in _ _ _ Hper), bind_lift, Hper.
    cbn [py_len lift]. rewrite bind_ret. cbn [py_iter lift]. rewrite bind_ret.
    rewrite bind_result.
    destruct (out (for_fold periods 0 (Nodes.forecast_period env) c)) as [d| |e] eqn:Hout.
    - eexists. split; [|unfold after; cbn [ret trace final out app];
                         rewrite Ht, Hfin, app_nil_r; reflexivity]. discriminate.
    - eexists. split; [|cbn [trace final app]; rewrite Ht, Hfin; reflexivity].
      discriminate.
    - destruct (Ho e eq_refl). }
  destruct Hbody as (o & Ho' & Hb).
  unfold try_except. rewrite Hb. cbn [out].
  destruct o as [[]| |e]; try reflexivity. destruct (Ho' e eq_refl).
Qed.

(** Three periods, a horizon of 2 and the nodes of days 0 to 2: the first
    two periods go to the nodes of days 0 and 1. *)
Lemma forecast_periods_go_to_consecutive_days_witness :
  trace (Nodes.query_forecast
     (Samples.world None None
        (Some (Samples.forecast_body
                 [Samples.period "2019-01-01T00:00:00-06:00";
                  Samples.period "2019-01-02T00:00:00-06:00";
                  Samples.period "2019-01-03T00:00:00-06:00"])))
     (Samples.with_days "2" ["forecast_0"; "forecast_1"; "forecast_2"])) =
    Fetch (aeris_request "forecasts" "55555" "id" "secret" "2")
      :: handed_periods
           (Samples.with_days "2" ["forecast_0"; "forecast_1"; "forecast_2"])
           0 (Z.to_nat (Z.max 1 2))
           [Samples.period "2019-01-01T00:00:00-06:00";
            Samples.period "2019-01-02T00:00:00-06:00";
            Samples.period "2019-01-03T00:00:00-06:00"] /\
  final (Nodes.query_forecast
     (Samples.world None None
        (Some (Samples.forecast_body
                 [Samples.period "2019-01-01T00:00:00-06:00";
                  Samples.period "2019-01-02T00:00:00-06:00";
                  Samples.period "2019-01-03T00:00:00-06:00"])))
     (Samples.with_days "2" ["forecast_0"; "forecast_1"; "forecast_2"])) =
    Samples.with_days "2" ["forecast_0"; "forecast_1"; "forecast_2"].
Proof.
  apply (forecast_periods_go_to_consecutive_days
           (Samples.world None None
              (Some (Samples.forecast_body
                       [Samples.period "2019-01-01T00:00:00-06:00";
                        Samples.period "2019-01-02T00:00:00-06:00";
                        Samples.period "2019-01-03T00:00:00-06:00"])))
           (Samples.with_days "2" ["forecast_0"; "forecast_1"; "forecast_2"])
           "55555" "id" "secret" "2" 2
           (Samples.forecast_body
              [Samples.period "2019-01-01T00:00:00-06:00";
               Samples.period "2019-01-02T00:00:00-06:00";
               Samples.period "2019-01-03T00:00:00-06:00"])
           [Samples.period "2019-01-01T00:00:00-06:00";
            Samples.period "2019-01-02T00:00:00-06:00";
            Samples.period "2019-01-03T00:00:00-06:00"]);
    try (vm_compute; reflexivity).
  - repeat split.
  - repeat constructor; eexists; reflexivity.
  - intros d H1 H2.
    assert (Hd : d = 0 \/ d = 1) by lia.
    destruct Hd as [-> | ->]; split; vm_compute; reflexivity.
Defined.

(** ** The legacy forecast over several days *)

Section LegacyDays.
Variable env : Env.







Lemma after_after {S A : Type} (t1 t2 : list event) (r : result S A) :
  after t1 (after t2 r) = after (t1 ++ t2) r.
Proof. unfold after. cbn [trace final out]. now rewrite app_assoc. Qed.


End LegacyDays.



(** ** The legacy observation *)

Section LegacyConditions.
Variable env : Env.

Lemma legacy_update_driver_run d v u (c : Legacy.Controller) :
  Legacy.update_driver env d v u c = mkResult [driver_event env d v] c (Normal tt).
Proof.
  unfold Legacy.update_driver, driver_event. destruct (py_float env v); reflexivity.
Qed.

Lemma update_from_run ob d k (c : Legacy.Controller) :
  Legacy.update_from env ob d k c =
    match py_getitem ob k with
    | inl e => mkResult [] c (Raised e)
    | inr v =>
        match dict_get (Legacy.uom c) d with
        | None => mkResult [] c (Raised (KeyError d))
        | Some _ => mkResult [driver_event env d v] c (Normal tt)
        end
    end.
Proof.
  unfold Legacy.update_from. rewrite bind_lift.
  destruct (py_getitem ob k) as [e|v]; [reflexivity|].
  rewrite bind_get_self, bind_lift_opt.
  destruct (dict_get (Legacy.uom c) d) as [u|]; [|reflexivity].
  apply legacy_update_driver_run.
Qed.

Lemma update_from_step {B : Type} ob d k (rest : M Legacy.Controller B) c :
  (Legacy.update_from env ob d k ;; rest) c =
    match py_getitem ob k with
    | inl e => mkResult [] c (Raised e)
    | inr v =>
        match dict_get (Legacy.uom c) d with
        | None => mkResult [] c (Raised (KeyError d))
        | Some _ => after [driver_event env d v] (rest c)
        end
    end.
Proof.
  rewrite bind_result, update_from_run.
  destruct (py_getitem ob k) as [e|v]; [reflexivity|].
  destruct (dict_get (Legacy.uom c) d); reflexivity.
Qed.

Lemma legacy_fields_run ob c :
  (Legacy.update_from env ob "CLITEMP" "tempC" ;;
   Legacy.update_from env ob "CLIHUM" "humidity" ;;
   Legacy.update_from env ob "BARPRES" "pressureMB" ;;
   Legacy.update_from env ob "GV4" "windSpeedKPH" ;;
   Legacy.update_from env ob "WINDDIR" "windDirDEG" ;;
   Legacy.update_from env ob "GV15" "visibilityKM" ;;
   Legacy.update_from env ob "GV6" "precipMM") c =
  mkResult (fst (legacy_updates env (Legacy.uom c) ob legacy_fields)) c
    (outcome_of (snd (legacy_updates env (Legacy.uom c) ob legacy_fields))).
Proof.
  unfold legacy_fields. cbn [legacy_updates].
  repeat (rewrite update_from_step;
          destruct (py_getitem ob _) as [?e|?v]; [reflexivity|];
          destruct (dict_get (Legacy.uom c) _) as [?u|]; [|reflexivity]).
  rewrite update_from_run.
  destruct (py_getitem ob _) as [?e|?v]; [reflexivity|].
  destruct (dict_get (Legacy.uom c) _) as [?u|]; reflexivity.
Qed.

End LegacyConditions.

(** X17: the legacy query of the conditions, once the envelope is opened,
    updates the seven drivers in the order of the source and stops at the
    first whose key the observation lacks, or which has no unit in
    [self.uom]: the KeyError is not caught and leaves the query, the
    drivers before it are updated, the drivers after it are not. A value
    that is no number costs its own driver only. *)
Theorem legacy_conditions_stop_at_first_missing_key :
  forall (env : Env) (c : Legacy.Controller) (request : string)
         (jdata response ob : value),
    Legacy.configured c = true ->
    Legacy.conditions_request c = inr request ->
    fetch env request = Some jdata ->
    py_getitem jdata "response" = inr response ->
    py_getitem response "ob" = inr ob ->
    Legacy.query_conditions env c =
      mkResult
        (Fetch request
           :: fst (legacy_updates env (Legacy.uom c) ob legacy_fields))
        c
        (outcome_of (snd (legacy_updates env (Legacy.uom c) ob legacy_fields))).
Proof.
  intros env c request jdata response ob Hc Hrq Hf Hr Hob.
  unfold Legacy.query_conditions.
  rewrite call_kept.
  - rewrite bind_get_self, bind_lift, Hrq, Hc. cbn [negb].
    rewrite (bind_request_loads env _ _ _ _ Hf).
    rewrite (py_in_not_None _ _ _ (py_getitem_in _ _ _ Hr)).
    rewrite bind_lift, (py_getitem_in _ _ _ Hr). cbn [negb].
    rewrite bind_lift, Hr, bind_lift, (py_getitem_in _ _ _ Hob). cbn [negb].
    rewrite bind_lift, Hob, legacy_fields_run. reflexivity.
  - rewrite bind_get_self, bind_lift, Hrq, Hc. cbn [negb].
    rewrite (bind_request_loads env _ _ _ _ Hf).
    rewrite (py_in_not_None _ _ _ (py_getitem_in _ _ _ Hr)).
    rewrite bind_lift, (py_getitem_in _ _ _ Hr). cbn [negb].
    rewrite bind_lift, Hr, bind_lift, (py_getitem_in _ _ _ Hob). cbn [negb].
    rewrite bind_lift, Hob, legacy_fields_run. cbn [after out].
    destruct (snd _); discriminate.
Qed.

(** The observation of the sample has a wind speed that is no number: its
    driver is skipped, the six others are set. *)
Lemma legacy_conditions_stop_at_first_missing_key_witness :
  Legacy.query_conditions
    (Samples.world (Some (Samples.observation_body LegacySamples.metric_ob)) None None)
    (LegacySamples.with_units "metric") =
  mkResult
    (Fetch "http://api.aerisapi.com/observations/55555?client_id=JGlB9OD1KA1EvzoSkpBmJ&client_secret=xiZGRDGO61ZP2YZH1YDwVB6tuDMX4Zx3o9yeXDyI"
       :: fst (legacy_updates
                 (Samples.world
                    (Some (Samples.observation_body LegacySamples.metric_ob)) None None)
                 (Legacy.uom (LegacySamples.with_units "metric"))
                 (VDict LegacySamples.metric_ob) legacy_fields))
    (LegacySamples.with_units "metric")
    (outcome_of
       (snd (legacy_updates
               (Samples.world
                  (Some (Samples.observation_body LegacySamples.metric_ob)) None None)
               (Legacy.uom (LegacySamples.with_units "metric"))
               (VDict LegacySamples.metric_ob) legacy_fields))) /\
  fst (legacy_updates
         (Samples.world
            (Some (Samples.observation_body LegacySamples.metric_ob)) None None)
         (Legacy.uom (LegacySamples.with_units "metric"))
         (VDict LegacySamples.metric_ob) legacy_fields) =
    [ SetDriver "CLITEMP" 21; SetDriver "CLIHUM" 40; SetDriver "BARPRES" 1013;
      MissingData "GV4"; SetDriver "WINDDIR" 180; SetDriver "GV15" 16;
      SetDriver "GV6" 0.5 ].
Proof.
  split.
  - apply (legacy_conditions_stop_at_first_missing_key
             (Samples.world
                (Some (Samples.observation_body LegacySamples.metric_ob)) None None)
             (LegacySamples.with_units "metric")
             "http://api.aerisapi.com/observations/55555?client_id=JGlB9OD1KA1EvzoSkpBmJ&client_secret=xiZGRDGO61ZP2YZH1YDwVB6tuDMX4Zx3o9yeXDyI"
             (Samples.observation_body LegacySamples.metric_ob)
             (VDict [("id", VStr "KMSP"); ("ob", VDict LegacySamples.metric_ob)])
             (VDict LegacySamples.metric_ob));
      vm_compute; reflexivity.
  - vm_compute. reflexivity.
Defined.

(** ** The units of the legacy drivers *)

Lemma uom_of_distinct units :
  distinct (map fst (LegacySetup.uom_of units)) = true.
Proof.
  unfold LegacySetup.uom_of. destruct (LegacySetup.is_metric units);
    vm_compute; reflexivity.
Qed.

Lemma declares_keys (drivers : list (string * Z * Z)) :
  forall (table : list (string * Z)) (d : string),
    map (fun e => fst (fst e)) drivers = map fst table ->
    (declares drivers d = true <-> dict_get table d <> None).
Proof.
  unfold declares.
  induction drivers as [|[[k0 i0] z0] drivers IH]; intros [|[k1 z1] table] d Hk;
    try discriminate.
  - cbn. split; [discriminate|congruence].
  - cbn [map fst] in Hk. injection Hk as -> Hk.
    cbn [existsb fst dict_get]. rewrite (String.eqb_sym k1 d).
    destruct (String.eqb d k1).
    + split; [discriminate|reflexivity].
    + cbn [orb]. apply IH, Hk.
Qed.

Lemma declared_has_unit units d :
  declares LegacyDrivers.drivers d = true <->
  dict_get (LegacySetup.uom_of units) d <> None.
Proof.
  apply declares_keys. unfold LegacySetup.uom_of.
  destruct (LegacySetup.is_metric units); reflexivity.
Qed.

Lemma legacy_updates_fail env u ob fields e :
  (forall p, In p fields -> dict_get u (fst p) <> None) ->
  snd (legacy_updates env u ob fields) = Some e ->
  exists p, In p fields /\ py_getitem ob (snd p) = inl e.
Proof.
  induction fields as [|[d k] fields IH]; intros Hu; [discriminate|].
  cbn [legacy_updates].
  destruct (py_getitem ob k) as [e'|v] eqn:Hk.
  - cbn [snd]. intros [= ->]. exists (d, k). split; [left; reflexivity|exact Hk].
  - destruct (dict_get u d) eqn:Hd.
    + destruct (legacy_updates env u ob fields) as [t r] eqn:Hl. cbn [snd] in *.
      intros Hr. destruct IH as (p & Hp & He); [|exact Hr|].
      * intros p Hp. apply Hu. right; exact Hp.
      * exists p. split; [right; exact Hp|exact He].
    + exfalso. apply (Hu (d, k) (or_introl eq_refl)). exact Hd.
Qed.

(** X18: the units of the legacy drivers. [set_driver_uom] of a str gives
    every declared driver the unit of its table (the metric table for
    ['metric'], the imperial one for any other str; the declared units are
    the metric ones) and leaves other keys of [self.uom] alone; of a value
    that is not a str it raises TypeError and assigns nothing. With these
    units the only way the query of the conditions can fail on an
    observation is a key that the observation lacks; with the empty
    [self.uom] of [__init__] it fails at the first driver. *)
Theorem legacy_units_cover_the_drivers :
  forall (units : string) (u0 : dict Z),
    exists u,
      LegacySetup.set_driver_uom (VStr units) u0 = inr u /\
      (forall d,
         dict_get u d =
           match dict_get (LegacySetup.uom_of (VStr units)) d with
           | Some z => Some z
           | None => dict_get u0 d
           end) /\
      (forall d, declares LegacyDrivers.drivers d = true <->
                 dict_get (LegacySetup.uom_of (VStr units)) d <> None) /\
      map (fun e => (fst (fst e), snd e)) LegacyDrivers.drivers =
        LegacySetup.metric_uom /\
      (forall env ob e,
         snd (legacy_updates env u ob legacy_fields) = Some e ->
         exists p, In p legacy_fields /\ py_getitem ob (snd p) = inl e) /\
      (forall env ob v,
         py_getitem ob "tempC" = inr v ->
         legacy_updates env [] ob legacy_fields = ([], Some (KeyError "CLITEMP"))) /\
      (forall v, (forall s, v <> VStr s) ->
                 LegacySetup.set_driver_uom v u0 = inl TypeError).
Proof.
  intros units u0. eexists. split; [reflexivity|].
  assert (Hget : forall d,
    dict_get (fold_left (fun d0 kv => dict_set d0 (fst kv) (snd kv))
                (LegacySetup.uom_of (VStr units)) u0) d =
    match dict_get (LegacySetup.uom_of (VStr units)) d with
    | Some z => Some z
    | None => dict_get u0 d
    end).
  { intros d. apply dict_get_assigned, uom_of_distinct. }
  split; [exact Hget|]. split; [intros d; apply declared_has_unit|].
  split; [reflexivity|]. split; [|split].
  - intros env ob e He. revert He. apply legacy_updates_fail.
    intros p Hp. rewrite Hget.
    assert (Hd : dict_get (LegacySetup.uom_of (VStr units)) (fst p) <> None).
    { apply declared_has_unit. unfold legacy_fields in Hp. cbn [In] in Hp.
      repeat (destruct Hp as [<-|Hp]; [reflexivity|]). destruct Hp. }
    destruct (dict_get (LegacySetup.uom_of (VStr units)) (fst p));
      [discriminate|contradiction].
  - intros env ob v Hv. unfold legacy_fields. cbn [legacy_updates].
    rewrite Hv. reflexivity.
  - intros v Hv. unfold LegacySetup.set_driver_uom.
    destruct v; try reflexivity. destruct (Hv s eq_refl).
Qed.

(** ** The setup of the legacy controller *)


Lemma setup_modify {B : Type} g (f : unit -> M LegacySetup.Settings B) s :
  bind (LegacySetup.modify g) f s = f tt (g s).
Proof.
  unfold bind, LegacySetup.modify; cbn [out final trace app].
  destruct (f tt (g s)) as [t s' [b| |e]]; reflexivity.
Qed.

Lemma py_in_dict k d : py_in k (VDict d) = inr (dict_mem d k).
Proof. reflexivity. Qed.

(** One block of [process_config]. *)
Lemma adopt_run d key get set flag changed s :
  LegacySetup.adopt (VDict d) key get set flag changed s =
    mkResult []
      (match dict_get d key with
       | Some v => if py_eq (get s) v then s else set v s
       | None => s
       end)
      (Normal (if differs d key (get s) then flag else changed)).
Proof.
  unfold LegacySetup.adopt, differs. rewrite bind_lift. cbn [py_in py_getitem].
  unfold dict_mem. destruct (dict_get d key) as [v|]; [|reflexivity].
  rewrite bind_lift, bind_get_self.
  destruct (py_eq (get s) v); cbn [negb]; [reflexivity|].
  rewrite bind_lift, setup_modify. reflexivity.
Qed.

Lemma adopt_units_run d changed s :
  LegacySetup.adopt_units (VDict d) changed s =
    mkResult [] (units_adopted d s)
      (Normal (if differs d "Units" (LegacySetup.units s) then true else changed)).
Proof.
  unfold LegacySetup.adopt_units, differs, units_adopted.
  rewrite bind_lift. cbn [py_in py_getitem].
  unfold dict_mem. destruct (dict_get d "Units") as [v|]; [|reflexivity].
  rewrite bind_lift, bind_get_self.
  destruct (py_eq (LegacySetup.units s) v); cbn [negb]; [reflexivity|].
  rewrite bind_lift, setup_modify.
  unfold LegacySetup.call_set_driver_uom.
  rewrite bind_result. unfold try_except.
  rewrite bind_get_self, bind_get_self. cbn [LegacySetup.units LegacySetup.set_units
    LegacySetup.uom].
  rewrite bind_lift.
  destruct (LegacySetup.set_driver_uom v (LegacySetup.uom s)) as [e|u]; reflexivity.
Qed.

Lemma require_run s :
  LegacySetup.require_location_and_key s =
    mkResult []
      (LegacySetup.set_configured
         (LegacySetup.configured s
          && both_set (LegacySetup.location s) (LegacySetup.apikey s))
         (LegacySetup.set_notices
            (LegacySetup.notices s
               ++ notices_for (LegacySetup.location s) (LegacySetup.apikey s))
            s))
      (Normal tt).
Proof.
  unfold LegacySetup.require_location_and_key, both_set, notices_for,
    LegacySetup.addNotice.
  destruct s as [loc key un conf my pl el uo no se].
  unfold bind, get_self, ret, LegacySetup.modify.
  cbn [LegacySetup.location LegacySetup.apikey trace final out].
  destruct (py_eq loc (VStr ""));
    cbn [LegacySetup.location LegacySetup.apikey LegacySetup.set_notices
         LegacySetup.set_configured LegacySetup.notices LegacySetup.configured
         trace final out app negb andb];
    destruct (py_eq key (VStr ""));
    cbn [LegacySetup.location LegacySetup.apikey LegacySetup.set_notices
         LegacySetup.set_configured LegacySetup.notices LegacySetup.configured
         trace final out app negb andb];
    rewrite ?app_nil_r, ?andb_true_r, ?andb_false_r, <- ?app_assoc;
    reflexivity.
Qed.

Lemma adopt_state_frame {A : Type} (p : LegacySetup.Settings -> A) d key get set s :
  (forall v s0, p (set v s0) = p s0) ->
  p (adopt_state d key get set s) = p s.
Proof.
  intros H. unfold adopt_state.
  destruct (dict_get d key) as [v|]; [|reflexivity].
  destruct (py_eq (get s) v); [reflexivity|apply H].
Qed.

Lemma adopt_state_get d key get set s :
  (forall v s0, get (set v s0) = v) ->
  get (adopt_state d key get set s) = adopted d key (get s).
Proof.
  intros H. unfold adopt_state, adopted.
  destruct (dict_get d key) as [v|]; [|reflexivity].
  destruct (py_eq (get s) v); [reflexivity|apply H].
Qed.

Lemma units_adopted_frame {A : Type} (p : LegacySetup.Settings -> A) d s :
  (forall v s0, p (LegacySetup.set_units v s0) = p s0) ->
  (forall u s0, p (LegacySetup.set_uom u s0) = p s0) ->
  p (units_adopted d s) = p s.
Proof.
  intros H1 H2. unfold units_adopted.
  destruct (dict_get d "Units") as [v|]; [|reflexivity].
  destruct (py_eq (LegacySetup.units s) v); [reflexivity|].
  destruct (LegacySetup.set_driver_uom v (LegacySetup.uom s));
    rewrite ?H2, H1; reflexivity.
Qed.

Lemma units_adopted_units d s :
  LegacySetup.units (units_adopted d s) = adopted d "Units" (LegacySetup.units s).
Proof.
  unfold units_adopted, adopted.
  destruct (dict_get d "Units") as [v|]; [|reflexivity].
  destruct (py_eq (LegacySetup.units s) v); [reflexivity|].
  destruct (LegacySetup.set_driver_uom v (LegacySetup.uom s)); reflexivity.
Qed.

Ltac frames :=
  repeat first
    [ rewrite units_adopted_units
    | rewrite units_adopted_frame by (intros; reflexivity)
    | rewrite adopt_state_get by (intros; reflexivity)
    | rewrite adopt_state_frame by (intros; reflexivity) ].

Lemma settled_fields cp s :
  LegacySetup.location (settled cp s) = adopted cp "Location" (LegacySetup.location s) /\
  LegacySetup.apikey (settled cp s) = adopted cp "APIkey" (LegacySetup.apikey s) /\
  LegacySetup.elevation (settled cp s) = adopted cp "Elevation" (LegacySetup.elevation s) /\
  LegacySetup.plant_type (settled cp s) =
    adopted cp "Plant Type" (LegacySetup.plant_type s) /\
  LegacySetup.units (settled cp s) = adopted cp "Units" (LegacySetup.units s) /\
  LegacySetup.configured (settled cp s) = LegacySetup.configured s /\
  LegacySetup.notices (settled cp s) = LegacySetup.notices s /\
  LegacySetup.sent (settled cp s) = LegacySetup.sent s /\
  LegacySetup.myConfig (settled cp s) = LegacySetup.myConfig s.
Proof. unfold settled. repeat split; frames; reflexivity. Qed.

(** [process_config] on custom parameters that differ from [myConfig]. *)
Lemma process_config_run cfg cp s :
  dict_get cfg "customParams" = Some (VDict cp) ->
  py_eq (VDict cp) (LegacySetup.myConfig s) = false ->
  LegacySetup.process_config (VDict cfg) s = mkResult [] (reconfigured cp s) (Normal tt).
Proof.
  intros Hcp Hne. unfold LegacySetup.process_config.
  assert (Hbody : forall m : M LegacySetup.Settings unit,
            m s = mkResult [] (reconfigured cp s) (Normal tt) ->
            call m s = mkResult [] (reconfigured cp s) (Normal tt)).
  { intros m Hm. unfold call. rewrite Hm. reflexivity. }
  apply Hbody. clear Hbody.
  rewrite bind_lift. cbn [py_in py_getitem]. unfold dict_mem. rewrite Hcp.
  rewrite bind_lift, bind_get_self, Hne. cbn [negb].
  rewrite (bind_silent _ _ _ _ _ (adopt_run cp "Location" _ _ true false s)).
  rewrite (bind_silent _ _ _ _ _ (adopt_run cp "APIkey" _ _ true _ _)).
  rewrite (bind_silent _ _ _ _ _ (adopt_run cp "Elevation" _ _ false _ _)).
  rewrite (bind_silent _ _ _ _ _ (adopt_run cp "Plant Type" _ _ false _ _)).
  rewrite (bind_silent _ _ _ _ _ (adopt_units_run cp _ _)).
  fold (adopt_state cp "Location" LegacySetup.location LegacySetup.set_location s).
  set (s1 := adopt_state cp "Location" LegacySetup.location LegacySetup.set_location s).
  fold (adopt_state cp "APIkey" LegacySetup.apikey LegacySetup.set_apikey s1).
  set (s2 := adopt_state cp "APIkey" LegacySetup.apikey LegacySetup.set_apikey s1).
  fold (adopt_state cp "Elevation" LegacySetup.elevation LegacySetup.set_elevation s2).
  set (s3 := adopt_state cp "Elevation" LegacySetup.elevation LegacySetup.set_elevation s2).
  fold (adopt_state cp "Plant Type" LegacySetup.plant_type LegacySetup.set_plant_type s3).
  set (s4 := adopt_state cp "Plant Type" LegacySetup.plant_type
               LegacySetup.set_plant_type s3).
  change (units_adopted cp s4) with (settled cp s).
  assert (Hflag :
    (if differs cp "Units" (LegacySetup.units s4) then true
     else if differs cp "Plant Type" (LegacySetup.plant_type s3) then false
     else if differs cp "Elevation" (LegacySetup.elevation s2) then false
     else if differs cp "APIkey" (LegacySetup.apikey s1) then true
     else if differs cp "Location" (LegacySetup.location s) then true else false)
    = changed_after s cp).
  { unfold changed_after. subst s4 s3 s2 s1. frames.
    destruct (differs cp "Units" _); [reflexivity|].
    destruct (differs cp "Plant Type" _); [reflexivity|].
    destruct (differs cp "Elevation" _); [reflexivity|].
    destruct (differs cp "APIkey" _); [reflexivity|].
    destruct (differs cp "Location" _); reflexivity. }
  rewrite Hflag. rewrite bind_lift, setup_modify.
  unfold reconfigured. cbn zeta.
  destruct (changed_after s cp); [|reflexivity].
  unfold LegacySetup.removeNoticesAll. rewrite setup_modify, setup_modify.
  rewrite require_run.
  cbn [LegacySetup.configured LegacySetup.set_configured LegacySetup.set_notices
       LegacySetup.notices LegacySetup.location LegacySetup.apikey
       LegacySetup.set_myConfig andb app].
  destruct (settled cp s); reflexivity.
Qed.


Lemma reconfigured_fields cp s :
  LegacySetup.location (reconfigured cp s) =
    adopted cp "Location" (LegacySetup.location s) /\
  LegacySetup.apikey (reconfigured cp s) = adopted cp "APIkey" (LegacySetup.apikey s) /\
  LegacySetup.elevation (reconfigured cp s) =
    adopted cp "Elevation" (LegacySetup.elevation s) /\
  LegacySetup.plant_type (reconfigured cp s) =
    adopted cp "Plant Type" (LegacySetup.plant_type s) /\
  LegacySetup.units (reconfigured cp s) = adopted cp "Units" (LegacySetup.units s) /\
  LegacySetup.myConfig (reconfigured cp s) = VDict cp /\
  LegacySetup.sent (reconfigured cp s) = LegacySetup.sent s.
Proof.
  destruct (settled_fields cp s) as (H1 & H2 & H3 & H4 & H5 & _ & _ & H8 & _).
  unfold reconfigured. cbn zeta.
  destruct (changed_after s cp);
    cbn [LegacySetup.location LegacySetup.apikey LegacySetup.elevation
         LegacySetup.plant_type LegacySetup.units LegacySetup.myConfig
         LegacySetup.sent LegacySetup.set_configured LegacySetup.set_notices
         LegacySetup.set_myConfig];
    repeat split; assumption.
Qed.

Lemma reconfigured_configured cp s :
  LegacySetup.configured (reconfigured cp s) =
    (if changed_after s cp then
       both_set (adopted cp "Location" (LegacySetup.location s))
                (adopted cp "APIkey" (LegacySetup.apikey s))
     else LegacySetup.configured s) /\
  LegacySetup.notices (reconfigured cp s) =
    (if changed_after s cp then
       notices_for (adopted cp "Location" (LegacySetup.location s))
                   (adopted cp "APIkey" (LegacySetup.apikey s))
     else LegacySetup.notices s).
Proof.
  destruct (settled_fields cp s) as (H1 & H2 & _ & _ & _ & H6 & H7 & _).
  unfold reconfigured. cbn zeta.
  destruct (changed_after s cp);
    cbn [LegacySetup.location LegacySetup.apikey LegacySetup.configured
         LegacySetup.notices LegacySetup.set_configured LegacySetup.set_notices
         LegacySetup.set_myConfig];
    rewrite ?H1, ?H2; split; auto.
Qed.

Lemma reconfigured_uom cp s :
  LegacySetup.uom (reconfigured cp s) =
    if differs cp "Units" (LegacySetup.units s) then
      match LegacySetup.set_driver_uom (adopted cp "Units" (LegacySetup.units s))
              (LegacySetup.uom s) with
      | inr u => u
      | inl _ => LegacySetup.uom s
      end
    else LegacySetup.uom s.
Proof.
  assert (H : LegacySetup.uom (reconfigured cp s) = LegacySetup.uom (settled cp s)).
  { unfold reconfigured. cbn zeta. destruct (changed_after s cp); reflexivity. }
  rewrite H. unfold settled.
  set (s4 := adopt_state cp "Plant Type" _ _ _).
  assert (Hu : LegacySetup.units s4 = LegacySetup.units s) by (subst s4; frames; reflexivity).
  assert (Ho : LegacySetup.uom s4 = LegacySetup.uom s) by (subst s4; frames; reflexivity).
  unfold units_adopted, differs, adopted. rewrite Hu, Ho.
  destruct (dict_get cp "Units") as [v|]; [|exact Ho].
  destruct (py_eq (LegacySetup.units s) v); cbn [negb]; [exact Ho|].
  destruct (LegacySetup.set_driver_uom v (LegacySetup.uom s));
    cbn [LegacySetup.uom LegacySetup.set_uom LegacySetup.set_units];
    [exact Ho|reflexivity].
Qed.

(** X19: [process_config] on custom parameters that differ from the ones
    kept in [myConfig] returns normally; each of the five attributes takes
    the value of its key when the key is there and the value differs, and
    keeps its value otherwise; [myConfig] becomes the custom parameters;
    the unit table is rebuilt for the new units when the units differ, and
    is left as it is when they are not a str (the TypeError is swallowed);
    nothing is sent to the host. *)
Theorem process_config_adopts_the_parameters :
  forall (s : LegacySetup.Settings) (cfg cp : dict value),
    dict_get cfg "customParams" = Some (VDict cp) ->
    py_eq (VDict cp) (LegacySetup.myConfig s) = false ->
    out (LegacySetup.process_config (VDict cfg) s) = Normal tt /\
    LegacySetup.location (final (LegacySetup.process_config (VDict cfg) s)) =
      adopted cp "Location" (LegacySetup.location s) /\
    LegacySetup.apikey (final (LegacySetup.process_config (VDict cfg) s)) =
      adopted cp "APIkey" (LegacySetup.apikey s) /\
    LegacySetup.elevation (final (LegacySetup.process_config (VDict cfg) s)) =
      adopted cp "Elevation" (LegacySetup.elevation s) /\
    LegacySetup.plant_type (final (LegacySetup.process_config (VDict cfg) s)) =
      adopted cp "Plant Type" (LegacySetup.plant_type s) /\
    LegacySetup.units (final (LegacySetup.process_config (VDict cfg) s)) =
      adopted cp "Units" (LegacySetup.units s) /\
    LegacySetup.myConfig (final (LegacySetup.process_config (VDict cfg) s)) = VDict cp /\
    LegacySetup.sent (final (LegacySetup.process_config (VDict cfg) s)) =
      LegacySetup.sent s /\
    LegacySetup.uom (final (LegacySetup.process_config (VDict cfg) s)) =
      (if differs cp "Units" (LegacySetup.units s) then
         match LegacySetup.set_driver_uom (adopted cp "Units" (LegacySetup.units s))
                 (LegacySetup.uom s) with
         | inr u => u
         | inl _ => LegacySetup.uom s
         end
       else LegacySetup.uom s).
Proof.
  intros s cfg cp Hcp Hne. rewrite (process_config_run cfg cp s Hcp Hne).
  cbn [out final].
  destruct (reconfigured_fields cp s) as (H1 & H2 & H3 & H4 & H5 & H6 & H7).
  repeat split; try assumption. apply reconfigured_uom.
Qed.

(** A new location, a new elevation and units that are a number. *)
Lemma process_config_adopts_the_parameters_witness :
  let cp := [("Location", VStr "KMSP"); ("Elevation", VInt 250); ("Units", VInt 1)] in
  let s' := final (LegacySetup.process_config (VDict [("customParams", VDict cp)])
                     LegacySetup.init) in
  out (LegacySetup.process_config (VDict [("customParams", VDict cp)])
         LegacySetup.init) = Normal tt /\
  LegacySetup.location s' = VStr "KMSP" /\
  LegacySetup.apikey s' = VStr EmptyString /\
  LegacySetup.elevation s' = VInt 250 /\
  LegacySetup.units s' = VInt 1 /\
  LegacySetup.myConfig s' = VDict cp /\
  LegacySetup.uom s' = [].
Proof.
  intros cp s'.
  destruct (process_config_adopts_the_parameters LegacySetup.init
              [("customParams", VDict cp)] cp eq_refl eq_refl)
    as (H0 & H1 & H2 & H3 & _ & H5 & H6 & _ & H8).
  repeat split; assumption.
Defined.

(** X20: [process_config] evaluates [configured] and the notices anew
    exactly when the local [changed] is true after the five blocks, and
    the last block whose value differs decides it: differing units set it,
    a differing elevation or plant type clears it. So a new location or API
    key that arrives together with a new elevation or plant type (and the
    same units) leaves [configured] and the notices as they were. When they
    are evaluated, [configured] is true iff neither the location nor the
    API key is the empty str, and the notices are the ones of the missing
    parameters. *)
Theorem process_config_checks_after_the_last_change :
  forall (s : LegacySetup.Settings) (cfg cp : dict value),
    dict_get cfg "customParams" = Some (VDict cp) ->
    py_eq (VDict cp) (LegacySetup.myConfig s) = false ->
    (changed_after s cp = true ->
     LegacySetup.configured (final (LegacySetup.process_config (VDict cfg) s)) =
       both_set (adopted cp "Location" (LegacySetup.location s))
                (adopted cp "APIkey" (LegacySetup.apikey s)) /\
     LegacySetup.notices (final (LegacySetup.process_config (VDict cfg) s)) =
       notices_for (adopted cp "Location" (LegacySetup.location s))
                   (adopted cp "APIkey" (LegacySetup.apikey s))) /\
    (changed_after s cp = false ->
     LegacySetup.configured (final (LegacySetup.process_config (VDict cfg) s)) =
       LegacySetup.configured s /\
     LegacySetup.notices (final (LegacySetup.process_config (VDict cfg) s)) =
       LegacySetup.notices s) /\
    (differs cp "Units" (LegacySetup.units s) = false ->
     differs cp "Elevation" (LegacySetup.elevation s)
       || differs cp "Plant Type" (LegacySetup.plant_type s) = true ->
     changed_after s cp = false).
Proof.
  intros s cfg cp Hcp Hne. rewrite (process_config_run cfg cp s Hcp Hne).
  cbn [final]. destruct (reconfigured_configured cp s) as (H1 & H2).
  split; [|split].
  - intros Hc. rewrite Hc in H1, H2. split; assumption.
  - intros Hc. rewrite Hc in H1, H2. split; assumption.
  - intros Hu He. unfold changed_after. rewrite Hu.
    destruct (differs cp "Plant Type" _); [reflexivity|].
    destruct (differs cp "Elevation" _); [reflexivity|discriminate He].
Qed.

(** A first location and API key that come with an elevation: the node
    server stays unconfigured. Without the elevation it is configured. *)
Lemma process_config_checks_after_the_last_change_witness :
  let cp := [("Location", VStr "KMSP"); ("APIkey", VStr "k"); ("Elevation", VInt 250)] in
  let cq := [("Location", VStr "KMSP"); ("APIkey", VStr "k")] in
  LegacySetup.configured
    (final (LegacySetup.process_config (VDict [("customParams", VDict cp)])
              LegacySetup.init)) = false /\
  LegacySetup.configured
    (final (LegacySetup.process_config (VDict [("customParams", VDict cq)])
              LegacySetup.init)) = true.
Proof.
  intros cp cq. split.
  - destruct (process_config_checks_after_the_last_change LegacySetup.init
                [("customParams", VDict cp)] cp eq_refl eq_refl) as (_ & H & _).
    destruct (H eq_refl) as (Hc & _). exact Hc.
  - destruct (process_config_checks_after_the_last_change LegacySetup.init
                [("customParams", VDict cq)] cq eq_refl eq_refl) as (H & _).
    destruct (H eq_refl) as (Hc & _). exact Hc.
Defined.

(** ** Delivering a configuration again *)

Lemma process_config_same cfg cp s :
  dict_get cfg "customParams" = Some cp ->
  py_eq cp (LegacySetup.myConfig s) = true ->
  LegacySetup.process_config (VDict cfg) s = mkResult [] s (Normal tt).
Proof.
  intros Hcp He. unfold LegacySetup.process_config, call.
  rewrite bind_lift. cbn [py_in py_getitem]. unfold dict_mem. rewrite Hcp.
  rewrite bind_lift, bind_get_self, He. reflexivity.
Qed.

(** X21: a configuration delivered a second time changes nothing. After
    [process_config] ran on custom parameters (that equal themselves: no
    nan among them), running it again on the same configuration leaves
    every attribute, the notices and [configured] as the first run left
    them: a check of the location and API key that the first run skipped is
    not made up by the second. *)
Theorem process_config_again_changes_nothing :
  forall (s : LegacySetup.Settings) (cfg cp : dict value),
    dict_get cfg "customParams" = Some (VDict cp) ->
    py_eq (VDict cp) (VDict cp) = true ->
    LegacySetup.process_config (VDict cfg)
      (final (LegacySetup.process_config (VDict cfg) s)) =
    mkResult [] (final (LegacySetup.process_config (VDict cfg) s)) (Normal tt).
Proof.
  intros s cfg cp Hcp Hrefl.
  destruct (py_eq (VDict cp) (LegacySetup.myConfig s)) eqn:He.
  - rewrite (process_config_same cfg (VDict cp) s Hcp He). cbn [final].
    apply (process_config_same cfg (VDict cp) s Hcp He).
  - rewrite (process_config_run cfg cp s Hcp He). cbn [final].
    apply (process_config_same cfg (VDict cp) _ Hcp).
    destruct (reconfigured_fields cp s) as (_ & _ & _ & _ & _ & H6 & _).
    rewrite H6. exact Hrefl.
Qed.

(** The first location and API key arrive with an elevation; the second
    delivery leaves the node server unconfigured as the first did. *)
Lemma process_config_again_changes_nothing_witness :
  LegacySetup.process_config (SetupSamples.config_of SetupSamples.with_elevation)
    (final (LegacySetup.process_config
              (SetupSamples.config_of SetupSamples.with_elevation) LegacySetup.init)) =
  mkResult []
    (final (LegacySetup.process_config
              (SetupSamples.config_of SetupSamples.with_elevation) LegacySetup.init))
    (Normal tt) /\
  LegacySetup.configured
    (final (LegacySetup.process_config
              (SetupSamples.config_of SetupSamples.with_elevation) LegacySetup.init)) =
  false.
Proof.
  split.
  - apply (process_config_again_changes_nothing LegacySetup.init
             [("customParams", VDict SetupSamples.with_elevation)]
             SetupSamples.with_elevation eq_refl eq_refl).
  - vm_compute. reflexivity.
Defined.

(** ** The parameters at start-up *)

Lemma load_run pc cp key set s :
  dict_get pc "customParams" = Some (VDict cp) ->
  LegacySetup.load (VDict pc) key set s =
    mkResult [] (load_state cp key set s) (Normal tt).
Proof.
  intros Hcp. unfold LegacySetup.load, load_state.
  rewrite bind_lift. cbn [py_getitem]. rewrite Hcp.
  rewrite bind_lift. cbn [py_in py_getitem]. unfold dict_mem.
  destruct (dict_get cp key) as [v|] eqn:Hk; [|reflexivity].
  rewrite bind_lift, bind_lift. cbn [py_getitem]. rewrite Hk. reflexivity.
Qed.

Lemma load_state_frame {A : Type} (p : LegacySetup.Settings -> A) cp key set s :
  (forall v s0, p (set v s0) = p s0) ->
  p (load_state cp key set s) = p s.
Proof.
  intros H. unfold load_state. destruct (dict_get cp key); [apply H|reflexivity].
Qed.

Lemma load_state_get (get : LegacySetup.Settings -> value) cp key set s :
  (forall v s0, get (set v s0) = v) ->
  get (load_state cp key set s) = loaded cp key (get s).
Proof.
  intros H. unfold load_state, loaded. destruct (dict_get cp key); [apply H|reflexivity].
Qed.

Ltac loads :=
  repeat first
    [ rewrite load_state_get by (intros; reflexivity)
    | rewrite load_state_frame by (intros; reflexivity) ].

Lemma all_loaded_fields cp s :
  LegacySetup.location (all_loaded cp s) = loaded cp "Location" (LegacySetup.location s) /\
  LegacySetup.apikey (all_loaded cp s) = loaded cp "APIkey" (LegacySetup.apikey s) /\
  LegacySetup.elevation (all_loaded cp s) =
    loaded cp "Elevation" (LegacySetup.elevation s) /\
  LegacySetup.plant_type (all_loaded cp s) =
    loaded cp "Plant Type" (LegacySetup.plant_type s) /\
  LegacySetup.units (all_loaded cp s) = loaded_units cp /\
  LegacySetup.sent (all_loaded cp s) = LegacySetup.sent s /\
  LegacySetup.uom (all_loaded cp s) = LegacySetup.uom s /\
  LegacySetup.myConfig (all_loaded cp s) = LegacySetup.myConfig s.
Proof.
  unfold all_loaded.
  repeat split;
    cbn [LegacySetup.set_units LegacySetup.location LegacySetup.apikey
         LegacySetup.elevation LegacySetup.plant_type LegacySetup.units
         LegacySetup.sent LegacySetup.uom LegacySetup.myConfig];
    loads; reflexivity.
Qed.

(** [check_params] up to its last line, and the last line. *)
Lemma check_params_run pc cp s :
  dict_get pc "customParams" = Some (VDict cp) ->
  LegacySetup.check_params (VDict pc) s =
    match LegacySetup.set_driver_uom (loaded_units cp) (LegacySetup.uom s) with
    | inr u => mkResult [] (LegacySetup.set_uom u (checked cp s)) (Normal tt)
    | inl e => mkResult [] (checked cp s) (Raised e)
    end.
Proof.
  intros Hcp. unfold LegacySetup.check_params.
  assert (Hbody : forall m : M LegacySetup.Settings unit,
            m s = match LegacySetup.set_driver_uom (loaded_units cp) (LegacySetup.uom s) with
                  | inr u => mkResult [] (LegacySetup.set_uom u (checked cp s)) (Normal tt)
                  | inl e => mkResult [] (checked cp s) (Raised e)
                  end ->
            call m s = m s).
  { intros m Hm. apply call_kept. rewrite Hm.
    destruct (LegacySetup.set_driver_uom _ _); discriminate. }
  assert (Hrun :
    (LegacySetup.load (VDict pc) "Location" LegacySetup.set_location ;;
     LegacySetup.load (VDict pc) "APIkey" LegacySetup.set_apikey ;;
     LegacySetup.load (VDict pc) "Elevation" LegacySetup.set_elevation ;;
     LegacySetup.load (VDict pc) "Plant Type" LegacySetup.set_plant_type ;;
     cp0 <- lift (py_getitem (VDict pc) "customParams") ;;
     b <- lift (py_in "Units" cp0) ;;
     (if b then
        cp1 <- lift (py_getitem (VDict pc) "customParams") ;;
        v <- lift (py_getitem cp1 "Units") ;;
        LegacySetup.modify (LegacySetup.set_units v)
      else LegacySetup.modify (LegacySetup.set_units (VStr "metric"))) ;;
     LegacySetup.modify (LegacySetup.set_configured true) ;;
     LegacySetup.modify
       (fun s0 => LegacySetup.set_sent
                    (LegacySetup.sent s0 ++ [LegacySetup.custom_params s0])%list s0) ;;
     LegacySetup.removeNoticesAll ;;
     LegacySetup.require_location_and_key ;;
     s0 <- get_self ;;
     LegacySetup.call_set_driver_uom (LegacySetup.units s0)) s =
    match LegacySetup.set_driver_uom (loaded_units cp) (LegacySetup.uom s) with
    | inr u => mkResult [] (LegacySetup.set_uom u (checked cp s)) (Normal tt)
    | inl e => mkResult [] (checked cp s) (Raised e)
    end).
  { rewrite (bind_silent _ _ _ _ _ (load_run pc cp "Location" _ s Hcp)).
    rewrite (bind_silent _ _ _ _ _ (load_run pc cp "APIkey" _ _ Hcp)).
    rewrite (bind_silent _ _ _ _ _ (load_run pc cp "Elevation" _ _ Hcp)).
    rewrite (bind_silent _ _ _ _ _ (load_run pc cp "Plant Type" _ _ Hcp)).
    set (s4 := load_state cp "Plant Type" _ _).
    rewrite bind_lift. cbn [py_getitem]. rewrite Hcp.
    rewrite bind_lift. cbn [py_in]. unfold dict_mem.
    assert (Hunits : forall k : unit -> M LegacySetup.Settings unit,
      bind (if match dict_get cp "Units" with Some _ => true | None => false end
            then cp1 <- lift (inr (VDict cp)) ;;
                 v <- lift (py_getitem cp1 "Units") ;;
                 LegacySetup.modify (LegacySetup.set_units v)
            else LegacySetup.modify (LegacySetup.set_units (VStr "metric"))) k s4 =
      k tt (all_loaded cp s)).
    { intros k. unfold all_loaded, loaded_units. fold s4.
      destruct (dict_get cp "Units") as [v|] eqn:Hu.
      - rewrite bind_result, bind_lift, bind_lift.
        cbn [py_getitem]. rewrite Hu. unfold LegacySetup.modify at 1.
        cbn [out final trace]. apply after_nil.
      - apply setup_modify. }
    rewrite Hunits. rewrite setup_modify, setup_modify.
    unfold LegacySetup.removeNoticesAll. rewrite setup_modify.
    rewrite (bind_silent _ _ _ _ _ (require_run _)).
    rewrite bind_get_self. unfold LegacySetup.call_set_driver_uom.
    rewrite bind_get_self.
    destruct (all_loaded_fields cp s) as (H1 & H2 & H3 & H4 & H5 & H6 & H7 & H8).
    cbn [LegacySetup.units LegacySetup.uom LegacySetup.set_configured
         LegacySetup.set_notices LegacySetup.set_sent LegacySetup.location
         LegacySetup.apikey LegacySetup.configured LegacySetup.notices andb app].
    rewrite H5, H7, bind_lift.
    unfold checked. cbn zeta.
    destruct (LegacySetup.set_driver_uom (loaded_units cp) (LegacySetup.uom s));
      reflexivity. }
  rewrite (Hbody _ Hrun). exact Hrun.
Qed.

Lemma check_params_no_params pc s :
  dict_get pc "customParams" = None ->
  LegacySetup.check_params (VDict pc) s =
    mkResult [] s (Raised (KeyError "customParams")).
Proof.
  intros Hcp. unfold LegacySetup.check_params, call, LegacySetup.load.
  rewrite bind_result, bind_lift. cbn [py_getitem]. rewrite Hcp. reflexivity.
Qed.

Lemma checked_fields cp s :
  LegacySetup.location (checked cp s) = loaded cp "Location" (LegacySetup.location s) /\
  LegacySetup.apikey (checked cp s) = loaded cp "APIkey" (LegacySetup.apikey s) /\
  LegacySetup.elevation (checked cp s) = loaded cp "Elevation" (LegacySetup.elevation s) /\
  LegacySetup.plant_type (checked cp s) =
    loaded cp "Plant Type" (LegacySetup.plant_type s) /\
  LegacySetup.units (checked cp s) = loaded_units cp /\
  LegacySetup.configured (checked cp s) =
    both_set (loaded cp "Location" (LegacySetup.location s))
             (loaded cp "APIkey" (LegacySetup.apikey s)) /\
  LegacySetup.notices (checked cp s) =
    notices_for (loaded cp "Location" (LegacySetup.location s))
                (loaded cp "APIkey" (LegacySetup.apikey s)) /\
  LegacySetup.sent (checked cp s) =
    (LegacySetup.sent s ++ [LegacySetup.custom_params (checked cp s)])%list /\
  LegacySetup.myConfig (checked cp s) = LegacySetup.myConfig s /\
  LegacySetup.uom (checked cp s) = LegacySetup.uom s.
Proof.
  destruct (all_loaded_fields cp s) as (H1 & H2 & H3 & H4 & H5 & H6 & H7 & H8).
  unfold checked, LegacySetup.custom_params. cbn zeta.
  cbn [LegacySetup.location LegacySetup.apikey LegacySetup.elevation
       LegacySetup.plant_type LegacySetup.units LegacySetup.configured
       LegacySetup.notices LegacySetup.sent LegacySetup.myConfig LegacySetup.uom
       LegacySetup.set_configured LegacySetup.set_notices LegacySetup.set_sent].
  rewrite H1, H2, H3, H4, H5, H6, H7, H8. repeat split; reflexivity.
Qed.

(** X22: [check_params] at start-up. A configuration without
    ['customParams'] raises KeyError at the first line and changes nothing.
    Otherwise each of the four attributes takes the value of its key when
    the key is there, the units take theirs or ['metric'], the notices are
    replaced by the ones of the missing parameters, [configured] is true
    iff neither the location nor the API key is the empty str, and the
    five attributes are sent to the host once, as they are now. The unit
    table is set last and unguarded: with units that are a str the method
    returns normally with the table of these units, with any other units it
    raises TypeError after everything else was done. *)
Theorem check_params_loads_checks_and_reports :
  forall (s : LegacySetup.Settings) (pc : dict value),
    (dict_get pc "customParams" = None ->
     LegacySetup.check_params (VDict pc) s =
       mkResult [] s (Raised (KeyError "customParams"))) /\
    (forall cp : dict value,
       dict_get pc "customParams" = Some (VDict cp) ->
       LegacySetup.location (final (LegacySetup.check_params (VDict pc) s)) =
         loaded cp "Location" (LegacySetup.location s) /\
       LegacySetup.apikey (final (LegacySetup.check_params (VDict pc) s)) =
         loaded cp "APIkey" (LegacySetup.apikey s) /\
       LegacySetup.elevation (final (LegacySetup.check_params (VDict pc) s)) =
         loaded cp "Elevation" (LegacySetup.elevation s) /\
       LegacySetup.plant_type (final (LegacySetup.check_params (VDict pc) s)) =
         loaded cp "Plant Type" (LegacySetup.plant_type s) /\
       LegacySetup.units (final (LegacySetup.check_params (VDict pc) s)) =
         loaded_units cp /\
       LegacySetup.configured (final (LegacySetup.check_params (VDict pc) s)) =
         both_set (loaded cp "Location" (LegacySetup.location s))
                  (loaded cp "APIkey" (LegacySetup.apikey s)) /\
       LegacySetup.notices (final (LegacySetup.check_params (VDict pc) s)) =
         notices_for (loaded cp "Location" (LegacySetup.location s))
                     (loaded cp "APIkey" (LegacySetup.apikey s)) /\
       LegacySetup.sent (final (LegacySetup.check_params (VDict pc) s)) =
         (LegacySetup.sent s
            ++ [LegacySetup.custom_params
                  (final (LegacySetup.check_params (VDict pc) s))])%list /\
       LegacySetup.myConfig (final (LegacySetup.check_params (VDict pc) s)) =
         LegacySetup.myConfig s /\
       trace (LegacySetup.check_params (VDict pc) s) = [] /\
       (forall u : string,
          loaded_units cp = VStr u ->
          out (LegacySetup.check_params (VDict pc) s) = Normal tt /\
          LegacySetup.set_driver_uom (VStr u) (LegacySetup.uom s) =
            inr (LegacySetup.uom (final (LegacySetup.check_params (VDict pc) s)))) /\
       ((forall u : string, loaded_units cp <> VStr u) ->
        out (LegacySetup.check_params (VDict pc) s) = Raised TypeError /\
        LegacySetup.uom (final (LegacySetup.check_params (VDict pc) s)) =
          LegacySetup.uom s)).
Proof.
  intros s pc. split; [apply check_params_no_params|].
  intros cp Hcp. rewrite (check_params_run pc cp s Hcp).
  destruct (checked_fields cp s) as (H1 & H2 & H3 & H4 & H5 & H6 & H7 & H8 & H9 & H10).
  assert (Hstr : forall u, loaded_units cp = VStr u ->
            exists t, LegacySetup.set_driver_uom (loaded_units cp) (LegacySetup.uom s) = inr t).
  { intros u ->. eexists. reflexivity. }
  assert (Hodd : (forall u, loaded_units cp <> VStr u) ->
            LegacySetup.set_driver_uom (loaded_units cp) (LegacySetup.uom s) = inl TypeError).
  { intros Hu. unfold LegacySetup.set_driver_uom.
    destruct (loaded_units cp); try reflexivity. destruct (Hu s0 eq_refl). }
  destruct (LegacySetup.set_driver_uom (loaded_units cp) (LegacySetup.uom s))
    as [e|t] eqn:Eu;
    cbn [final out trace LegacySetup.location LegacySetup.apikey LegacySetup.elevation
         LegacySetup.plant_type LegacySetup.units LegacySetup.configured
         LegacySetup.notices LegacySetup.sent LegacySetup.myConfig LegacySetup.uom
         LegacySetup.set_uom LegacySetup.custom_params].
  - repeat split; try assumption.
    + destruct (Hstr u H) as (t & Ht). discriminate Ht.
    + destruct (Hstr u H) as (t & Ht). discriminate Ht.
    + injection (Hodd H) as ->. reflexivity.
  - repeat split; try assumption.
    + rewrite <- H, Eu. reflexivity.
    + specialize (Hodd H). discriminate Hodd.
    + specialize (Hodd H). discriminate Hodd.
Qed.

(** The first start with a location and an API key, and with units that
    are a number. *)
Lemma check_params_loads_checks_and_reports_witness :
  LegacySetup.check_params (VDict []) LegacySetup.init =
    mkResult [] LegacySetup.init (Raised (KeyError "customParams")) /\
  LegacySetup.configured
    (final (LegacySetup.check_params (SetupSamples.config_of SetupSamples.first_params)
              LegacySetup.init)) = true /\
  LegacySetup.units
    (final (LegacySetup.check_params (SetupSamples.config_of SetupSamples.first_params)
              LegacySetup.init)) = VStr "metric" /\
  out (LegacySetup.check_params (SetupSamples.config_of SetupSamples.first_params)
         LegacySetup.init) = Normal tt /\
  out (LegacySetup.check_params (SetupSamples.config_of SetupSamples.odd_units)
         LegacySetup.init) = Raised TypeError /\
  LegacySetup.notices
    (final (LegacySetup.check_params (SetupSamples.config_of SetupSamples.odd_units)
              LegacySetup.init)) = ["OpenWeatherMap API ID must be set"].
Proof.
  destruct (check_params_loads_checks_and_reports LegacySetup.init []) as (H0 & _).
  destruct (check_params_loads_checks_and_reports LegacySetup.init
              [("customParams", VDict SetupSamples.first_params)]) as (_ & H1).
  destruct (H1 SetupSamples.first_params eq_refl)
    as (_ & _ & _ & _ & Hu & Hc & _ & _ & _ & _ & Hs & _).
  destruct (check_params_loads_checks_and_reports LegacySetup.init
              [("customParams", VDict SetupSamples.odd_units)]) as (_ & H2).
  destruct (H2 SetupSamples.odd_units eq_refl)
    as (_ & _ & _ & _ & _ & _ & Hn & _ & _ & _ & _ & Ho).
  split; [exact (H0 eq_refl)|]. split; [exact Hc|]. split; [exact Hu|].
  split; [exact (proj1 (Hs "metric" eq_refl))|].
  split; [|exact Hn].
  apply Ho. intros u. discriminate.
Defined.

(** ** The parameters sent, delivered back *)

Lemma adopt_state_same cp key get set s :
  dict_get cp key = Some (get s) ->
  py_eq (get s) (get s) = true ->
  adopt_state cp key get set s = s.
Proof. intros Hk He. unfold adopt_state. rewrite Hk, He. reflexivity. Qed.

Lemma differs_same cp key v :
  dict_get cp key = Some v -> py_eq v v = true -> differs cp key v = false.
Proof. intros Hk He. unfold differs. rewrite Hk, He. reflexivity. Qed.

(** X23: the parameters that [check_params] sends to the host, delivered
    back to [process_config], change nothing but [myConfig]: every value
    equals the attribute it came from (no nan among them), so no attribute
    is assigned, the unit table is not rebuilt, and [configured] and the
    notices are not evaluated again. *)
Theorem sent_parameters_delivered_back_change_nothing :
  forall (s : LegacySetup.Settings) (cfg : dict value),
    dict_get cfg "customParams" = Some (VDict (LegacySetup.custom_params s)) ->
    py_eq (VDict (LegacySetup.custom_params s)) (LegacySetup.myConfig s) = false ->
    py_eq (LegacySetup.location s) (LegacySetup.location s) = true ->
    py_eq (LegacySetup.apikey s) (LegacySetup.apikey s) = true ->
    py_eq (LegacySetup.units s) (LegacySetup.units s) = true ->
    py_eq (LegacySetup.elevation s) (LegacySetup.elevation s) = true ->
    py_eq (LegacySetup.plant_type s) (LegacySetup.plant_type s) = true ->
    LegacySetup.process_config (VDict cfg) s =
      mkResult []
        (LegacySetup.set_myConfig (VDict (LegacySetup.custom_params s)) s)
        (Normal tt).
Proof.
  intros s cfg Hcp Hne Hl Hk Hu He Hp.
  rewrite (process_config_run cfg _ s Hcp Hne). f_equal.
  unfold reconfigured, changed_after. cbn zeta.
  rewrite (differs_same (LegacySetup.custom_params s) "Units" (LegacySetup.units s)
             eq_refl Hu).
  rewrite (differs_same (LegacySetup.custom_params s) "Plant Type" (LegacySetup.plant_type s)
             eq_refl Hp).
  rewrite (differs_same (LegacySetup.custom_params s) "Elevation" (LegacySetup.elevation s)
             eq_refl He).
  rewrite (differs_same (LegacySetup.custom_params s) "APIkey" (LegacySetup.apikey s)
             eq_refl Hk).
  rewrite (differs_same (LegacySetup.custom_params s) "Location" (LegacySetup.location s)
             eq_refl Hl).
  cbn [orb]. unfold settled.
  rewrite (adopt_state_same (LegacySetup.custom_params s) "Location" LegacySetup.location
             LegacySetup.set_location s eq_refl Hl).
  rewrite (adopt_state_same (LegacySetup.custom_params s) "APIkey" LegacySetup.apikey
             LegacySetup.set_apikey s eq_refl Hk).
  rewrite (adopt_state_same (LegacySetup.custom_params s) "Elevation" LegacySetup.elevation
             LegacySetup.set_elevation s eq_refl He).
  rewrite (adopt_state_same (LegacySetup.custom_params s) "Plant Type" LegacySetup.plant_type
             LegacySetup.set_plant_type s eq_refl Hp).
  unfold units_adopted.
  change (dict_get (LegacySetup.custom_params s) "Units") with (Some (LegacySetup.units s)).
  cbv beta iota. rewrite Hu. reflexivity.
Qed.

(** The first start with a location and an API key, then the echo. *)
Lemma sent_parameters_delivered_back_change_nothing_witness :
  LegacySetup.process_config
    (SetupSamples.config_of
       (LegacySetup.custom_params
          (final (LegacySetup.check_params
                    (SetupSamples.config_of SetupSamples.first_params)
                    LegacySetup.init))))
    (final (LegacySetup.check_params
              (SetupSamples.config_of SetupSamples.first_params) LegacySetup.init)) =
  mkResult []
    (LegacySetup.set_myConfig
       (VDict
          (LegacySetup.custom_params
             (final (LegacySetup.check_params
                       (SetupSamples.config_of SetupSamples.first_params)
                       LegacySetup.init))))
       (final (LegacySetup.check_params
                 (SetupSamples.config_of SetupSamples.first_params) LegacySetup.init)))
    (Normal tt).
Proof.
  apply (sent_parameters_delivered_back_change_nothing
           (final (LegacySetup.check_params
                     (SetupSamples.config_of SetupSamples.first_params)
                     LegacySetup.init))
           [("customParams",
             VDict (LegacySetup.custom_params
                      (final (LegacySetup.check_params
                                (SetupSamples.config_of SetupSamples.first_params)
                                LegacySetup.init))))]);
    vm_compute; reflexivity.
Defined.
